(** * hikyuu/house.py: the strategy-house manager

    A shallow embedding of [HouseManager] (house registry, part scanner and
    part resolver) together with the [dbsession] decorator, and the
    properties of the manager stated over it.

    Conventions of the embedding:
    - a Python [str] is a [string] that holds the bytes of its UTF-8
      encoding: the tests and splits of house.py are on ASCII characters,
      which no other character's encoding contains;
    - the SQLite tables are lists of rows in rowid order (an INSERT appends);
      the integer primary keys are assigned by the database and are never
      read by the manager, so rows are modelled without them;
    - the manager object, its SQLAlchemy session, the file system and the
      import machinery are one explicit state that every method threads;
      a raised exception leaves the state as it was at the raise;
    - [setup_house] with its [house_config] table and [print_part_info] are
      left out: the first only sets [remote_cache_dir] and registers the
      default house through [add_remote_house], the second only prints. *)

From Stdlib Require Import String Ascii List Bool Arith Lia ZArith Permutation.
Import ListNotations.
Open Scope string_scope.

(* ------------------------------------------------------------------ *)
(** ** Python strings *)

Module PyStr.

(** ['...{}...'.format(a, b, ...)]: each [{}] takes the next argument.
    Every call in house.py passes as many arguments as the template has
    fields; a field without an argument (an IndexError in Python) is left
    empty here. *)
Fixpoint format (fmt : string) (args : list string) : string :=
  match fmt with
  | EmptyString => EmptyString
  | String "{" (String "}" rest) =>
      match args with
      | a :: args' => a ++ format rest args'
      | [] => format rest []
      end
  | String c rest => String c (format rest args)
  end.

(** [s.split(sep)] for a one-character separator. *)
Fixpoint split (sep : ascii) (s : string) : list string :=
  match s with
  | EmptyString => [EmptyString]
  | String c rest =>
      if Ascii.eqb c sep then EmptyString :: split sep rest
      else match split sep rest with
           | h :: t => String c h :: t
           | [] => [String c EmptyString]
           end
  end.

(** [s.startswith(p)] *)
Definition startswith (s p : string) : bool := String.prefix p s.

(** [x in (a, b, ...)] on strings. *)
Fixpoint in_tuple (x : string) (t : list string) : bool :=
  match t with
  | [] => false
  | y :: t' => String.eqb x y || in_tuple x t'
  end.

Definition reverse (s : string) : string :=
  string_of_list_ascii (rev (list_ascii_of_string s)).

Definition bytes (l : list nat) : string :=
  string_of_list_ascii (map ascii_of_nat l).

(** The characters that [str.strip()] removes (Py_UNICODE_ISSPACE), each as
    the bytes of its encoding: U+0009 to U+000D, U+001C to U+0020, U+0085,
    U+00A0, U+1680, U+2000 to U+200A, U+2028, U+2029, U+202F, U+205F and
    U+3000. *)
Definition whitespace : list string :=
  map bytes
    [ [9]; [10]; [11]; [12]; [13]; [28]; [29]; [30]; [31]; [32];
      [194; 133]; [194; 160]; [225; 154; 128];
      [226; 128; 128]; [226; 128; 129]; [226; 128; 130]; [226; 128; 131];
      [226; 128; 132]; [226; 128; 133]; [226; 128; 134]; [226; 128; 135];
      [226; 128; 136]; [226; 128; 137]; [226; 128; 138];
      [226; 128; 168]; [226; 128; 169]; [226; 128; 175]; [226; 129; 159];
      [227; 128; 128] ]%nat.

(** What is left of [s] behind the prefix [p], if [s] starts with it. *)
Fixpoint drop_prefix (p s : string) : option string :=
  match p, s with
  | EmptyString, _ => Some s
  | String a p', String b s' => if Ascii.eqb a b then drop_prefix p' s' else None
  | String _ _, EmptyString => None
  end.

(** What is left of [s] behind the first of [seqs] that it starts with. *)
Fixpoint drop_one (seqs : list string) (s : string) : option string :=
  match seqs with
  | [] => None
  | w :: seqs' =>
      match drop_prefix w s with
      | Some rest => Some rest
      | None => drop_one seqs' s
      end
  end.

(** Drop leading members of [seqs] as long as there are any; no more than
    [fuel] of them, and a string has no more than its length. *)
Fixpoint strip_left (seqs : list string) (fuel : nat) (s : string) : string :=
  match fuel with
  | O => s
  | S fuel' =>
      match drop_one seqs s with
      | Some rest => strip_left seqs fuel' rest
      | None => s
      end
  end.

Definition lstrip (s : string) : string :=
  strip_left whitespace (String.length s) s.

(** At the end of a string the encoding of a character is read backwards. *)
Definition rstrip (s : string) : string :=
  reverse (strip_left (map reverse whitespace) (String.length s) (reverse s)).

(** [s.strip()] *)
Definition strip (s : string) : string := rstrip (lstrip s).

(** Truth value of a string: empty is false. *)
Definition nonempty (s : string) : bool :=
  match s with EmptyString => false | _ => true end.

End PyStr.

(** ** posixpath and pathlib *)

Module OsPath.

(** [os.path.basename(p)]: what follows the last slash. *)
Definition basename (p : string) : string :=
  last (PyStr.split "/" p) EmptyString.

Fixpoint rstrip_sep (l : list ascii) : list ascii :=
  match l with
  | c :: l' => if Ascii.eqb c "/" then rstrip_sep l' else l
  | [] => []
  end.

(** [os.path.dirname(p)]: up to and including the last slash, then with
    trailing slashes removed unless nothing else is left. *)
Definition dirname (p : string) : string :=
  let head := substring 0 (String.length p - String.length (basename p)) p in
  let stripped :=
    string_of_list_ascii (rev (rstrip_sep (rev (list_ascii_of_string head)))) in
  if PyStr.nonempty stripped then stripped else head.

(** [pathlib.Path(p).parts] for a path as [os.path.abspath] returns it:
    the anchor, then the segments.  POSIX keeps exactly two leading slashes
    apart from one, and so do [abspath] and pathlib: the anchor is then
    ["//"]; three or more count as one. *)
Definition anchor (p : string) : list string :=
  if PyStr.startswith p "//" && negb (PyStr.startswith p "///") then ["//"]
  else if PyStr.startswith p "/" then ["/"]
  else [].

Definition parts (p : string) : list string :=
  anchor p ++ filter PyStr.nonempty (PyStr.split "/" p).

End OsPath.

(** Python indexing [l[i]] with a possibly negative index; [None] stands
    for IndexError. *)
Definition py_index {A} (l : list A) (i : Z) : option A :=
  let n := Z.of_nat (List.length l) in
  let j := if (i <? 0)%Z then (i + n)%Z else i in
  if (j <? 0)%Z then None else nth_error l (Z.to_nat j).

(* ------------------------------------------------------------------ *)
(** ** Exceptions and results *)

(** The cause strings of [PartNotFoundError]. *)
Inductive Cause :=
| NotInHouse                      (* '仓库中不存在' *)
| CheckPartPath                   (* '请检查部件对应路径是否存在' *)
| NotAHouseFile (abs_path : string).
                                  (* '当前文件（"{}"）并非仓库中的策略文件，请手工指定仓库名' *)

(** The message strings used with the default check error and RuntimeError. *)
Inductive Message :=
| PathNotFound (path : string)        (* '找不到指定的路径（"{}"）' *)
| HouseNotExists (name : string)      (* '指定的仓库（{}）不存在！' *)
| CheckNetworkOrUrl (url : option string)
                                      (* "请检查网络是否正常或链接地址({})是否正确!" *)
| CannotRemoveDir (path : string).    (* '无法移除目录 "{}"，请手工删除' *)

Inductive exn :=
| HouseNameRepeatError (name : string)
| HouseNotFoundError (name : string)
| ModuleConflictError (house_name conflict_module house_path : string)
| PartNotFoundError (name : string) (cause : Cause)
| PartNameError (name : string)
| HKUCheckError (message : Message)   (* the default exception of [checkif] *)
| RuntimeError (message : Message)
| ModuleNotFoundError (module_name : string)
| FileNotFoundError (path : string)
| OSError (path : string)
| AttributeError
| IndexError
| IntegrityError
| Foreign (cls : string).
  (* an exception of any other class, by the name of the class *)

(** [isinstance(e, Exception)]: what [except Exception] catches.  Loaded
    code may raise a BaseException such as SystemExit. *)
Definition is_Exception (e : exn) : bool :=
  match e with
  | Foreign cls => negb (PyStr.in_tuple cls ["SystemExit"; "KeyboardInterrupt"; "GeneratorExit"])
  | _ => true
  end.

Inductive Result (A : Type) :=
| Ok (a : A)
| Raise (e : exn).
Arguments Ok {A} a.
Arguments Raise {A} e.

(* ------------------------------------------------------------------ *)
(** ** Python values met in part modules *)

Inductive PyVal :=
| PyNone
| PyString (s : string)
| PyObject (truthy : bool).   (* any other object; it has no [strip] *)

Definition truthy (v : PyVal) : bool :=
  match v with
  | PyNone => false
  | PyString s => PyStr.nonempty s
  | PyObject b => b
  end.

(** [v.strip()] *)
Definition py_strip (v : PyVal) : Result string :=
  match v with
  | PyString s => Ok (PyStr.strip s)
  | _ => Raise AttributeError
  end.

Definition kwargs := list (string * PyVal).

(** A strategy part instance: its [name] attribute and what the factory
    was given. *)
Module Part.
Record t := { name : string; params : kwargs }.
End Part.

(** The object bound to [part] in a part module: its documentation string
    and what a call of it yields.  Calling an object that is not callable
    raises TypeError. *)
Module PartFactory.
Record t := {
  __doc__ : PyVal;
  call : kwargs -> Part.t + exn   (* the instance, or the exception raised *)
}.
End PartFactory.

(** [vars(module)] restricted to the names house.py looks at; [None] is
    a name that is not in the module.  The scanner tests only that the name
    [part] is there and never calls it; what is bound to it is taken to be
    the factory. *)
Module PyModule.
Record t := {
  author : option PyVal;
  version : option PyVal;
  part : option PartFactory.t;
  __path__ : option (list string)
}.
End PyModule.

(* ------------------------------------------------------------------ *)
(** ** The tables *)

Module HouseModel.
Record t := {
  name : string;
  house_type : string;
  local : string;
  url : option string;
  branch : option string
}.
End HouseModel.

Module PartModel.
Record t := {
  house_name : string;
  part : string;
  name : string;
  author : string;
  version : string;
  doc : string;
  module_name : string
}.
End PartModel.

Record DB := {
  house_repo : list HouseModel.t;
  house_part : list PartModel.t
}.

Inductive Row :=
| HouseRow (h : HouseModel.t)
| PartRow (p : PartModel.t).

(** A SQLAlchemy session ([autocommit=False, autoflush=False]): [txn] is
    the database as its open transaction sees it (bulk deletes act on it at
    once), [pending] the added objects that wait for the flush at commit. *)
Record Session := {
  txn : DB;
  pending : list Row
}.

(* ------------------------------------------------------------------ *)
(** ** The environment: file system and import machinery *)

Module DirEntry.
Record t := { name : string; is_dir : bool }.
(** [entry.path] of an entry that [os.scandir(dir)] yields. *)
Definition path (dir : string) (e : t) : string := dir ++ "/" ++ name e.
End DirEntry.

Inductive ScandirResult :=
| Listing (entries : list DirEntry.t)
| ScandirNotFound            (* FileNotFoundError *)
| ScandirOSError.            (* NotADirectoryError, PermissionError, ... *)

Inductive ImportResult :=
| Imported (m : PyModule.t)
| ImportNotFound             (* ModuleNotFoundError: there is no such module *)
| ImportRaised (ex : exn).   (* the exception that code run by the import raised *)

Record Env := {
  lexists : string -> bool;
  scandir : string -> ScandirResult;
  import_module : string -> ImportResult;
  abspath : string -> string;
  __file__ : string
}.

(* ------------------------------------------------------------------ *)
(** ** Observable events *)

Inductive LogMessage :=
| HousePathNotExists (house_name local : string)
    (* 'The {} house path ("{}") is not exists! Ignored this house!' *)
| MissingPartFile (path : string)     (* '缺失 part.py 文件, 位置："{}"！' *)
| CannotImport (path : string)        (* '无法导入该文件: {}' *)
| MissingPartFunction (path : string) (* '缺失 part 函数！("{}")' *)
| SyntaxProblem (path : string) (e : exn).
                                      (* '存在语法错误 ("{}/part.py")! {}' *)

Inductive Event :=
| SessionOpened
| Committed (snapshot : DB)
| SessionClosed
| LogWarning (m : LogMessage)
| LogError (m : LogMessage)
| Downloading (local_dir : string)    (* print('正在下载 ...') *)
| Downloaded                          (* print('下载完毕') *)
| Rmtree (local_dir : string)
| CloneFrom (url : option string) (local_dir : string) (branch : option string)
| SysPathAppend (dir : string).

(** The dictionary that [get_part_info] returns. *)
Module PartInfo.
Record t := { name : string; author : string; version : string; doc : string }.
End PartInfo.

(** ** The manager object *)

Record HouseManager := {
  store : DB;                      (* the committed content of stockhouse.db *)
  _session : option Session;
  remote_cache_dir : string;
  env : Env;
  trace : list Event
}.

Definition set_store (x : HouseManager) (db : DB) : HouseManager :=
  {| store := db; _session := _session x; remote_cache_dir := remote_cache_dir x;
     env := env x; trace := trace x |}.

Definition set_session (x : HouseManager) (s : option Session) : HouseManager :=
  {| store := store x; _session := s; remote_cache_dir := remote_cache_dir x;
     env := env x; trace := trace x |}.

Definition set_env (x : HouseManager) (e : Env) : HouseManager :=
  {| store := store x; _session := _session x; remote_cache_dir := remote_cache_dir x;
     env := e; trace := trace x |}.

Definition log (x : HouseManager) (evs : list Event) : HouseManager :=
  {| store := store x; _session := _session x; remote_cache_dir := remote_cache_dir x;
     env := env x; trace := trace x ++ evs |}.

(* ------------------------------------------------------------------ *)
(** ** Methods as state transformers that may raise *)

Definition M (A : Type) : Type := HouseManager -> Result A * HouseManager.

Definition ret {A} (a : A) : M A := fun x => (Ok a, x).

Definition raise {A} (e : exn) : M A := fun x => (Raise e, x).

Definition bind {A B} (m : M A) (k : A -> M B) : M B :=
  fun x =>
    match m x with
    | (Ok a, x') => k a x'
    | (Raise e, x') => (Raise e, x')
    end.

Declare Scope py_scope.
Delimit Scope py_scope with py.
Notation "v <- m ;; k" := (bind m (fun v => k))
  (at level 100, m at next level, right associativity) : py_scope.
Notation "m ;; k" := (bind m (fun _ => k))
  (at level 100, right associativity) : py_scope.
Open Scope py_scope.

(** [try: body except <clauses>]: [handlers e] is the body of the first
    clause that matches [e], if one does. *)
Definition try_except {A} (body : M A) (handlers : exn -> option (M A)) : M A :=
  fun x =>
    match body x with
    | (Ok a, x') => (Ok a, x')
    | (Raise e, x') =>
        match handlers e with
        | Some h => h x'
        | None => (Raise e, x')
        end
    end.

(** [for v in l: body v] *)
Fixpoint for_each {A} (l : list A) (body : A -> M unit) : M unit :=
  match l with
  | [] => ret tt
  | v :: l' => body v ;; for_each l' body
  end.

Definition lift {A} (r : Result A) : M A := fun x => (r, x).

Definition emit (ev : Event) : M unit := fun x => (Ok tt, log x [ev]).

(** [self], to read an attribute of the manager. *)
Definition get_self : M HouseManager := fun x => (Ok x, x).

Definition get_env : M Env := fun x => (Ok (env x), x).

Definition put_env (e : Env) : M unit := fun x => (Ok tt, set_env x e).

(** Modelled from the spec: [hikyuu.util.check.checkif], which house.py
    imports and whose file is not part of the sources.  The spec's "fails
    with E if <condition>" fixes its sense: the exception is raised when
    the expression is true.  Without an exception class the library's
    default check error is raised. *)
Definition checkif (expression : bool) (e : exn) : M unit :=
  if expression then raise e else ret tt.

(** *** The session *)

(** [self._session.query(Model)...]: reads what the transaction sees.
    With [autoflush=False] the pending objects are not flushed first. *)
Definition query : M DB :=
  fun x =>
    match _session x with
    | Some s => (Ok (txn s), x)
    | None => (Raise AttributeError, x)
    end.

(** [.first()] *)
Definition first {A} (f : A -> bool) (l : list A) : option A := List.find f l.

(** [self._session.add(obj)] *)
Definition session_add (r : Row) : M unit :=
  fun x =>
    match _session x with
    | Some s => (Ok tt, set_session x (Some {| txn := txn s; pending := pending s ++ [r] |}))
    | None => (Raise AttributeError, x)
    end.

Definition delete_parts (house_name : string) (db : DB) : DB :=
  {| house_repo := house_repo db;
     house_part :=
       filter (fun p => negb (PartModel.house_name p =? house_name)) (house_part db) |}.

Definition delete_houses (name : string) (db : DB) : DB :=
  {| house_repo := filter (fun h => negb (HouseModel.name h =? name)) (house_repo db);
     house_part := house_part db |}.

(** [self._session.query(Model).filter_by(...).delete()]: a bulk DELETE,
    executed in the transaction at once. *)
Definition bulk_delete (f : DB -> DB) : M unit :=
  fun x =>
    match _session x with
    | Some s => (Ok tt, set_session x (Some {| txn := f (txn s); pending := pending s |}))
    | None => (Raise AttributeError, x)
    end.

(** The flush at commit: INSERT the pending objects in the order they were
    added.  [house_repo] has [UniqueConstraint('name')]; [house_part] has
    no constraint.  [None] is an IntegrityError. *)
Fixpoint flush (db : DB) (rows : list Row) : option DB :=
  match rows with
  | [] => Some db
  | PartRow p :: rows' =>
      flush {| house_repo := house_repo db; house_part := house_part db ++ [p] |} rows'
  | HouseRow h :: rows' =>
      if existsb (fun h' => HouseModel.name h' =? HouseModel.name h) (house_repo db)
      then None
      else flush {| house_repo := house_repo db ++ [h]; house_part := house_part db |} rows'
  end.

(** [self._session.commit()] *)
Definition commit : M unit :=
  fun x =>
    match _session x with
    | Some s =>
        match flush (txn s) (pending s) with
        | Some db =>
            (Ok tt, log (set_session (set_store x db) (Some {| txn := db; pending := [] |}))
                        [Committed db])
        | None => (Raise IntegrityError, x)
        end
    | None => (Raise AttributeError, x)
    end.

(** [self._scoped_Session()]: the session of the registry, whose
    transaction starts from the committed database. *)
Definition scoped_Session (x : HouseManager) : HouseManager :=
  log (set_session x (Some {| txn := store x; pending := [] |})) [SessionOpened].

(** [old_session is not x._session]: there is one session object, so two
    references differ only when one of them is [None]. *)
Definition is_not (a b : option Session) : bool :=
  match a, b with
  | None, None => false
  | Some _, Some _ => false
  | _, _ => true
  end.

(** The decorator [dbsession]. *)
Definition dbsession {A} (func : M A) : M A :=
  fun x =>
    let old_session := _session x in
    let x1 := match _session x with
              | None => scoped_Session x
              | Some _ => x
              end in
    match func x1 with
    | (Raise e, x2) => (Raise e, x2)
    | (Ok result, x2) =>
        match commit x2 with
        | (Raise e, x3) => (Raise e, x3)
        | (Ok _, x3) =>
            if is_not old_session (_session x3)
            then (Ok result, set_session (log x3 [SessionClosed]) old_session)
            else (Ok result, x3)
        end
    end.

(* ------------------------------------------------------------------ *)
(** ** HouseManager *)

Section Manager.

(** What lies outside the manager and changes the environment:
    [shutil.rmtree(dir, onerror=handle_remove_read_only)], which yields the
    exception that it lets out, if any: the RuntimeError of the handler
    where it gives up ([RuntimeError (CannotRemoveDir path)]), or whatever
    the [os.chmod] and the repeated call of the handler raise, which nothing
    catches; [git.Repo.clone_from], whose flag tells whether the clone
    succeeded; [sys.path.append]. *)
Variable rmtree : string -> Env -> Env * option exn.
Variable clone_from : option string -> string -> option string -> Env -> Env * bool.
Variable sys_path_append : string -> Env -> Env.

Definition download_remote_house (local_dir : string) (url branch : option string)
  : M unit :=
  emit (Downloading local_dir) ;;
  e <- get_env ;;
  (if lexists e local_dir
   then emit (Rmtree local_dir) ;;
        put_env (fst (rmtree local_dir e)) ;;
        match snd (rmtree local_dir e) with
        | Some ex => raise ex
        | None => ret tt
        end
   else ret tt) ;;
  e <- get_env ;;
  emit (CloneFrom url local_dir branch) ;;
  put_env (fst (clone_from url local_dir branch e)) ;;
  (if snd (clone_from url local_dir branch e)
   then ret tt
   else raise (RuntimeError (CheckNetworkOrUrl url))) ;;
  emit Downloaded.

Definition part_dict : list (string * string) :=
  [ ("af", "part/af"); ("cn", "part/cn"); ("ev", "part/ev"); ("mm", "part/mm");
    ("pg", "part/pg"); ("se", "part/se"); ("sg", "part/sg"); ("sp", "part/sp");
    ("st", "part/st"); ("prtflo", "prtflo"); ("sys", "sys") ].

(** The import module name of a candidate (lines 341-345). *)
Definition module_name_of (base_local part entry_name : string) : string :=
  if negb (PyStr.in_tuple part ["prtflo"; "sys"])
  then PyStr.format "{}.part.{}.{}.part" [base_local; part; entry_name]
  else PyStr.format "{}.{}.{}.part" [base_local; part; entry_name].

(** The part name of a candidate (lines 362-366). *)
Definition part_name_of (house_name part entry_name : string) : string :=
  if negb (PyStr.in_tuple part ["prtflo"; "sys"])
  then PyStr.format "{}.{}.{}" [house_name; part; entry_name]
  else PyStr.format "{}.{}.{}" [house_name; part; entry_name].

(** The [PartModel(...)] call of lines 369-380; its keyword arguments are
    evaluated in the order written. *)
Definition new_part_model (house_model : HouseModel.t) (part name module_name : string)
    (part_module : PyModule.t) (part_obj : PartFactory.t) : Result PartModel.t :=
  match (match PyModule.author part_module with
         | Some v => py_strip v
         | None => Ok "None"
         end) with
  | Raise e => Raise e
  | Ok author =>
      match (match PyModule.version part_module with
             | Some v => py_strip v
             | None => Ok "None"
             end) with
      | Raise e => Raise e
      | Ok version =>
          match (if truthy (PartFactory.__doc__ part_obj)
                 then py_strip (PartFactory.__doc__ part_obj)
                 else Ok "None") with
          | Raise e => Raise e
          | Ok doc =>
              Ok {| PartModel.house_name := HouseModel.name house_model;
                    PartModel.part := part;
                    PartModel.name := name;
                    PartModel.author := author;
                    PartModel.version := version;
                    PartModel.doc := doc;
                    PartModel.module_name := module_name |}
          end
      end
  end.

(** The body of [for entry in it] (lines 338-384); [continue] ends it. *)
Definition import_entry (house_model : HouseModel.t) (base_local part path : string)
    (entry : DirEntry.t) : M unit :=
  if negb (PyStr.startswith (DirEntry.name entry) ".")
     && DirEntry.is_dir entry
     && negb (DirEntry.name entry =? "__pycache__")
  then
    let module_name := module_name_of base_local part (DirEntry.name entry) in
    e <- get_env ;;
    match import_module e module_name with
    | ImportNotFound | ImportRaised (ModuleNotFoundError _) =>
        emit (LogError (MissingPartFile (DirEntry.path path entry)))
    | ImportRaised _ => emit (LogError (CannotImport (DirEntry.path path entry)))
    | Imported part_module =>
        match PyModule.part part_module with
        | None => emit (LogError (MissingPartFunction (DirEntry.path path entry)))
        | Some part_obj =>
            let name := part_name_of (HouseModel.name house_model) part (DirEntry.name entry) in
            try_except
              (part_model <- lift (new_part_model house_model part name module_name
                                     part_module part_obj) ;;
               session_add (PartRow part_model))
              (fun e => if is_Exception e
                        then Some (emit (LogError (SyntaxProblem (DirEntry.path path entry) e)))
                        else None)
        end
    end
  else ret tt.

(** [with os.scandir(path) as it: for entry in it: ...] *)
Definition scan_category (house_model : HouseModel.t) (base_local part path : string)
  : M unit :=
  e <- get_env ;;
  match scandir e path with
  | Listing entries => for_each entries (import_entry house_model base_local part path)
  | ScandirNotFound => raise (FileNotFoundError path)
  | ScandirOSError => raise (OSError path)
  end.

Definition import_part_to_db (house_model : HouseModel.t) : M unit :=
  dbsession
    (let local_dir := HouseModel.local house_model in
     e <- get_env ;;
     if negb (lexists e local_dir)
     then emit (LogWarning (HousePathNotExists (HouseModel.name house_model)
                                               (HouseModel.local house_model)))
     else
       let base_local := OsPath.basename local_dir in
       for_each part_dict
         (fun '(part, part_dir) =>
            let path := PyStr.format "{}/{}" [HouseModel.local house_model; part_dir] in
            try_except
              (scan_category house_model base_local part path)
              (fun e => match e with
                        | FileNotFoundError _ => Some (ret tt)
                        | _ => None
                        end))).

(** [o is None] *)
Definition is_None {A} (o : option A) : bool :=
  match o with None => true | Some _ => false end.

Definition add_remote_house (name url branch : string) : M unit :=
  dbsession
    (db <- query ;;
     let record := first (fun h => HouseModel.name h =? name) (house_repo db) in
     checkif (negb (is_None record)) (HouseNameRepeatError name) ;;
     _ <- query ;;
     self <- get_self ;;
     let local_dir := PyStr.format "{}/{}" [remote_cache_dir self; name] in
     download_remote_house local_dir (Some url) (Some branch) ;;
     let record := {| HouseModel.name := name; HouseModel.house_type := "remote";
                      HouseModel.url := Some url; HouseModel.branch := Some branch;
                      HouseModel.local := local_dir |} in
     import_part_to_db record ;;
     session_add (HouseRow record)).

Definition add_local_house (path : string) : M unit :=
  dbsession
    (e <- get_env ;;
     checkif (negb (lexists e path)) (HKUCheckError (PathNotFound path)) ;;
     let local_path := abspath e path in
     let name := OsPath.basename local_path in
     db <- query ;;
     let record := first (fun h => HouseModel.name h =? name) (house_repo db) in
     checkif (negb (is_None record)) (HouseNameRepeatError name) ;;
     emit (SysPathAppend (OsPath.dirname path)) ;;
     put_env (sys_path_append (OsPath.dirname path) e) ;;
     e <- get_env ;;
     tmp <- match import_module e name with
            | Imported m => ret m
            | ImportNotFound => raise (ModuleNotFoundError name)
            | ImportRaised ex => raise ex
            end ;;
     tmp_path <- match PyModule.__path__ tmp with
                 | None => raise AttributeError
                 | Some [] => raise IndexError
                 | Some (p :: _) => ret p
                 end ;;
     checkif (negb (tmp_path =? local_path))
             (ModuleConflictError name tmp_path local_path) ;;
     let house_model := {| HouseModel.name := name; HouseModel.house_type := "local";
                           HouseModel.local := local_path;
                           HouseModel.url := None; HouseModel.branch := None |} in
     import_part_to_db house_model ;;
     session_add (HouseRow house_model)).

Definition update_house (name : string) : M unit :=
  dbsession
    (db <- query ;;
     let house_model := first (fun h => HouseModel.name h =? name) (house_repo db) in
     checkif (is_None house_model) (HKUCheckError (HouseNotExists name)) ;;
     bulk_delete (delete_parts name) ;;
     match house_model with
     | None => raise AttributeError
     | Some house_model =>
         (if HouseModel.house_type house_model =? "remote"
          then download_remote_house (HouseModel.local house_model)
                 (HouseModel.url house_model) (HouseModel.branch house_model)
          else ret tt) ;;
         import_part_to_db house_model
     end).

Definition remove_house (name : string) : M unit :=
  dbsession
    (bulk_delete (delete_parts name) ;;
     bulk_delete (delete_houses name)).

Definition categories : list string :=
  ["af"; "cn"; "ev"; "mm"; "pg"; "se"; "sg"; "sp"; "st"; "prtflo"; "sys"].

(** The check of the name (lines 396-402). *)
Definition check_part_name (name : string) : M unit :=
  let name_parts := PyStr.split "." name in
  invalid <- lift (if (List.length name_parts <? 2)%nat then Ok true
                   else match py_index name_parts (-2) with
                        | Some seg => Ok (negb (PyStr.in_tuple seg categories))
                        | None => Raise IndexError
                        end) ;;
  checkif invalid (PartNameError name).

(** The resolution of a name that passed the check (lines 404-426). *)
Definition resolve_part (name : string) (kw : kwargs) : M Part.t :=
  let name_parts := PyStr.split "." name in
  part_name <-
    (if (List.length name_parts =? 2)%nat
     then
       e <- get_env ;;
       let abs_path := abspath e (__file__ e) in
       let path_parts := OsPath.parts abs_path in
       let cause := NotAHouseFile abs_path in
       head <- lift (match py_index name_parts 0 with
                     | Some seg => Ok seg
                     | None => Raise IndexError
                     end) ;;
       if PyStr.in_tuple head ["prtflo"; "sys"]
       then checkif (List.length path_parts <? 4)%nat (PartNotFoundError name cause) ;;
            match py_index path_parts (-4) with
            | Some house => ret (PyStr.format "{}.{}" [house; name])
            | None => raise IndexError
            end
       else checkif (List.length path_parts <? 5)%nat (PartNotFoundError name cause) ;;
            match py_index path_parts (-5) with
            | Some house => ret (PyStr.format "{}.{}" [house; name])
            | None => raise IndexError
            end
     else ret name) ;;
  db <- query ;;
  let part_model := first (fun p => PartModel.name p =? part_name) (house_part db) in
  checkif (is_None part_model) (PartNotFoundError part_name NotInHouse) ;;
  match part_model with
  | None => raise AttributeError
  | Some part_model =>
      e <- get_env ;;
      part_module <- match import_module e (PartModel.module_name part_model) with
                     | Imported m => ret m
                     | ImportNotFound | ImportRaised (ModuleNotFoundError _) =>
                         raise (PartNotFoundError part_name CheckPartPath)
                     | ImportRaised ex => raise ex
                     end ;;
      part <- match PyModule.part part_module with
              | None => raise AttributeError
              | Some factory =>
                  match PartFactory.call factory kw with
                  | inl p => ret p
                  | inr ex => raise ex
                  end
              end ;;
      ret {| Part.name := PartModel.name part_model; Part.params := Part.params part |}
  end.

Definition get_part (name : string) (kw : kwargs) : M Part.t :=
  dbsession (check_part_name name ;; resolve_part name kw).

Definition get_part_info (name : string) : M PartInfo.t :=
  dbsession
    (db <- query ;;
     let part_model := first (fun p => PartModel.name p =? name) (house_part db) in
     checkif (is_None part_model) (PartNotFoundError name NotInHouse) ;;
     match part_model with
     | None => raise AttributeError
     | Some part_model =>
         ret {| PartInfo.name := name;
                PartInfo.author := PartModel.author part_model;
                PartInfo.version := PartModel.version part_model;
                PartInfo.doc := PartModel.doc part_model |}
     end).

Definition get_house_path (name : string) : M string :=
  dbsession
    (db <- query ;;
     let path := first (fun h => HouseModel.name h =? name) (house_repo db) in
     checkif (is_None path) (HouseNotFoundError name) ;;
     match path with
     | None => raise AttributeError
     | Some h => ret (HouseModel.local h)
     end).

(** The SELECT of the names has no ORDER BY, so the order of the list is
    the database's choice (SQLite answers it from the index on [name]);
    the list is given here in the order of the rows, and it is to be read
    up to its order. *)
Definition get_house_name_list : M (list string) :=
  dbsession (db <- query ;; ret (map HouseModel.name (house_repo db))).

Definition get_part_name_list (house part_type : option string) : M (list string) :=
  dbsession
    (db <- query ;;
     let results :=
       match house, part_type with
       | None, None => house_part db
       | None, Some part_type =>
           filter (fun p => PartModel.part p =? part_type) (house_part db)
       | Some house, None =>
           filter (fun p => PartModel.house_name p =? house) (house_part db)
       | Some house, Some part_type =>
           filter (fun p => (PartModel.house_name p =? house)
                            && (PartModel.part p =? part_type)) (house_part db)
       end in
     ret (map PartModel.name results)).

End Manager.

(* ------------------------------------------------------------------ *)
(** ** The scan read as a function of the environment

    What the loops of [import_part_to_db] add to the session and log, as
    pure functions; the lemmas below show that the method computes them. *)

Open Scope list_scope.

(** The test of lines 338-339. *)
Definition is_candidate (entry : DirEntry.t) : bool :=
  negb (PyStr.startswith (DirEntry.name entry) ".")
  && DirEntry.is_dir entry
  && negb (DirEntry.name entry =? "__pycache__").

(** Rows registered and errors logged for one directory entry. *)
Definition scan_entry (e : Env) (house_model : HouseModel.t)
    (base_local part path : string) (entry : DirEntry.t)
  : list PartModel.t * list LogMessage :=
  if is_candidate entry then
    match import_module e (module_name_of base_local part (DirEntry.name entry)) with
    | ImportNotFound | ImportRaised (ModuleNotFoundError _) =>
        ([], [MissingPartFile (DirEntry.path path entry)])
    | ImportRaised _ => ([], [CannotImport (DirEntry.path path entry)])
    | Imported part_module =>
        match PyModule.part part_module with
        | None => ([], [MissingPartFunction (DirEntry.path path entry)])
        | Some part_obj =>
            match new_part_model house_model part
                    (part_name_of (HouseModel.name house_model) part (DirEntry.name entry))
                    (module_name_of base_local part (DirEntry.name entry))
                    part_module part_obj with
            | Ok part_model => ([part_model], [])
            | Raise ex => ([], [SyntaxProblem (DirEntry.path path entry) ex])
            end
        end
    end
  else ([], []).

Fixpoint scan_entries (e : Env) (house_model : HouseModel.t)
    (base_local part path : string) (entries : list DirEntry.t)
  : list PartModel.t * list LogMessage :=
  match entries with
  | [] => ([], [])
  | entry :: entries' =>
      let here := scan_entry e house_model base_local part path entry in
      let rest := scan_entries e house_model base_local part path entries' in
      (fst here ++ fst rest, snd here ++ snd rest)
  end.

(** The categories in turn, up to the first directory whose listing fails
    with an error other than "not found"; that error is the third
    component. *)
Fixpoint scan_categories (e : Env) (house_model : HouseModel.t) (base_local : string)
    (cats : list (string * string))
  : list PartModel.t * list LogMessage * option exn :=
  match cats with
  | [] => ([], [], None)
  | (part, part_dir) :: cats' =>
      let path := PyStr.format "{}/{}" [HouseModel.local house_model; part_dir] in
      match scandir e path with
      | ScandirOSError => ([], [], Some (OSError path))
      | ScandirNotFound => scan_categories e house_model base_local cats'
      | Listing entries =>
          let here := scan_entries e house_model base_local part path entries in
          let '(rows, msgs, r) := scan_categories e house_model base_local cats' in
          (fst here ++ rows, snd here ++ msgs, r)
      end
  end.

(** The whole scan of a house: rows, log events and the escaping error. *)
Definition scan_house (e : Env) (house_model : HouseModel.t)
  : list PartModel.t * list Event * option exn :=
  if negb (lexists e (HouseModel.local house_model))
  then ([], [LogWarning (HousePathNotExists (HouseModel.name house_model)
                                            (HouseModel.local house_model))], None)
  else
    let '(rows, msgs, r) :=
      scan_categories e house_model (OsPath.basename (HouseModel.local house_model))
                      part_dict in
    (rows, map LogError msgs, r).

(** No category directory of the house fails to list with an error other
    than "not found". *)
Definition listable (e : Env) (house_model : HouseModel.t) : Prop :=
  forall part part_dir,
    In (part, part_dir) part_dict ->
    scandir e (PyStr.format "{}/{}" [HouseModel.local house_model; part_dir])
    <> ScandirOSError.

Definition first_nine : list string :=
  ["af"; "cn"; "ev"; "mm"; "pg"; "se"; "sg"; "sp"; "st"].

Definition add_parts (db : DB) (ps : list PartModel.t) : DB :=
  {| house_repo := house_repo db; house_part := house_part db ++ ps |}.

Definition add_house (db : DB) (h : HouseModel.t) : DB :=
  {| house_repo := house_repo db ++ [h]; house_part := house_part db |}.

Definition parts_of (house_name : string) (db : DB) : list PartModel.t :=
  filter (fun p => PartModel.house_name p =? house_name) (house_part db).

Definition parts_not_of (house_name : string) (db : DB) : list PartModel.t :=
  filter (fun p => negb (PartModel.house_name p =? house_name)) (house_part db).

Definition houses_named (name : string) (db : DB) : list HouseModel.t :=
  filter (fun h => HouseModel.name h =? name) (house_repo db).

(** The manager inside a [dbsession] scope entered from [x0]. *)
Definition in_session (x0 : HouseManager) (committed db : DB) (pend : list Row)
    (e : Env) (evs : list Event) : HouseManager :=
  {| store := committed;
     _session := Some {| txn := db; pending := pend |};
     remote_cache_dir := remote_cache_dir x0;
     env := e;
     trace := trace x0 ++ evs |}.

(** The manager with no session active. *)
Definition idle (x0 : HouseManager) (committed : DB) (e : Env) (evs : list Event)
  : HouseManager :=
  {| store := committed;
     _session := None;
     remote_cache_dir := remote_cache_dir x0;
     env := e;
     trace := trace x0 ++ evs |}.

Definition is_commit (ev : Event) : bool :=
  match ev with Committed _ => true | _ => false end.


Definition is_fetch (ev : Event) : bool :=
  match ev with
  | Downloading _ | Downloaded | Rmtree _ | CloneFrom _ _ _ => true
  | _ => false
  end.

(** The rows a scan registers and the errors it logs when every category
    directory lists or is missing: each category and each entry
    contributes on its own. *)
Definition category_path (house_model : HouseModel.t) (part_dir : string) : string :=
  PyStr.format "{}/{}" [HouseModel.local house_model; part_dir].

Definition category_entries (e : Env) (house_model : HouseModel.t) (part_dir : string)
  : list DirEntry.t :=
  match scandir e (category_path house_model part_dir) with
  | Listing entries => entries
  | _ => []
  end.

Definition registered_parts (e : Env) (house_model : HouseModel.t) : list PartModel.t :=
  flat_map
    (fun '(part, part_dir) =>
       flat_map
         (fun entry =>
            fst (scan_entry e house_model (OsPath.basename (HouseModel.local house_model))
                            part (category_path house_model part_dir) entry))
         (category_entries e house_model part_dir))
    part_dict.

Definition logged_errors (e : Env) (house_model : HouseModel.t) : list LogMessage :=
  flat_map
    (fun '(part, part_dir) =>
       flat_map
         (fun entry =>
            snd (scan_entry e house_model (OsPath.basename (HouseModel.local house_model))
                            part (category_path house_model part_dir) entry))
         (category_entries e house_model part_dir))
    part_dict.

(** What [download_remote_house] does to the environment, what it prints
    and calls, and the error it ends with. *)
Definition fetch (rmtree : string -> Env -> Env * option exn)
    (clone_from : option string -> string -> option string -> Env -> Env * bool)
    (e : Env) (local_dir : string) (url branch : option string)
  : Env * list Event * option exn :=
  let removed :=
    if lexists e local_dir
    then (fst (rmtree local_dir e), [Rmtree local_dir], snd (rmtree local_dir e))
    else (e, [], None) in
  match removed with
  | (e1, evs1, Some ex) => (e1, [Downloading local_dir] ++ evs1, Some ex)
  | (e1, evs1, None) =>
      if snd (clone_from url local_dir branch e1)
      then (fst (clone_from url local_dir branch e1),
            [Downloading local_dir] ++ evs1 ++ [CloneFrom url local_dir branch; Downloaded],
            None)
      else (fst (clone_from url local_dir branch e1),
            [Downloading local_dir] ++ evs1 ++ [CloneFrom url local_dir branch],
            Some (RuntimeError (CheckNetworkOrUrl url)))
  end.

(** The record that [add_remote_house] builds. *)
Definition remote_house (cache_dir name url branch : string) : HouseModel.t :=
  {| HouseModel.name := name; HouseModel.house_type := "remote";
     HouseModel.local := PyStr.format "{}/{}" [cache_dir; name];
     HouseModel.url := Some url; HouseModel.branch := Some branch |}.

(** The record that [add_local_house] builds. *)
Definition local_house (local_path : string) : HouseModel.t :=
  {| HouseModel.name := OsPath.basename local_path; HouseModel.house_type := "local";
     HouseModel.local := local_path;
     HouseModel.url := None; HouseModel.branch := None |}.

Definition find_house (name : string) (db : DB) : option HouseModel.t :=
  first (fun h => HouseModel.name h =? name) (house_repo db).

Definition find_part (name : string) (db : DB) : option PartModel.t :=
  first (fun p => PartModel.name p =? name) (house_part db).

(* ------------------------------------------------------------------ *)
(** ** A small house, for the worked instances *)

Module Example.

Definition factory : PartFactory.t :=
  {| PartFactory.__doc__ := PyString " fixed percent ";
     PartFactory.call := fun kw => inl {| Part.name := "unnamed"; Part.params := kw |} |}.

(** A part module with an [author] but no [version]. *)
Definition good_module : PyModule.t :=
  {| PyModule.author := Some (PyString "  fasiondog ");
     PyModule.version := None;
     PyModule.part := Some factory;
     PyModule.__path__ := None |}.

Definition dir (name : string) : DirEntry.t :=
  {| DirEntry.name := name; DirEntry.is_dir := true |}.

Definition file (name : string) : DirEntry.t :=
  {| DirEntry.name := name; DirEntry.is_dir := false |}.

(** [bar/part.py] does not parse; the other part modules load. *)
Definition importer (module_name : string) : ImportResult :=
  if module_name =? "myhouse.part.sg.foo.part" then Imported good_module
  else if module_name =? "myhouse.part.sg.baz.part" then Imported good_module
  else if module_name =? "myhouse.sys.foo.part" then Imported good_module
  else if module_name =? "myhouse.part.sg.bar.part" then ImportRaised (Foreign "SyntaxError")
  else ImportNotFound.

(** The house directory with one valid and one broken part under [sg]. *)
Definition env_a : Env :=
  {| lexists := fun p => p =? "/cache/myhouse";
     scandir := fun p =>
       if p =? "/cache/myhouse/part/sg"
       then Listing [dir "foo"; dir "bar"; dir ".git"; file "notes.txt"]
       else ScandirNotFound;
     import_module := importer;
     abspath := fun p => p;
     __file__ := "/usr/lib/python3/site-packages/hikyuu/house.py" |}.

(** The same directory after a fetch: three valid parts. *)
Definition env_b : Env :=
  {| lexists := fun p => p =? "/cache/myhouse";
     scandir := fun p =>
       if p =? "/cache/myhouse/part/sg" then Listing [dir "foo"; dir "baz"]
       else if p =? "/cache/myhouse/sys" then Listing [dir "foo"; dir "__pycache__"]
       else ScandirNotFound;
     import_module := importer;
     abspath := fun p => p;
     __file__ := "/usr/lib/python3/site-packages/hikyuu/house.py" |}.

Definition rmtree (local_dir : string) (e : Env) : Env * option exn := (e, None).

Definition clone_from (url : option string) (local_dir : string) (branch : option string)
    (e : Env) : Env * bool := (env_b, true).

Definition sys_path_append (d : string) (e : Env) : Env := e.

Definition myhouse : HouseModel.t :=
  {| HouseModel.name := "myhouse"; HouseModel.house_type := "remote";
     HouseModel.local := "/cache/myhouse";
     HouseModel.url := Some "https://example.org/myhouse.git";
     HouseModel.branch := Some "master" |}.

Definition empty_db : DB := {| house_repo := []; house_part := [] |}.

(** A fresh manager: nothing registered, no session active. *)
Definition x0 : HouseManager :=
  {| store := empty_db; _session := None; remote_cache_dir := "/cache";
     env := env_a; trace := [] |}.

(** The row of a part that loaded when it was scanned. *)
Definition bar_part : PartModel.t :=
  {| PartModel.house_name := "myhouse"; PartModel.part := "sg";
     PartModel.name := "myhouse.sg.bar"; PartModel.author := "None";
     PartModel.version := "None"; PartModel.doc := "None";
     PartModel.module_name := "myhouse.part.sg.bar.part" |}.

(** A part of another house. *)
Definition other_part : PartModel.t :=
  {| PartModel.house_name := "default"; PartModel.part := "st";
     PartModel.name := "default.st.fixed_percent"; PartModel.author := "None";
     PartModel.version := "None"; PartModel.doc := "None";
     PartModel.module_name := "default.part.st.fixed_percent.part" |}.

(** A manager with [myhouse] registered and one part row of it. *)
Definition x_registered : HouseManager :=
  {| store := {| house_repo := [myhouse]; house_part := [other_part; bar_part] |};
     _session := None; remote_cache_dir := "/cache";
     env := env_a; trace := [] |}.

Definition url : string := "https://example.org/myhouse.git".

End Example.

Definition is_log (ev : Event) : bool :=
  match ev with LogWarning _ | LogError _ => true | _ => false end.

Definition is_session_event (ev : Event) : bool :=
  match ev with SessionOpened | SessionClosed => true | _ => false end.

(** The condition that [get_part] checks first (lines 398-401), read on
    the segments of the name. *)
Definition malformed (name : string) : Prop :=
  let name_parts := PyStr.split "." name in
  (List.length name_parts < 2)%nat
  \/ exists seg,
       nth_error name_parts (List.length name_parts - 2) = Some seg
       /\ ~ In seg categories.

(** [l] is a run of members of [seqs]. *)
Inductive run_of (seqs : list string) : string -> Prop :=
| run_nil : run_of seqs ""
| run_cons (w l : string) : In w seqs -> run_of seqs l -> run_of seqs (w ++ l)%string.

(** [s] is nothing but whitespace characters. *)
Definition all_space (s : string) : Prop := run_of PyStr.whitespace s.

(** [t] neither starts nor ends with a whitespace character. *)
Definition no_space_at_ends (t : string) : Prop :=
  forall w rest, In w PyStr.whitespace -> t <> (w ++ rest)%string /\ t <> (rest ++ w)%string.

(** [t] is [s] without its leading and trailing whitespace. *)
Definition stripped (s t : string) : Prop :=
  exists l r, s = (l ++ t ++ r)%string /\ all_space l /\ all_space r /\ no_space_at_ends t.

(** What a top-level decorated call that ran from [x] to [run] did with
    the session: when it returned it opened one session, committed
    [commits] times and closed the session; when it raised it opened one
    session, committed nothing and left the store as it was. *)
Definition transaction_scope {A} (x : HouseManager) (run : Result A * HouseManager)
    (commits : nat) : Prop :=
  exists evs,
    trace (snd run) = trace x ++ evs
    /\ match fst run with
       | Ok _ =>
           filter is_session_event evs = [SessionOpened; SessionClosed]
           /\ List.length (filter is_commit evs) = commits
           /\ _session (snd run) = None
       | Raise _ =>
           filter is_session_event evs = [SessionOpened]
           /\ filter is_commit evs = []
           /\ store (snd run) = store x
       end.

(* ------------------------------------------------------------------ *)
(** ** Readings used for the further properties *)

(** Lines 404-416 of [get_part]: the name that is looked up. *)
Definition qualify_name (name : string) : M string :=
  let name_parts := PyStr.split "." name in
  if (List.length name_parts =? 2)%nat
  then
    e <- get_env ;;
    let abs_path := abspath e (__file__ e) in
    let path_parts := OsPath.parts abs_path in
    let cause := NotAHouseFile abs_path in
    head <- lift (match py_index name_parts 0 with
                  | Some seg => Ok seg
                  | None => Raise IndexError
                  end) ;;
    if PyStr.in_tuple head ["prtflo"; "sys"]
    then checkif (List.length path_parts <? 4)%nat (PartNotFoundError name cause) ;;
         match py_index path_parts (-4) with
         | Some house => ret (PyStr.format "{}.{}" [house; name])
         | None => raise IndexError
         end
    else checkif (List.length path_parts <? 5)%nat (PartNotFoundError name cause) ;;
         match py_index path_parts (-5) with
         | Some house => ret (PyStr.format "{}.{}" [house; name])
         | None => raise IndexError
         end
  else ret name.

(** Lines 418-426 of [get_part]: look the record up, load, instantiate. *)
Definition load_part (part_name : string) (kw : kwargs) : M Part.t :=
  db <- query ;;
  let part_model := first (fun p => PartModel.name p =? part_name)%string (house_part db) in
  checkif (is_None part_model) (PartNotFoundError part_name NotInHouse) ;;
  match part_model with
  | None => raise AttributeError
  | Some part_model =>
      e <- get_env ;;
      part_module <- match import_module e (PartModel.module_name part_model) with
                     | Imported m => ret m
                     | ImportNotFound | ImportRaised (ModuleNotFoundError _) =>
                         raise (PartNotFoundError part_name CheckPartPath)
                     | ImportRaised ex => raise ex
                     end ;;
      part <- match PyModule.part part_module with
              | None => raise AttributeError
              | Some factory =>
                  match PartFactory.call factory kw with
                  | inl p => ret p
                  | inr ex => raise ex
                  end
              end ;;
      ret {| Part.name := PartModel.name part_model; Part.params := Part.params part |}
  end.

(** A body that leaves the manager as it found it. *)
Definition reads_only {A} (m : M A) : Prop := forall x, snd (m x) = x.

(** Nothing of the session waits for a commit. *)
Definition all_committed (x : HouseManager) : Prop :=
  match _session x with
  | Some s => txn s = store x /\ pending s = []
  | None => True
  end.

(** The events that end a decorated call that returned. *)
Definition closing (old_session : option Session) (db : DB) : list Event :=
  match old_session with
  | None => [Committed db; SessionClosed]
  | Some _ => [Committed db]
  end.

(** No two house rows have the same name. *)
Definition unique_house_names (db : DB) : Prop :=
  NoDup (map HouseModel.name (house_repo db)).

(** The name has one segment: no dot in it. *)
Definition one_segment (s : string) : Prop := PyStr.split "." s = [s].

(** How a call that only reads ends when it starts with no session
    active: the store and the environment are those of before; a call that
    returned has opened a session, committed and closed it, a call that
    raised has left the session open. *)
Definition read_run {A} (x : HouseManager) (run : Result A * HouseManager) : Prop :=
  store (snd run) = store x
  /\ env (snd run) = env x
  /\ match fst run with
     | Ok _ =>
         snd run = idle x (store x) (env x) [SessionOpened; Committed (store x); SessionClosed]
     | Raise _ => snd run = in_session x (store x) (store x) [] (env x) [SessionOpened]
     end.

(** Failing surroundings, for the worked instances. *)
Module Faulty.

(** A clone that fails and leaves the environment as it was. *)
Definition clone_fails (url : option string) (local_dir : string) (branch : option string)
    (e : Env) : Env * bool := (e, false).

(** The house directory with a valid part under [sg] and a category
    directory [sp] that cannot be listed. *)
Definition env_denied : Env :=
  {| lexists := fun p => (p =? "/cache/myhouse")%string;
     scandir := fun p =>
       if (p =? "/cache/myhouse/part/sg")%string then Listing [Example.dir "foo"]
       else if (p =? "/cache/myhouse/part/sp")%string then ScandirOSError
       else ScandirNotFound;
     import_module := Example.importer;
     abspath := fun p => p;
     __file__ := "/usr/lib/python3/site-packages/hikyuu/house.py" |}.

Definition clone_denied (url : option string) (local_dir : string) (branch : option string)
    (e : Env) : Env * bool := (env_denied, true).

(** A clone that reports success but leaves no directory. *)
Definition env_gone : Env :=
  {| lexists := fun p => false;
     scandir := fun p => ScandirNotFound;
     import_module := Example.importer;
     abspath := fun p => p;
     __file__ := "/usr/lib/python3/site-packages/hikyuu/house.py" |}.

Definition clone_gone (url : option string) (local_dir : string) (branch : option string)
    (e : Env) : Env * bool := (env_gone, true).

End Faulty.

(** What [load_part] yields, as a function of the environment and of the
    database that the session sees. *)
Definition resolve (e : Env) (db : DB) (part_name : string) (kw : kwargs) : Result Part.t :=
  match find_part part_name db with
  | None => Raise (PartNotFoundError part_name NotInHouse)
  | Some part_model =>
      match import_module e (PartModel.module_name part_model) with
      | ImportNotFound | ImportRaised (ModuleNotFoundError _) =>
          Raise (PartNotFoundError part_name CheckPartPath)
      | ImportRaised ex => Raise ex
      | Imported part_module =>
          match PyModule.part part_module with
          | None => Raise AttributeError
          | Some factory =>
              match PartFactory.call factory kw with
              | inl p => Ok {| Part.name := PartModel.name part_model;
                               Part.params := Part.params p |}
              | inr ex => Raise ex
              end
          end
      end
  end.

(** A local house, for the worked instances. *)
Module LocalHouse.

Definition mylocal : HouseModel.t :=
  {| HouseModel.name := "myhouse"; HouseModel.house_type := "local";
     HouseModel.local := "/cache/myhouse";
     HouseModel.url := None; HouseModel.branch := None |}.

(** A manager with the local house registered and one stale part row. *)
Definition x_local : HouseManager :=
  {| store := {| house_repo := [mylocal];
                 house_part := [Example.other_part; Example.bar_part] |};
     _session := None; remote_cache_dir := "/cache";
     env := Example.env_b; trace := [] |}.

(** The directory [/home/me/myhouse] as a package that is found at that
    very path, and a module [myhouse] found elsewhere. *)
Definition package (path : string) : PyModule.t :=
  {| PyModule.author := None; PyModule.version := None; PyModule.part := None;
     PyModule.__path__ := Some [path] |}.

Definition env_home (found_at : string) : Env :=
  {| lexists := fun p => (p =? "/home/me/myhouse")%string;
     scandir := fun p => ScandirNotFound;
     import_module := fun m =>
       if (m =? "myhouse")%string then Imported (package found_at) else ImportNotFound;
     abspath := fun p => p;
     __file__ := "/usr/lib/python3/site-packages/hikyuu/house.py" |}.

Definition x_home (found_at : string) : HouseManager :=
  {| store := Example.empty_db; _session := None; remote_cache_dir := "/cache";
     env := env_home found_at; trace := [] |}.

End LocalHouse.

(* ------------------------------------------------------------------ *)
(** ** Calls that find nothing uncommitted *)

(** The events with which a decorated call starts: it opens a session
    when none is attached. *)
Definition opening (x : HouseManager) : list Event :=
  match _session x with
  | None => [SessionOpened]
  | Some _ => []
  end.

(** The manager after a decorated call that started from [x] and
    returned, with [db] committed: the session is closed and detached when
    the call had opened it, and stays attached otherwise. *)
Definition settled (x : HouseManager) (db : DB) (e : Env) (evs : list Event)
  : HouseManager :=
  match _session x with
  | None => idle x db e ([SessionOpened] ++ evs ++ [SessionClosed])
  | Some _ => in_session x db db [] e evs
  end.

(** [ex] was raised by loaded code: by the import of a module, or by the
    factory of a module called with [kw]. *)
Definition raised_by_loaded_code (e : Env) (kw : kwargs) (ex : exn) : Prop :=
  exists module_name,
    import_module e module_name = ImportRaised ex
    \/ exists part_module factory,
         import_module e module_name = Imported part_module
         /\ PyModule.part part_module = Some factory
         /\ PartFactory.call factory kw = inr ex.

(** A part module that binds [part] to something that cannot be called. *)
Module NotCallable.

(** [part = None]: calling it raises TypeError, and its [__doc__] is
    [None]. *)
Definition none_object : PartFactory.t :=
  {| PartFactory.__doc__ := PyNone;
     PartFactory.call := fun kw => inr (Foreign "TypeError") |}.

Definition stub_module : PyModule.t :=
  {| PyModule.author := None; PyModule.version := None;
     PyModule.part := Some none_object; PyModule.__path__ := None |}.

Definition importer (module_name : string) : ImportResult :=
  if (module_name =? "myhouse.part.sg.stub.part")%string then Imported stub_module
  else Example.importer module_name.



End NotCallable.

(** A part whose factory asks the manager for another part. *)
Module Nested.

(** The factory calls [get_part] with the one-segment name [helper] and
    does not catch what that call raises. *)
Definition factory : PartFactory.t :=
  {| PartFactory.__doc__ := PyNone;
     PartFactory.call := fun kw => inr (PartNameError "helper") |}.

Definition nested_module : PyModule.t :=
  {| PyModule.author := None; PyModule.version := None;
     PyModule.part := Some factory; PyModule.__path__ := None |}.

Definition env_nested : Env :=
  {| lexists := fun p => (p =? "/cache/myhouse")%string;
     scandir := fun p =>
       if (p =? "/cache/myhouse/part/sg")%string then Listing [Example.dir "nested"]
       else ScandirNotFound;
     import_module := fun module_name =>
       if (module_name =? "myhouse.part.sg.nested.part")%string then Imported nested_module
       else ImportNotFound;
     abspath := fun p => p;
     __file__ := "/usr/lib/python3/site-packages/hikyuu/house.py" |}.

Definition nested_part : PartModel.t :=
  {| PartModel.house_name := "myhouse"; PartModel.part := "sg";
     PartModel.name := "myhouse.sg.nested"; PartModel.author := "None";
     PartModel.version := "None"; PartModel.doc := "None";
     PartModel.module_name := "myhouse.part.sg.nested.part" |}.

Definition x_nested : HouseManager :=
  {| store := {| house_repo := [Example.myhouse]; house_part := [nested_part] |};
     _session := None; remote_cache_dir := "/cache";
     env := env_nested; trace := [] |}.

End Nested.

(** Managers as a raised call leaves them: the decorator neither undoes
    nor detaches anything, so the session stays attached with the work of
    the call that raised. *)
Module LeftOver.

(** After [add_remote_house] of [myhouse] whose scan stopped at a
    directory that cannot be listed: the row of [sg/foo] is pending, the
    house is not registered. *)
Definition x_aborted_add : HouseManager :=
  snd (add_remote_house Example.rmtree Faulty.clone_denied
         "myhouse" Example.url "master" Example.x0).

(** After [update_house] of [myhouse] whose scan stopped in the same way:
    the deletion of the house's rows is in the transaction and the row of
    [sg/foo] is pending. *)
Definition x_aborted_update : HouseManager :=
  snd (update_house Example.rmtree Faulty.clone_denied "myhouse" Example.x_registered).

(** After [update_house] of [myhouse] whose clone failed: the deletion of
    the house's rows is in the transaction. *)
Definition x_failed_update : HouseManager :=
  snd (update_house Example.rmtree Faulty.clone_fails "myhouse" Example.x_registered).





End LeftOver.

(** The rows of the house [h'] after a call that took the manager from
    [x] to [x']: the committed part rows and house rows of [h'] are those
    of before, and when a session is attached to [x'] its transaction
    shows the same rows of [h'] and none of its pending rows belongs to
    [h'], so that a later commit does not change them either. *)
Definition untouched (h' : string) (x x' : HouseManager) : Prop :=
  parts_of h' (store x') = parts_of h' (store x)
  /\ houses_named h' (store x') = houses_named h' (store x)
  /\ forall s,
       _session x' = Some s ->
       parts_of h' (txn s) = parts_of h' (store x)
       /\ houses_named h' (txn s) = houses_named h' (store x)
       /\ Forall (fun r => match r with
                           | PartRow p => PartModel.house_name p <> h'
                           | HouseRow r => HouseModel.name r <> h'
                           end) (pending s).

(* ------------------------------------------------------------------ *)
(** ** Running the primitives *)

Section Run.

Variables (x0 : HouseManager) (st db : DB) (pend : list Row) (e : Env) (evs : list Event).

Lemma emit_run ev :
  emit ev (in_session x0 st db pend e evs) = (Ok tt, in_session x0 st db pend e (evs ++ [ev])).
Proof. unfold emit, log, in_session; simpl. now rewrite app_assoc. Qed.

Lemma get_env_run : get_env (in_session x0 st db pend e evs) = (Ok e, in_session x0 st db pend e evs).
Proof. reflexivity. Qed.

Lemma put_env_run e' :
  put_env e' (in_session x0 st db pend e evs) = (Ok tt, in_session x0 st db pend e' evs).
Proof. reflexivity. Qed.

Lemma query_run : query (in_session x0 st db pend e evs) = (Ok db, in_session x0 st db pend e evs).
Proof. reflexivity. Qed.

Lemma session_add_run r :
  session_add r (in_session x0 st db pend e evs)
  = (Ok tt, in_session x0 st db (pend ++ [r]) e evs).
Proof. reflexivity. Qed.

Lemma bulk_delete_run f :
  bulk_delete f (in_session x0 st db pend e evs) = (Ok tt, in_session x0 st (f db) pend e evs).
Proof. reflexivity. Qed.

Lemma commit_run :
  commit (in_session x0 st db pend e evs)
  = match flush db pend with
    | Some db' => (Ok tt, in_session x0 db' db' [] e (evs ++ [Committed db']))
    | None => (Raise IntegrityError, in_session x0 st db pend e evs)
    end.
Proof.
  unfold commit; simpl. destruct (flush db pend); [|reflexivity].
  unfold log, in_session; simpl. now rewrite app_assoc.
Qed.

End Run.

Lemma flush_parts (db : DB) (ps : list PartModel.t) :
  flush db (map PartRow ps) = Some (add_parts db ps).
Proof.
  revert db. induction ps as [|p ps IH]; intros db; simpl.
  - unfold add_parts. rewrite app_nil_r. now destruct db.
  - rewrite IH. unfold add_parts; simpl. now rewrite <- app_assoc.
Qed.

Lemma dbsession_idle {A} (func : M A) (x : HouseManager) :
  _session x = None ->
  dbsession func x
  = match func (in_session x (store x) (store x) [] (env x) [SessionOpened]) with
    | (Raise ex, x2) => (Raise ex, x2)
    | (Ok result, x2) =>
        match commit x2 with
        | (Raise ex, x3) => (Raise ex, x3)
        | (Ok _, x3) =>
            if is_not None (_session x3)
            then (Ok result, set_session (log x3 [SessionClosed]) None)
            else (Ok result, x3)
        end
    end.
Proof. intros H. unfold dbsession. rewrite H. reflexivity. Qed.

Lemma dbsession_nested {A} (func : M A) x0 st db pend e evs :
  dbsession func (in_session x0 st db pend e evs)
  = match func (in_session x0 st db pend e evs) with
    | (Raise ex, x2) => (Raise ex, x2)
    | (Ok result, x2) =>
        match commit x2 with
        | (Raise ex, x3) => (Raise ex, x3)
        | (Ok _, x3) =>
            if is_not (Some {| txn := db; pending := pend |}) (_session x3)
            then (Ok result,
                  set_session (log x3 [SessionClosed]) (Some {| txn := db; pending := pend |}))
            else (Ok result, x3)
        end
    end.
Proof. reflexivity. Qed.

Lemma close_run x0 st db pend e evs :
  set_session (log (in_session x0 st db pend e evs) [SessionClosed]) None
  = idle x0 st e (evs ++ [SessionClosed]).
Proof. unfold set_session, log, in_session, idle; simpl. now rewrite app_assoc. Qed.

(* ------------------------------------------------------------------ *)
(** ** The scanner computes [scan_house] *)

Lemma py_strip_raises (v : PyVal) (ex : exn) : py_strip v = Raise ex -> ex = AttributeError.
Proof. destruct v; simpl; congruence. Qed.

Lemma new_part_model_raises house_model part name module_name part_module part_obj ex :
  new_part_model house_model part name module_name part_module part_obj = Raise ex ->
  ex = AttributeError.
Proof.
  unfold new_part_model.
  destruct (PyModule.author part_module) as [a|];
    [destruct (py_strip a) eqn:Ha; [|intros [= <-]; eauto using py_strip_raises]|];
    (destruct (PyModule.version part_module) as [v|];
     [destruct (py_strip v) eqn:Hv; [|intros [= <-]; eauto using py_strip_raises]|]);
    (destruct (truthy (PartFactory.__doc__ part_obj));
     [destruct (py_strip (PartFactory.__doc__ part_obj)) eqn:Hd;
      [|intros [= <-]; eauto using py_strip_raises]|]);
    discriminate.
Qed.

Section Scan.

Variables (x0 : HouseManager) (st db : DB) (e : Env) (house_model : HouseModel.t).

Lemma import_entry_run base_local part path entry pend evs :
  import_entry house_model base_local part path entry (in_session x0 st db pend e evs)
  = (Ok tt,
     in_session x0 st db
       (pend ++ map PartRow (fst (scan_entry e house_model base_local part path entry)))
       e
       (evs ++ map LogError (snd (scan_entry e house_model base_local part path entry)))).
Proof.
  unfold import_entry, scan_entry, is_candidate.
  destruct (negb (PyStr.startswith (DirEntry.name entry) ".") && DirEntry.is_dir entry
            && negb (DirEntry.name entry =? "__pycache__")); simpl.
  2: { unfold ret. now rewrite !app_nil_r. }
  unfold bind at 1. rewrite get_env_run.
  destruct (import_module e _) as [part_module| |[]]; simpl;
    try (rewrite emit_run, app_nil_r; reflexivity).
  destruct (PyModule.part part_module) as [part_obj|]; simpl;
    try (rewrite emit_run, app_nil_r; reflexivity).
  unfold try_except, bind, lift.
  destruct (new_part_model _ _ _ _ _ _) as [part_model|ex] eqn:Hnew; simpl.
  - now rewrite app_nil_r.
  - apply new_part_model_raises in Hnew. subst ex. simpl.
    rewrite emit_run, app_nil_r. reflexivity.
Qed.

Lemma for_each_entries_run base_local part path entries pend evs :
  for_each entries (import_entry house_model base_local part path)
           (in_session x0 st db pend e evs)
  = (Ok tt,
     in_session x0 st db
       (pend ++ map PartRow (fst (scan_entries e house_model base_local part path entries)))
       e
       (evs ++ map LogError (snd (scan_entries e house_model base_local part path entries)))).
Proof.
  revert pend evs. induction entries as [|entry entries IH]; intros pend evs; simpl.
  - unfold ret. now rewrite !app_nil_r.
  - unfold bind. rewrite import_entry_run, IH.
    now rewrite !map_app, !app_assoc.
Qed.

Lemma for_each_categories_run base_local cats pend evs :
  for_each cats
    (fun '(part, part_dir) =>
       let path := PyStr.format "{}/{}" [HouseModel.local house_model; part_dir] in
       try_except
         (scan_category house_model base_local part path)
         (fun ex => match ex with
                    | FileNotFoundError _ => Some (ret tt)
                    | _ => None
                    end))
    (in_session x0 st db pend e evs)
  = let '(rows, msgs, r) := scan_categories e house_model base_local cats in
    (match r with None => Ok tt | Some ex => Raise ex end,
     in_session x0 st db (pend ++ map PartRow rows) e (evs ++ map LogError msgs)).
Proof.
  revert pend evs. induction cats as [|[part part_dir] cats IH]; intros pend evs.
  - simpl. unfold ret. now rewrite !app_nil_r.
  - cbn [for_each scan_categories].
    unfold bind at 1. unfold try_except at 1, scan_category at 1.
    unfold bind at 1. rewrite get_env_run.
    destruct (scandir e _) as [entries| |].
    + rewrite for_each_entries_run, IH.
      destruct (scan_categories e house_model base_local cats) as [[rows msgs] r].
      now rewrite !map_app, !app_assoc.
    + unfold raise, ret. rewrite IH. reflexivity.
    + unfold raise. cbn. now rewrite !app_nil_r.
Qed.

(** [import_part_to_db] called inside a session that has nothing pending. *)
Lemma import_part_to_db_nested evs :
  import_part_to_db house_model (in_session x0 st db [] e evs)
  = let '(rows, evs', r) := scan_house e house_model in
    match r with
    | None =>
        (Ok tt,
         in_session x0 (add_parts db rows) (add_parts db rows) [] e
                    (evs ++ evs' ++ [Committed (add_parts db rows)]))
    | Some ex => (Raise ex, in_session x0 st db (map PartRow rows) e (evs ++ evs'))
    end.
Proof.
  unfold import_part_to_db. rewrite dbsession_nested.
  unfold bind at 1. rewrite get_env_run. unfold scan_house.
  destruct (negb (lexists e (HouseModel.local house_model))).
  - rewrite emit_run, commit_run. cbn [flush is_not _session in_session].
    unfold add_parts. rewrite app_nil_r, <- app_assoc.
    now destruct db.
  - rewrite for_each_categories_run.
    destruct (scan_categories e house_model _ part_dict) as [[rows msgs] [ex|]].
    + reflexivity.
    + rewrite commit_run. cbn [app]. rewrite flush_parts.
      cbn [is_not _session in_session]. now rewrite <- app_assoc.
Qed.

End Scan.

(** [import_part_to_db] called with no session active. *)
Lemma import_part_to_db_idle (house_model : HouseModel.t) (x : HouseManager) :
  _session x = None ->
  import_part_to_db house_model x
  = let '(rows, evs, r) := scan_house (env x) house_model in
    match r with
    | None =>
        (Ok tt,
         idle x (add_parts (store x) rows) (env x)
              ([SessionOpened] ++ evs ++ [Committed (add_parts (store x) rows); SessionClosed]))
    | Some ex =>
        (Raise ex,
         in_session x (store x) (store x) (map PartRow rows) (env x) ([SessionOpened] ++ evs))
    end.
Proof.
  intros Hidle. unfold import_part_to_db. rewrite dbsession_idle by assumption.
  unfold bind at 1. rewrite get_env_run. unfold scan_house.
  destruct (negb (lexists (env x) (HouseModel.local house_model))).
  - rewrite emit_run, commit_run. cbn [flush is_not _session in_session].
    rewrite close_run. unfold add_parts. rewrite app_nil_r.
    destruct (store x); reflexivity.
  - rewrite for_each_categories_run.
    destruct (scan_categories (env x) house_model _ part_dict) as [[rows msgs] [ex|]].
    + reflexivity.
    + rewrite commit_run. cbn [app]. rewrite flush_parts.
      cbn [is_not _session in_session]. rewrite close_run.
      cbn [app]. now rewrite <- app_assoc.
Qed.

(* ------------------------------------------------------------------ *)
(** ** Decorated calls that find nothing uncommitted *)

(** The state in which the body of a decorated call starts when nothing
    waits for a commit, whether a session is attached or not. *)
Lemma entered_committed (x : HouseManager) :
  all_committed x ->
  match _session x with None => scoped_Session x | Some _ => x end
  = in_session x (store x) (store x) [] (env x) (opening x).
Proof.
  unfold all_committed, opening, in_session, scoped_Session, log, set_session.
  destruct x as [st [[db pend]|] cache e tr]; simpl.
  - intros [-> ->]. now rewrite app_nil_r.
  - reflexivity.
Qed.

Lemma dbsession_committed {A} (func : M A) (x : HouseManager) :
  all_committed x ->
  dbsession func x
  = match func (in_session x (store x) (store x) [] (env x) (opening x)) with
    | (Raise ex, x2) => (Raise ex, x2)
    | (Ok result, x2) =>
        match commit x2 with
        | (Raise ex, x3) => (Raise ex, x3)
        | (Ok _, x3) =>
            if is_not (_session x) (_session x3)
            then (Ok result, set_session (log x3 [SessionClosed]) (_session x))
            else (Ok result, x3)
        end
    end.
Proof.
  intros H. unfold dbsession. cbv zeta. now rewrite (entered_committed x H).
Qed.

(** The end of a decorated call that has committed [db]. *)
Lemma leave_run {A} (r : A) (x : HouseManager) (db : DB) (e : Env) (evs : list Event) :
  (if is_not (_session x) (_session (in_session x db db [] e (opening x ++ evs)))
   then (Ok r, set_session (log (in_session x db db [] e (opening x ++ evs))
                                [SessionClosed]) (_session x))
   else (Ok r, in_session x db db [] e (opening x ++ evs)))
  = (Ok r, settled x db e evs).
Proof.
  unfold settled, opening. destruct (_session x) as [s|]; cbn [is_not _session in_session].
  - reflexivity.
  - rewrite close_run. now rewrite <- app_assoc.
Qed.

Lemma store_settled x db e evs : store (settled x db e evs) = db.
Proof. unfold settled. now destruct (_session x). Qed.

Lemma env_settled x db e evs : env (settled x db e evs) = e.
Proof. unfold settled. now destruct (_session x). Qed.

Lemma trace_settled x db e evs :
  trace (settled x db e evs)
  = trace x ++ opening x ++ evs
    ++ match _session x with None => [SessionClosed] | Some _ => [] end.
Proof.
  unfold settled, opening. destruct (_session x); cbn [trace idle in_session app].
  - now rewrite app_nil_r.
  - reflexivity.
Qed.

Lemma session_settled x db e evs :
  _session (settled x db e evs) = None <-> _session x = None.
Proof. unfold settled. destruct (_session x); simpl; split; congruence. Qed.

Lemma settled_committed x db e evs : all_committed (settled x db e evs).
Proof. unfold settled, all_committed. destruct (_session x); simpl; auto. Qed.

(** [import_part_to_db] called when nothing waits for a commit. *)
Lemma import_part_to_db_committed (house_model : HouseModel.t) (x : HouseManager) :
  all_committed x ->
  import_part_to_db house_model x
  = let '(rows, evs, r) := scan_house (env x) house_model in
    match r with
    | None =>
        (Ok tt,
         settled x (add_parts (store x) rows) (env x)
                 (evs ++ [Committed (add_parts (store x) rows)]))
    | Some ex =>
        (Raise ex,
         in_session x (store x) (store x) (map PartRow rows) (env x) (opening x ++ evs))
    end.
Proof.
  intros Hc. unfold import_part_to_db. rewrite dbsession_committed by assumption.
  unfold bind at 1. rewrite get_env_run. unfold scan_house.
  destruct (negb (lexists (env x) (HouseModel.local house_model))).
  - rewrite emit_run, commit_run. cbn [flush]. rewrite <- app_assoc.
    rewrite leave_run. unfold add_parts. rewrite app_nil_r.
    destruct (store x); reflexivity.
  - rewrite for_each_categories_run.
    destruct (scan_categories (env x) house_model _ part_dict) as [[rows msgs] [ex|]].
    + reflexivity.
    + rewrite commit_run. cbn [app]. rewrite flush_parts.
      rewrite <- app_assoc. now rewrite leave_run.
Qed.

Lemma scan_entries_flat_map e house_model base_local part path entries :
  scan_entries e house_model base_local part path entries
  = (flat_map (fun entry => fst (scan_entry e house_model base_local part path entry)) entries,
     flat_map (fun entry => snd (scan_entry e house_model base_local part path entry)) entries).
Proof.
  induction entries as [|entry entries IH]; simpl; [reflexivity|].
  now rewrite IH.
Qed.

Lemma scan_categories_listable e house_model base_local cats :
  (forall part part_dir, In (part, part_dir) cats ->
     scandir e (category_path house_model part_dir) <> ScandirOSError) ->
  scan_categories e house_model base_local cats
  = (flat_map (fun '(part, part_dir) =>
                 flat_map (fun entry => fst (scan_entry e house_model base_local part
                                               (category_path house_model part_dir) entry))
                          (category_entries e house_model part_dir)) cats,
     flat_map (fun '(part, part_dir) =>
                 flat_map (fun entry => snd (scan_entry e house_model base_local part
                                               (category_path house_model part_dir) entry))
                          (category_entries e house_model part_dir)) cats,
     None).
Proof.
  induction cats as [|[part part_dir] cats IH]; intros Hl; [reflexivity|].
  cbn [scan_categories flat_map]. unfold category_entries at 1 3.
  fold (category_path house_model part_dir).
  specialize (Hl part part_dir (or_introl eq_refl)) as Hhere.
  rewrite IH by (intros p d Hin; apply (Hl p d); now right).
  destruct (scandir e (category_path house_model part_dir)); try congruence.
  - now rewrite scan_entries_flat_map.
  - reflexivity.
Qed.

Lemma scan_house_listable e house_model :
  listable e house_model ->
  scan_house e house_model
  = if negb (lexists e (HouseModel.local house_model))
    then ([], [LogWarning (HousePathNotExists (HouseModel.name house_model)
                                              (HouseModel.local house_model))], None)
    else (registered_parts e house_model, map LogError (logged_errors e house_model), None).
Proof.
  intros Hl. unfold scan_house.
  destruct (negb (lexists e (HouseModel.local house_model))); [reflexivity|].
  rewrite scan_categories_listable by exact Hl. reflexivity.
Qed.

(** A row that the scan of an entry registers carries the names computed
    for that entry. *)
Lemma scan_entry_row e house_model base_local part path entry part_model :
  In part_model (fst (scan_entry e house_model base_local part path entry)) ->
  is_candidate entry = true
  /\ PartModel.house_name part_model = HouseModel.name house_model
  /\ PartModel.part part_model = part
  /\ PartModel.name part_model
     = part_name_of (HouseModel.name house_model) part (DirEntry.name entry)
  /\ PartModel.module_name part_model
     = module_name_of base_local part (DirEntry.name entry)
  /\ exists part_module part_obj,
       import_module e (module_name_of base_local part (DirEntry.name entry))
       = Imported part_module
       /\ PyModule.part part_module = Some part_obj
       /\ new_part_model house_model part
            (part_name_of (HouseModel.name house_model) part (DirEntry.name entry))
            (module_name_of base_local part (DirEntry.name entry)) part_module part_obj
          = Ok part_model.
Proof.
  unfold scan_entry.
  destruct (is_candidate entry); [|intros []].
  destruct (import_module e _) as [part_module| |[]] eqn:Himp; [|intros []..].
  destruct (PyModule.part part_module) as [part_obj|] eqn:Hpart; [|intros []].
  destruct (new_part_model _ _ _ _ _ _) as [pm|ex] eqn:Hnew; [|intros []].
  intros [<-|[]]. split; [reflexivity|].
  assert (Hfields := Hnew). unfold new_part_model in Hfields.
  destruct (match PyModule.author part_module with Some v => py_strip v | None => Ok "None" end);
    [|discriminate].
  destruct (match PyModule.version part_module with Some v => py_strip v | None => Ok "None" end);
    [|discriminate].
  destruct (if truthy (PartFactory.__doc__ part_obj) then _ else _); [|discriminate].
  injection Hfields as <-. cbn.
  repeat split; eauto.
Qed.

(* ------------------------------------------------------------------ *)
(** ** Naming of parts and of their modules *)

Lemma string_app_nil_r (s : string) : (s ++ "")%string = s.
Proof. induction s as [|c s IH]; simpl; [reflexivity|now rewrite IH]. Qed.

(** C1. For every house directory basename [B], house name [H], category
    [C] and entry [E]: the module name is [B.part.C.E.part] when [C] is one
    of af, cn, ev, mm, pg, se, sg, sp, st and [B.C.E.part] when [C] is
    prtflo or sys; the part name is [H.C.E] for every category, the two
    branches of its computation being equal; and a row that the scanner
    registers for an entry carries exactly these two names. *)
Theorem module_name_and_part_name (B H C E : string) :
  (In C first_nine ->
   module_name_of B C E = (B ++ ".part." ++ C ++ "." ++ E ++ ".part")%string)
  /\ (In C ["prtflo"; "sys"] ->
      module_name_of B C E = (B ++ "." ++ C ++ "." ++ E ++ ".part")%string)
  /\ part_name_of H C E = (H ++ "." ++ C ++ "." ++ E)%string
  /\ PyStr.format "{}.{}.{}" [H; C; E] = part_name_of H C E
  /\ (forall e house_model path entry part_model,
        HouseModel.name house_model = H ->
        DirEntry.name entry = E ->
        In part_model (fst (scan_entry e house_model B C path entry)) ->
        PartModel.module_name part_model = module_name_of B C E
        /\ PartModel.name part_model = part_name_of H C E).
Proof.
  split; [|split; [|split; [|split]]].
  - unfold first_nine. simpl.
    intros HC; repeat (destruct HC as [<-|HC]; [reflexivity|]); destruct HC.
  - simpl. intros HC; repeat (destruct HC as [<-|HC]; [reflexivity|]); destruct HC.
  - unfold part_name_of. destruct (negb _); simpl; now rewrite string_app_nil_r.
  - unfold part_name_of. destruct (negb _); reflexivity.
  - intros e house_model path entry part_model <- <- Hin.
    apply scan_entry_row in Hin. tauto.
Qed.

Lemma module_name_and_part_name_witness :
  In "sg" first_nine
  /\ module_name_of "myhouse" "sg" "foo" = "myhouse.part.sg.foo.part"
  /\ module_name_of "myhouse" "sys" "foo" = "myhouse.sys.foo.part"
  /\ part_name_of "myhouse" "sg" "foo" = "myhouse.sg.foo"
  /\ part_name_of "myhouse" "sys" "foo" = "myhouse.sys.foo".
Proof.
  split; [unfold first_nine; simpl; tauto|].
  split; [apply (module_name_and_part_name "myhouse" "myhouse" "sg" "foo");
          unfold first_nine; simpl; tauto|].
  split; [apply (module_name_and_part_name "myhouse" "myhouse" "sys" "foo");
          simpl; tauto|].
  split; [apply (module_name_and_part_name "myhouse" "myhouse" "sg" "foo")|
          apply (module_name_and_part_name "myhouse" "myhouse" "sys" "foo")].
Defined.

(* ------------------------------------------------------------------ *)
(** ** The scanner tolerates broken candidates *)

Lemma scan_entry_one e house_model base_local part path entry :
  List.length (fst (scan_entry e house_model base_local part path entry))
  + List.length (snd (scan_entry e house_model base_local part path entry))
  = if is_candidate entry then 1 else 0.
Proof.
  unfold scan_entry. destruct (is_candidate entry); [|reflexivity].
  destruct (import_module e _) as [part_module| |[]]; try reflexivity.
  destruct (PyModule.part part_module); try reflexivity.
  destruct (new_part_model _ _ _ _ _ _); reflexivity.
Qed.






(* ------------------------------------------------------------------ *)
(** ** Running the house registry *)

Section Registry.

Variable rmtree : string -> Env -> Env * option exn.
Variable clone_from : option string -> string -> option string -> Env -> Env * bool.
Variable sys_path_append : string -> Env -> Env.

Lemma download_remote_house_run x0 st db pend e evs local_dir url branch :
  download_remote_house rmtree clone_from local_dir url branch
    (in_session x0 st db pend e evs)
  = let '(e', evs', r) := fetch rmtree clone_from e local_dir url branch in
    (match r with None => Ok tt | Some ex => Raise ex end,
     in_session x0 st db pend e' (evs ++ evs')).
Proof.
  unfold download_remote_house, fetch.
  unfold bind at 1. rewrite emit_run.
  unfold bind at 1. rewrite get_env_run.
  unfold bind at 1.
  destruct (lexists e local_dir).
  - unfold bind at 1. rewrite emit_run.
    unfold bind at 1. rewrite put_env_run.
    destruct (snd (rmtree local_dir e)) as [path|].
    + unfold raise. cbn [app]. now rewrite <- !app_assoc.
    + unfold ret at 1.
      unfold bind at 1. rewrite get_env_run.
      unfold bind at 1. rewrite emit_run.
      unfold bind at 1. rewrite put_env_run.
      unfold bind at 1.
      destruct (snd (clone_from _ _ _ _)).
      * unfold ret. rewrite emit_run. cbn [app]. now rewrite <- !app_assoc.
      * unfold raise. cbn [app]. now rewrite <- !app_assoc.
  - unfold ret at 1.
    unfold bind at 1. rewrite get_env_run.
    unfold bind at 1. rewrite emit_run.
    unfold bind at 1. rewrite put_env_run.
    unfold bind at 1.
    destruct (snd (clone_from _ _ _ _)).
    + unfold ret. rewrite emit_run. cbn [app]. now rewrite <- !app_assoc.
    + unfold raise. cbn [app]. now rewrite <- !app_assoc.
Qed.

Lemma find_none_existsb {A} (f : A -> bool) (l : list A) :
  find f l = None -> existsb f l = false.
Proof.
  induction l as [|a l IH]; simpl; [reflexivity|].
  destruct (f a); [discriminate|]. exact IH.
Qed.

Lemma flush_new_house db h :
  find_house (HouseModel.name h) db = None ->
  flush db [HouseRow h] = Some (add_house db h).
Proof.
  intros Hnone. simpl. unfold find_house, first in Hnone.
  now rewrite (find_none_existsb _ _ Hnone).
Qed.

(** The outcome of [add_remote_house] called with no session active. *)
Lemma add_remote_house_idle name url branch x :
  _session x = None ->
  add_remote_house rmtree clone_from name url branch x
  = match find_house name (store x) with
    | Some _ =>
        (Raise (HouseNameRepeatError name),
         in_session x (store x) (store x) [] (env x) [SessionOpened])
    | None =>
        let record := remote_house (remote_cache_dir x) name url branch in
        let '(e', evs1, r1) :=
          fetch rmtree clone_from (env x) (HouseModel.local record)
                (Some url) (Some branch) in
        match r1 with
        | Some ex =>
            (Raise ex, in_session x (store x) (store x) [] e' ([SessionOpened] ++ evs1))
        | None =>
            let '(rows, evs2, r2) := scan_house e' record in
            match r2 with
            | Some ex =>
                (Raise ex,
                 in_session x (store x) (store x) (map PartRow rows) e'
                            ([SessionOpened] ++ evs1 ++ evs2))
            | None =>
                (Ok tt,
                 idle x (add_house (add_parts (store x) rows) record) e'
                   ([SessionOpened] ++ evs1 ++ evs2
                    ++ [Committed (add_parts (store x) rows);
                        Committed (add_house (add_parts (store x) rows) record);
                        SessionClosed]))
            end
        end
    end.
Proof.
  intros Hidle. unfold add_remote_house. rewrite dbsession_idle by assumption.
  unfold bind at 1. rewrite query_run.
  unfold bind at 1. unfold find_house.
  destruct (first _ (house_repo (store x))) as [h|] eqn:Hfind; [reflexivity|].
  cbn [is_None negb checkif]. unfold ret at 1.
  unfold bind at 1. rewrite query_run.
  unfold bind at 1, get_self. cbn [remote_cache_dir in_session].
  unfold bind at 1. rewrite download_remote_house_run.
  unfold remote_house. cbn [HouseModel.local].
  destruct (fetch _ _ _ _ _ _) as [[e' evs1] [ex|]]; [reflexivity|].
  unfold bind at 1. rewrite import_part_to_db_nested.
  destruct (scan_house e' _) as [[rows evs2] [ex|]].
  - now rewrite <- app_assoc.
  - rewrite session_add_run, commit_run. cbn [app].
    rewrite flush_new_house by exact Hfind.
    cbn [is_not _session in_session]. rewrite close_run.
    cbn [app]. now rewrite <- !app_assoc.
Qed.

(** The outcome of [update_house] called with no session active. *)
Lemma update_house_idle name x :
  _session x = None ->
  update_house rmtree clone_from name x
  = match find_house name (store x) with
    | None =>
        (Raise (HKUCheckError (HouseNotExists name)),
         in_session x (store x) (store x) [] (env x) [SessionOpened])
    | Some house_model =>
        let db0 := delete_parts name (store x) in
        let '(e', evs1, r1) :=
          if (HouseModel.house_type house_model =? "remote")%string
          then fetch rmtree clone_from (env x) (HouseModel.local house_model)
                     (HouseModel.url house_model) (HouseModel.branch house_model)
          else (env x, [], None) in
        match r1 with
        | Some ex => (Raise ex, in_session x (store x) db0 [] e' ([SessionOpened] ++ evs1))
        | None =>
            let '(rows, evs2, r2) := scan_house e' house_model in
            match r2 with
            | Some ex =>
                (Raise ex,
                 in_session x (store x) db0 (map PartRow rows) e'
                            ([SessionOpened] ++ evs1 ++ evs2))
            | None =>
                (Ok tt,
                 idle x (add_parts db0 rows) e'
                   ([SessionOpened] ++ evs1 ++ evs2
                    ++ [Committed (add_parts db0 rows); Committed (add_parts db0 rows);
                        SessionClosed]))
            end
        end
    end.
Proof.
  intros Hidle. unfold update_house. rewrite dbsession_idle by assumption.
  unfold bind at 1. rewrite query_run.
  unfold bind at 1. unfold find_house.
  destruct (first _ (house_repo (store x))) as [house_model|] eqn:Hfind; [|reflexivity].
  cbn [is_None checkif]. unfold ret at 1.
  unfold bind at 1. rewrite bulk_delete_run.
  unfold bind at 1.
  destruct (HouseModel.house_type house_model =? "remote")%string.
  - rewrite download_remote_house_run.
    destruct (fetch _ _ _ _ _ _) as [[e' evs1] [ex|]]; [reflexivity|].
    rewrite import_part_to_db_nested.
    destruct (scan_house e' _) as [[rows evs2] [ex|]].
    + now rewrite <- app_assoc.
    + rewrite commit_run. cbn [flush is_not _session in_session]. rewrite close_run.
      cbn [app]. now rewrite <- !app_assoc.
  - unfold ret at 1. rewrite import_part_to_db_nested.
    destruct (scan_house (env x) _) as [[rows evs2] [ex|]].
    + reflexivity.
    + rewrite commit_run. cbn [flush is_not _session in_session]. rewrite close_run.
      cbn [app]. now rewrite <- !app_assoc.
Qed.

(** The outcome of [remove_house] called with no session active. *)
Lemma remove_house_idle name x :
  _session x = None ->
  remove_house name x
  = (Ok tt,
     idle x (delete_houses name (delete_parts name (store x))) (env x)
       [SessionOpened; Committed (delete_houses name (delete_parts name (store x)));
        SessionClosed]).
Proof.
  intros Hidle. unfold remove_house. rewrite dbsession_idle by assumption.
  unfold bind at 1. rewrite bulk_delete_run, bulk_delete_run, commit_run.
  cbn [flush is_not _session in_session]. now rewrite close_run.
Qed.

(** The outcome of [add_local_house] called with no session active. *)
Lemma add_local_house_idle path x :
  _session x = None ->
  add_local_house sys_path_append path x
  = let opened := in_session x (store x) (store x) [] (env x) [SessionOpened] in
    if negb (lexists (env x) path)
    then (Raise (HKUCheckError (PathNotFound path)), opened)
    else
      let local_path := abspath (env x) path in
      let name := OsPath.basename local_path in
      match find_house name (store x) with
      | Some _ => (Raise (HouseNameRepeatError name), opened)
      | None =>
          let e' := sys_path_append (OsPath.dirname path) (env x) in
          let evs1 := [SessionOpened; SysPathAppend (OsPath.dirname path)] in
          let failed ex := (Raise ex, in_session x (store x) (store x) [] e' evs1) in
          match import_module e' name with
          | ImportNotFound => failed (ModuleNotFoundError name)
          | ImportRaised ex => failed ex
          | Imported tmp =>
              match PyModule.__path__ tmp with
              | None => failed AttributeError
              | Some [] => failed IndexError
              | Some (tmp_path :: _) =>
                  if negb (tmp_path =? local_path)%string
                  then failed (ModuleConflictError name tmp_path local_path)
                  else
                    let '(rows, evs2, r2) := scan_house e' (local_house local_path) in
                    match r2 with
                    | Some ex =>
                        (Raise ex,
                         in_session x (store x) (store x) (map PartRow rows) e' (evs1 ++ evs2))
                    | None =>
                        (Ok tt,
                         idle x (add_house (add_parts (store x) rows) (local_house local_path))
                           e'
                           (evs1 ++ evs2
                            ++ [Committed (add_parts (store x) rows);
                                Committed (add_house (add_parts (store x) rows)
                                                     (local_house local_path));
                                SessionClosed]))
                    end
              end
          end
      end.
Proof.
  intros Hidle. unfold add_local_house. rewrite dbsession_idle by assumption.
  unfold bind at 1. rewrite get_env_run.
  unfold bind at 1.
  destruct (negb (lexists (env x) path)); [reflexivity|].
  cbn [checkif]. unfold ret at 1.
  unfold bind at 1. rewrite query_run.
  unfold bind at 1. unfold find_house.
  destruct (first _ (house_repo (store x))) as [h|] eqn:Hfind; [reflexivity|].
  cbn [is_None negb checkif]. unfold ret at 1.
  unfold bind at 1. rewrite emit_run.
  unfold bind at 1. rewrite put_env_run.
  unfold bind at 1. rewrite get_env_run.
  unfold bind at 1.
  destruct (import_module _ _) as [tmp| |cls]; try reflexivity.
  unfold ret at 1. unfold bind at 1.
  destruct (PyModule.__path__ tmp) as [[|tmp_path rest]|]; try reflexivity.
  unfold ret at 1. unfold bind at 1.
  destruct (negb (tmp_path =? abspath (env x) path)%string); [reflexivity|].
  cbn [checkif]. unfold ret at 1.
  unfold bind at 1. fold (local_house (abspath (env x) path)).
  rewrite import_part_to_db_nested.
  destruct (scan_house _ _) as [[rows evs2] [ex|]].
  - reflexivity.
  - rewrite session_add_run, commit_run. cbn [app].
    rewrite flush_new_house by exact Hfind.
    cbn [is_not _session in_session]. rewrite close_run.
    cbn [app]. now rewrite <- !app_assoc.
Qed.

(** The same four outcomes when the call finds nothing uncommitted,
    whether a session is attached or not. *)
Lemma add_remote_house_committed name url branch x :
  all_committed x ->
  add_remote_house rmtree clone_from name url branch x
  = match find_house name (store x) with
    | Some _ =>
        (Raise (HouseNameRepeatError name),
         in_session x (store x) (store x) [] (env x) (opening x))
    | None =>
        let record := remote_house (remote_cache_dir x) name url branch in
        let '(e', evs1, r1) :=
          fetch rmtree clone_from (env x) (HouseModel.local record)
                (Some url) (Some branch) in
        match r1 with
        | Some ex =>
            (Raise ex, in_session x (store x) (store x) [] e' (opening x ++ evs1))
        | None =>
            let '(rows, evs2, r2) := scan_house e' record in
            match r2 with
            | Some ex =>
                (Raise ex,
                 in_session x (store x) (store x) (map PartRow rows) e'
                            (opening x ++ evs1 ++ evs2))
            | None =>
                (Ok tt,
                 settled x (add_house (add_parts (store x) rows) record) e'
                   (evs1 ++ evs2
                    ++ [Committed (add_parts (store x) rows);
                        Committed (add_house (add_parts (store x) rows) record)]))
            end
        end
    end.
Proof.
  intros Hc. unfold add_remote_house. rewrite dbsession_committed by assumption.
  unfold bind at 1. rewrite query_run.
  unfold bind at 1. unfold find_house.
  destruct (first _ (house_repo (store x))) as [h|] eqn:Hfind; [reflexivity|].
  cbn [is_None negb checkif]. unfold ret at 1.
  unfold bind at 1. rewrite query_run.
  unfold bind at 1, get_self. cbn [remote_cache_dir in_session].
  unfold bind at 1. rewrite download_remote_house_run.
  unfold remote_house. cbn [HouseModel.local].
  destruct (fetch _ _ _ _ _ _) as [[e' evs1] [ex|]]; [reflexivity|].
  unfold bind at 1. rewrite import_part_to_db_nested.
  destruct (scan_house e' _) as [[rows evs2] [ex|]].
  - now rewrite <- app_assoc.
  - rewrite session_add_run, commit_run. cbn [app].
    rewrite flush_new_house by exact Hfind.
    rewrite <- !app_assoc. cbn [app]. now rewrite leave_run.
Qed.

Lemma update_house_committed name x :
  all_committed x ->
  update_house rmtree clone_from name x
  = match find_house name (store x) with
    | None =>
        (Raise (HKUCheckError (HouseNotExists name)),
         in_session x (store x) (store x) [] (env x) (opening x))
    | Some house_model =>
        let db0 := delete_parts name (store x) in
        let '(e', evs1, r1) :=
          if (HouseModel.house_type house_model =? "remote")%string
          then fetch rmtree clone_from (env x) (HouseModel.local house_model)
                     (HouseModel.url house_model) (HouseModel.branch house_model)
          else (env x, [], None) in
        match r1 with
        | Some ex => (Raise ex, in_session x (store x) db0 [] e' (opening x ++ evs1))
        | None =>
            let '(rows, evs2, r2) := scan_house e' house_model in
            match r2 with
            | Some ex =>
                (Raise ex,
                 in_session x (store x) db0 (map PartRow rows) e'
                            (opening x ++ evs1 ++ evs2))
            | None =>
                (Ok tt,
                 settled x (add_parts db0 rows) e'
                   (evs1 ++ evs2
                    ++ [Committed (add_parts db0 rows); Committed (add_parts db0 rows)]))
            end
        end
    end.
Proof.
  intros Hc. unfold update_house. rewrite dbsession_committed by assumption.
  unfold bind at 1. rewrite query_run.
  unfold bind at 1. unfold find_house.
  destruct (first _ (house_repo (store x))) as [house_model|] eqn:Hfind; [|reflexivity].
  cbn [is_None checkif]. unfold ret at 1.
  unfold bind at 1. rewrite bulk_delete_run.
  unfold bind at 1.
  destruct (HouseModel.house_type house_model =? "remote")%string.
  - rewrite download_remote_house_run.
    destruct (fetch _ _ _ _ _ _) as [[e' evs1] [ex|]]; [reflexivity|].
    rewrite import_part_to_db_nested.
    destruct (scan_house e' _) as [[rows evs2] [ex|]].
    + now rewrite <- app_assoc.
    + rewrite commit_run. cbn [flush].
      rewrite <- !app_assoc. cbn [app]. now rewrite leave_run.
  - unfold ret at 1. rewrite import_part_to_db_nested.
    destruct (scan_house (env x) _) as [[rows evs2] [ex|]].
    + reflexivity.
    + rewrite commit_run. cbn [flush].
      rewrite <- !app_assoc. cbn [app]. now rewrite leave_run.
Qed.

Lemma remove_house_committed name x :
  all_committed x ->
  remove_house name x
  = (Ok tt,
     settled x (delete_houses name (delete_parts name (store x))) (env x)
       [Committed (delete_houses name (delete_parts name (store x)))]).
Proof.
  intros Hc. unfold remove_house. rewrite dbsession_committed by assumption.
  unfold bind at 1. rewrite bulk_delete_run, bulk_delete_run, commit_run.
  cbn [flush]. now rewrite leave_run.
Qed.

Lemma add_local_house_committed path x :
  all_committed x ->
  add_local_house sys_path_append path x
  = let opened := in_session x (store x) (store x) [] (env x) (opening x) in
    if negb (lexists (env x) path)
    then (Raise (HKUCheckError (PathNotFound path)), opened)
    else
      let local_path := abspath (env x) path in
      let name := OsPath.basename local_path in
      match find_house name (store x) with
      | Some _ => (Raise (HouseNameRepeatError name), opened)
      | None =>
          let e' := sys_path_append (OsPath.dirname path) (env x) in
          let evs1 := [SysPathAppend (OsPath.dirname path)] in
          let failed ex :=
            (Raise ex, in_session x (store x) (store x) [] e' (opening x ++ evs1)) in
          match import_module e' name with
          | ImportNotFound => failed (ModuleNotFoundError name)
          | ImportRaised ex => failed ex
          | Imported tmp =>
              match PyModule.__path__ tmp with
              | None => failed AttributeError
              | Some [] => failed IndexError
              | Some (tmp_path :: _) =>
                  if negb (tmp_path =? local_path)%string
                  then failed (ModuleConflictError name tmp_path local_path)
                  else
                    let '(rows, evs2, r2) := scan_house e' (local_house local_path) in
                    match r2 with
                    | Some ex =>
                        (Raise ex,
                         in_session x (store x) (store x) (map PartRow rows) e'
                                    (opening x ++ evs1 ++ evs2))
                    | None =>
                        (Ok tt,
                         settled x (add_house (add_parts (store x) rows)
                                              (local_house local_path))
                           e'
                           (evs1 ++ evs2
                            ++ [Committed (add_parts (store x) rows);
                                Committed (add_house (add_parts (store x) rows)
                                                     (local_house local_path))]))
                    end
              end
          end
      end.
Proof.
  intros Hc. unfold add_local_house. rewrite dbsession_committed by assumption.
  unfold bind at 1. rewrite get_env_run.
  unfold bind at 1.
  destruct (negb (lexists (env x) path)); [reflexivity|].
  cbn [checkif]. unfold ret at 1.
  unfold bind at 1. rewrite query_run.
  unfold bind at 1. unfold find_house.
  destruct (first _ (house_repo (store x))) as [h|] eqn:Hfind; [reflexivity|].
  cbn [is_None negb checkif]. unfold ret at 1.
  unfold bind at 1. rewrite emit_run.
  unfold bind at 1. rewrite put_env_run.
  unfold bind at 1. rewrite get_env_run.
  unfold bind at 1.
  destruct (import_module _ _) as [tmp| |ex]; try reflexivity.
  unfold ret at 1. unfold bind at 1.
  destruct (PyModule.__path__ tmp) as [[|tmp_path rest]|]; try reflexivity.
  unfold ret at 1. unfold bind at 1.
  destruct (negb (tmp_path =? abspath (env x) path)%string); [reflexivity|].
  cbn [checkif]. unfold ret at 1.
  unfold bind at 1. fold (local_house (abspath (env x) path)).
  rewrite import_part_to_db_nested.
  destruct (scan_house _ _) as [[rows evs2] [ex|]].
  - now rewrite <- app_assoc.
  - rewrite session_add_run, commit_run. cbn [app].
    rewrite flush_new_house by exact Hfind.
    rewrite <- !app_assoc. cbn [app]. now rewrite leave_run.
Qed.

End Registry.

(* ------------------------------------------------------------------ *)
(** ** Facts about rows, filters and events *)

Lemma filter_none {A} (f : A -> bool) (l : list A) :
  Forall (fun a => f a = false) l -> filter f l = [].
Proof.
  induction 1 as [|a l Ha _ IH]; simpl; [reflexivity|]. now rewrite Ha.
Qed.

Lemma filter_all {A} (f : A -> bool) (l : list A) :
  Forall (fun a => f a = true) l -> filter f l = l.
Proof.
  induction 1 as [|a l Ha _ IH]; simpl; [reflexivity|]. now rewrite Ha, IH.
Qed.

Lemma find_none_forall {A} (f : A -> bool) (l : list A) :
  find f l = None -> Forall (fun a => f a = false) l.
Proof.
  induction l as [|a l IH]; simpl; [constructor|].
  destruct (f a) eqn:Ha; [discriminate|]. intros H. constructor; auto.
Qed.

Lemma find_some_name name db h :
  find_house name db = Some h -> HouseModel.name h = name.
Proof.
  unfold find_house, first. intros H. apply find_some in H as [_ H].
  now apply String.eqb_eq.
Qed.

Lemma scan_entries_house e house_model base_local part path entries :
  Forall (fun p => PartModel.house_name p = HouseModel.name house_model)
         (fst (scan_entries e house_model base_local part path entries)).
Proof.
  induction entries as [|entry entries IH]; simpl; [constructor|].
  apply Forall_app. split; [|exact IH].
  apply Forall_forall. intros p Hp. apply scan_entry_row in Hp. tauto.
Qed.

Lemma scan_categories_house e house_model base_local cats :
  Forall (fun p => PartModel.house_name p = HouseModel.name house_model)
         (fst (fst (scan_categories e house_model base_local cats))).
Proof.
  induction cats as [|[part part_dir] cats IH]; simpl; [constructor|].
  destruct (scandir e _); [|exact IH|constructor].
  destruct (scan_categories e house_model base_local cats) as [[rows msgs] r]; simpl in *.
  apply Forall_app. split; [apply scan_entries_house|exact IH].
Qed.

(** Every row of a scan belongs to the scanned house. *)
Lemma scan_house_rows e house_model rows evs r :
  scan_house e house_model = (rows, evs, r) ->
  Forall (fun p => PartModel.house_name p = HouseModel.name house_model) rows.
Proof.
  unfold scan_house. destruct (negb _).
  - intros [= <- _ _]. constructor.
  - pose proof (scan_categories_house e house_model
                  (OsPath.basename (HouseModel.local house_model)) part_dict) as H.
    destruct (scan_categories _ _ _ _) as [[rows' msgs] r']. intros [= <- _ _]. exact H.
Qed.

(** A scan only logs. *)
Lemma scan_house_events e house_model rows evs r :
  scan_house e house_model = (rows, evs, r) -> Forall (fun ev => is_log ev = true) evs.
Proof.
  unfold scan_house. destruct (negb _).
  - intros [= _ <- _]. repeat constructor.
  - destruct (scan_categories _ _ _ _) as [[rows' msgs] r']. intros [= _ <- _].
    apply Forall_forall. intros ev Hin. apply in_map_iff in Hin as (m & <- & _). reflexivity.
Qed.

(** A fetch only prints, removes and clones. *)
Lemma fetch_events rmtree clone_from e local_dir url branch e' evs r :
  fetch rmtree clone_from e local_dir url branch = (e', evs, r) ->
  Forall (fun ev => is_fetch ev = true) evs.
Proof.
  unfold fetch. destruct (lexists e local_dir).
  - destruct (snd (rmtree local_dir e)).
    + intros [= _ <- _]. repeat constructor.
    + destruct (snd (clone_from _ _ _ _)); intros [= _ <- _]; repeat constructor.
  - destruct (snd (clone_from _ _ _ _)); intros [= _ <- _]; repeat constructor.
Qed.

Lemma filter_class (f g : Event -> bool) (evs : list Event) :
  (forall ev, g ev = true -> f ev = false) ->
  Forall (fun ev => g ev = true) evs -> filter f evs = [].
Proof.
  intros Hfg Hall. apply filter_none. eapply Forall_impl; [|exact Hall]. exact Hfg.
Qed.

Lemma parts_of_add_parts h db rows :
  parts_of h (add_parts db rows)
  = parts_of h db ++ filter (fun p => PartModel.house_name p =? h)%string rows.
Proof. unfold parts_of, add_parts; simpl. apply filter_app. Qed.

Lemma filter_own_rows h rows :
  Forall (fun p => PartModel.house_name p = h) rows ->
  filter (fun p => PartModel.house_name p =? h)%string rows = rows.
Proof.
  intros H. apply filter_all. eapply Forall_impl; [|exact H].
  intros p ->. apply String.eqb_refl.
Qed.

Lemma filter_foreign_rows h h' rows :
  h <> h' ->
  Forall (fun p => PartModel.house_name p = h) rows ->
  filter (fun p => PartModel.house_name p =? h')%string rows = [].
Proof.
  intros Hne H. apply filter_none. eapply Forall_impl; [|exact H].
  intros p ->. now apply String.eqb_neq.
Qed.

Lemma parts_of_delete_parts_same h db : parts_of h (delete_parts h db) = [].
Proof.
  unfold parts_of, delete_parts; simpl. induction (house_part db) as [|p l IH]; simpl.
  - reflexivity.
  - destruct (PartModel.house_name p =? h)%string eqn:Hp; simpl; [exact IH|].
    now rewrite Hp.
Qed.

Lemma parts_of_delete_parts_other h h' db :
  h <> h' -> parts_of h' (delete_parts h db) = parts_of h' db.
Proof.
  intros Hne. unfold parts_of, delete_parts; simpl.
  induction (house_part db) as [|p l IH]; simpl; [reflexivity|].
  destruct (PartModel.house_name p =? h)%string eqn:Hp; simpl.
  - apply String.eqb_eq in Hp. rewrite Hp.
    apply String.eqb_neq in Hne. now rewrite Hne.
  - now rewrite IH.
Qed.

Lemma houses_named_delete_houses_other h h' db :
  h <> h' -> houses_named h' (delete_houses h db) = houses_named h' db.
Proof.
  intros Hne. unfold houses_named, delete_houses; simpl.
  induction (house_repo db) as [|a l IH]; simpl; [reflexivity|].
  destruct (HouseModel.name a =? h)%string eqn:Ha; simpl.
  - apply String.eqb_eq in Ha. rewrite Ha.
    apply String.eqb_neq in Hne. now rewrite Hne.
  - now rewrite IH.
Qed.

Lemma get_house_name_list_idle x :
  _session x = None ->
  get_house_name_list x
  = (Ok (map HouseModel.name (house_repo (store x))),
     idle x (store x) (env x) [SessionOpened; Committed (store x); SessionClosed]).
Proof.
  intros Hidle. unfold get_house_name_list. rewrite dbsession_idle by assumption.
  unfold bind at 1. rewrite query_run. unfold ret. rewrite commit_run.
  cbn [flush is_not _session in_session]. now rewrite close_run.
Qed.

Lemma get_part_name_list_idle house x :
  _session x = None ->
  get_part_name_list (Some house) None x
  = (Ok (map PartModel.name (parts_of house (store x))),
     idle x (store x) (env x) [SessionOpened; Committed (store x); SessionClosed]).
Proof.
  intros Hidle. unfold get_part_name_list. rewrite dbsession_idle by assumption.
  unfold bind at 1. rewrite query_run. unfold ret. rewrite commit_run.
  cbn [flush is_not _session in_session]. now rewrite close_run.
Qed.

Lemma get_house_name_list_committed x :
  all_committed x ->
  get_house_name_list x
  = (Ok (map HouseModel.name (house_repo (store x))),
     settled x (store x) (env x) [Committed (store x)]).
Proof.
  intros Hc. unfold get_house_name_list. rewrite dbsession_committed by assumption.
  unfold bind at 1. rewrite query_run. unfold ret. rewrite commit_run.
  cbn [flush]. now rewrite leave_run.
Qed.

Lemma get_part_name_list_committed house x :
  all_committed x ->
  get_part_name_list (Some house) None x
  = (Ok (map PartModel.name (parts_of house (store x))),
     settled x (store x) (env x) [Committed (store x)]).
Proof.
  intros Hc. unfold get_part_name_list. rewrite dbsession_committed by assumption.
  unfold bind at 1. rewrite query_run. unfold ret. rewrite commit_run.
  cbn [flush]. now rewrite leave_run.
Qed.

(* ------------------------------------------------------------------ *)
(** ** The house registry *)

Section RegistryClaims.

Variable rmtree : string -> Env -> Env * option exn.
Variable clone_from : option string -> string -> option string -> Env -> Env * bool.

(** C3. With no session active: [add_remote_house] with a name that is
    already registered raises HouseNameRepeatError, and the manager after
    the raise has the store and the environment of before, nothing pending
    in its session and one new event, the opening of the session (no
    fetch, no scan, no insert).  In particular, after a call that
    registered [name], a second call with the same name (and any url and
    branch) fails so, and the store keeps exactly one house row of that
    name. *)
Theorem add_remote_house_twice (name url branch url' branch' : string) (x : HouseManager) :
  _session x = None ->
  (forall h, find_house name (store x) = Some h ->
     add_remote_house rmtree clone_from name url branch x
     = (Raise (HouseNameRepeatError name),
        in_session x (store x) (store x) [] (env x) [SessionOpened]))
  /\ (forall x1,
        add_remote_house rmtree clone_from name url branch x = (Ok tt, x1) ->
        exists x2,
          add_remote_house rmtree clone_from name url' branch' x1
          = (Raise (HouseNameRepeatError name), x2)
          /\ store x2 = store x1
          /\ env x2 = env x1
          /\ _session x2 = Some {| txn := store x1; pending := [] |}
          /\ trace x2 = trace x1 ++ [SessionOpened]
          /\ List.length (houses_named name (store x2)) = 1).
Proof.
  intros Hidle. split.
  - intros h Hfind. rewrite add_remote_house_idle by assumption. now rewrite Hfind.
  - intros x1. rewrite add_remote_house_idle by assumption.
    destruct (find_house name (store x)) as [h|] eqn:Hfind; [discriminate|].
    cbv zeta.
    destruct (fetch _ _ _ _ _ _) as [[e' evs1] [ex|]]; [discriminate|].
    destruct (scan_house e' _) as [[rows evs2] [ex|]]; [discriminate|].
    intros [= <-].
    assert (Hnamed : houses_named name
                       (add_house (add_parts (store x) rows)
                                  (remote_house (remote_cache_dir x) name url branch))
                     = [remote_house (remote_cache_dir x) name url branch]).
    { unfold houses_named, add_house, add_parts; simpl. rewrite filter_app.
      rewrite filter_none by (apply find_none_forall; exact Hfind).
      simpl. now rewrite String.eqb_refl. }
    assert (Hfind1 : find_house name
                       (add_house (add_parts (store x) rows)
                                  (remote_house (remote_cache_dir x) name url branch))
                     <> None).
    { unfold find_house, first, add_house, add_parts; simpl.
      intros Hnone. apply find_none_forall in Hnone.
      apply Forall_app in Hnone as [_ Hnone]. inversion Hnone as [|? ? Hn _]; subst.
      simpl in Hn. now rewrite String.eqb_refl in Hn. }
    eexists. rewrite add_remote_house_idle by reflexivity.
    cbn [store idle].
    destruct (find_house name
                (add_house (add_parts (store x) rows)
                           (remote_house (remote_cache_dir x) name url branch)))
      as [h|] eqn:Hagain; [|exfalso; exact (Hfind1 eq_refl)].
    split; [reflexivity|]. cbn [store env _session trace in_session idle].
    rewrite Hnamed. repeat split.
Qed.

(** C4, as the code has it.  When nothing waits for a commit in the
    session (none is attached, or the attached one has an unchanged
    transaction and nothing pending): [update_house] on a name that is not
    registered raises the check error "the house does not exist" and leaves
    the store and the environment as they were, with nothing uncommitted;
    on a registered house, when it returns, the committed parts are the
    parts of the other houses as before followed by the rows of the new
    scan (of the environment left by the re-fetch), so the house has
    exactly those rows and none of its old ones, the house rows are
    unchanged and again nothing waits for a commit; and it does return for
    a local house, and for a remote house whose fetch succeeds, when the
    category directories list or are missing. *)
Theorem update_house_replaces (name : string) (x : HouseManager) :
  all_committed x ->
  (find_house name (store x) = None ->
   exists x',
     update_house rmtree clone_from name x = (Raise (HKUCheckError (HouseNotExists name)), x')
     /\ store x' = store x /\ env x' = env x
     /\ all_committed x')
  /\ (forall house_model x',
        find_house name (store x) = Some house_model ->
        update_house rmtree clone_from name x = (Ok tt, x') ->
        exists rows evs,
          scan_house (env x') house_model = (rows, evs, None)
          /\ house_part (store x') = parts_not_of name (store x) ++ rows
          /\ parts_of name (store x') = rows
          /\ List.length (parts_of name (store x')) = List.length rows
          /\ house_repo (store x') = house_repo (store x)
          /\ all_committed x'
          /\ (_session x' = None <-> _session x = None))
  /\ (forall house_model,
        find_house name (store x) = Some house_model ->
        (HouseModel.house_type house_model <> "remote"%string ->
         listable (env x) house_model ->
         fst (update_house rmtree clone_from name x) = Ok tt)
        /\ (HouseModel.house_type house_model = "remote"%string ->
            forall e' evs,
              fetch rmtree clone_from (env x) (HouseModel.local house_model)
                    (HouseModel.url house_model) (HouseModel.branch house_model)
              = (e', evs, None) ->
              listable e' house_model ->
              fst (update_house rmtree clone_from name x) = Ok tt)).
Proof.
  intros Hc. split; [|split].
  3: { intros house_model Hfind. rewrite update_house_committed by assumption.
       rewrite Hfind. cbv zeta. split.
       - intros Hlocal Hl. apply String.eqb_neq in Hlocal. rewrite Hlocal.
         rewrite (scan_house_listable _ _ Hl). now destruct (negb _).
       - intros Hremote e' evs Hfetch Hl. apply String.eqb_eq in Hremote.
         rewrite Hremote, Hfetch. rewrite (scan_house_listable _ _ Hl).
         now destruct (negb _). }
  - intros Hfind. rewrite update_house_committed by assumption. rewrite Hfind.
    eexists. split; [reflexivity|]. repeat split.
  - intros house_model x' Hfind. rewrite update_house_committed by assumption.
    rewrite Hfind. cbv zeta.
    destruct (if (HouseModel.house_type house_model =? "remote")%string then _ else _)
      as [[e' evs1] [ex|]]; [discriminate|].
    destruct (scan_house e' house_model) as [[rows evs2] [ex|]] eqn:Hscan; [discriminate|].
    intros [= <-]. exists rows, evs2.
    rewrite env_settled, store_settled, session_settled.
    split; [exact Hscan|].
    assert (Hown : parts_of name (add_parts (delete_parts name (store x)) rows) = rows).
    { rewrite parts_of_add_parts, parts_of_delete_parts_same. simpl.
      apply filter_own_rows. apply scan_house_rows in Hscan.
      now rewrite (find_some_name _ _ _ Hfind) in Hscan. }
    rewrite Hown. repeat split; auto using settled_committed.
Qed.

End RegistryClaims.

(** C5, as the code has it.  When nothing waits for a commit in the
    session, for every name, registered or not: [remove_house] returns
    without error; the store is then the old one without the part rows of
    that house and without the house row of that name, and again nothing
    waits for a commit; [get_house_name_list] does not contain the name and
    [get_part_name_list(house=name)] is empty; and when the store had no
    such house and no such parts it is left as it was. *)
Theorem remove_house_total (name : string) (x : HouseManager) :
  all_committed x ->
  exists x',
    remove_house name x = (Ok tt, x')
    /\ all_committed x'
    /\ (_session x' = None <-> _session x = None)
    /\ store x' = delete_houses name (delete_parts name (store x))
    /\ (exists names, fst (get_house_name_list x') = Ok names /\ ~ In name names)
    /\ fst (get_part_name_list (Some name) None x') = Ok []
    /\ (find_house name (store x) = None -> parts_of name (store x) = [] ->
        store x' = store x).
Proof.
  intros Hc. rewrite remove_house_committed by assumption.
  eexists. split; [reflexivity|].
  split; [apply settled_committed|]. split; [apply session_settled|].
  rewrite store_settled. split; [reflexivity|]. split; [|split].
  - rewrite get_house_name_list_committed by apply settled_committed.
    cbn [fst]. rewrite store_settled.
    eexists. split; [reflexivity|].
    intros Hin. apply in_map_iff in Hin as (h & Hname & Hin).
    unfold delete_houses in Hin; simpl in Hin. apply filter_In in Hin as [_ Hneq].
    rewrite Hname, String.eqb_refl in Hneq. discriminate.
  - rewrite get_part_name_list_committed by apply settled_committed.
    cbn [fst]. rewrite store_settled.
    unfold parts_of, delete_houses. cbn [house_part].
    fold (parts_of name (delete_parts name (store x))).
    now rewrite parts_of_delete_parts_same.
  - intros Hfind Hparts. unfold delete_houses, delete_parts; simpl.
    rewrite (filter_all (fun h => negb (HouseModel.name h =? name)%string)).
    2: { apply find_none_forall in Hfind. eapply Forall_impl; [|exact Hfind].
         simpl. intros h ->. reflexivity. }
    rewrite (filter_all (fun p => negb (PartModel.house_name p =? name)%string)).
    2: { apply Forall_forall. intros p Hin.
         destruct (PartModel.house_name p =? name)%string eqn:Hp; [|reflexivity].
         assert (Hin' : In p (parts_of name (store x))) by (apply filter_In; now split).
         rewrite Hparts in Hin'. destruct Hin'. }
    now destruct (store x).
Qed.

Lemma add_remote_house_twice_witness :
  _session Example.x0 = None
  /\ fst (add_remote_house Example.rmtree Example.clone_from
            "myhouse" Example.url "master" Example.x0) = Ok tt
  /\ exists x2,
       add_remote_house Example.rmtree Example.clone_from "myhouse" "https://example.org/b.git" "dev"
         (snd (add_remote_house Example.rmtree Example.clone_from
                 "myhouse" Example.url "master" Example.x0))
       = (Raise (HouseNameRepeatError "myhouse"), x2)
       /\ List.length (houses_named "myhouse" (store x2)) = 1.
Proof.
  split; [reflexivity|]. split; [reflexivity|].
  destruct (add_remote_house_twice Example.rmtree Example.clone_from
              "myhouse" Example.url "master" "https://example.org/b.git" "dev"
              Example.x0 eq_refl) as [_ Hsecond].
  pose proof (Hsecond (snd (add_remote_house Example.rmtree Example.clone_from
                 "myhouse" Example.url "master" Example.x0))) as H.
  assert (Hrun1: add_remote_house Example.rmtree Example.clone_from "myhouse" Example.url
        "master" Example.x0 =
      (Ok tt,
       snd
         (add_remote_house Example.rmtree Example.clone_from "myhouse"
            Example.url "master" Example.x0))) by (vm_compute; reflexivity).
  destruct (H Hrun1) as (x2 & Hrun & _ & _ & _ & _ & Hone).
  exists x2. (split; [exact Hrun|exact Hone]).
Defined.

Lemma update_house_replaces_witness :
  all_committed Example.x_registered
  /\ find_house "myhouse" (store Example.x_registered) = Some Example.myhouse
  /\ fst (update_house Example.rmtree Example.clone_from "myhouse" Example.x_registered)
     = Ok tt
  /\ List.length (parts_of "myhouse" (store Example.x_registered)) = 1
  /\ exists rows evs,
       scan_house Example.env_b Example.myhouse = (rows, evs, None)
       /\ List.length rows = 3
       /\ house_part (store (snd (update_house Example.rmtree Example.clone_from
                                    "myhouse" Example.x_registered)))
          = Example.other_part :: rows.
Proof.
  split; [exact I|]. split; [reflexivity|]. split; [reflexivity|].
  split; [reflexivity|].
  destruct (update_house_replaces Example.rmtree Example.clone_from
              "myhouse" Example.x_registered I) as (_ & Hok & _).
  assert (Hrun : update_house Example.rmtree Example.clone_from "myhouse" Example.x_registered
                 = (Ok tt, snd (update_house Example.rmtree Example.clone_from
                                  "myhouse" Example.x_registered)))
    by (vm_compute; reflexivity).
  assert (Hfind : find_house "myhouse" (store Example.x_registered) = Some Example.myhouse)
    by reflexivity.
  destruct (Hok Example.myhouse _ Hfind Hrun) as (rows & evs & Hscan & Hparts & _).
  exists rows, evs.
  assert (Henv : env (snd (update_house Example.rmtree Example.clone_from
                             "myhouse" Example.x_registered)) = Example.env_b)
    by (vm_compute; reflexivity).
  rewrite Henv in Hscan.
  split; [exact Hscan|].
  split; [|exact Hparts].
  vm_compute in Hscan. injection Hscan as <- _. reflexivity.
Defined.

(** C4 as stated fails.  [myhouse] is registered with one part row.  A
    first [update_house] fetches a tree one of whose category directories
    cannot be listed: the scan raises, and the session stays attached with
    the row of [sg/foo] pending.  A second [update_house], whose fetch
    yields a tree of three parts, returns, and the house then has four part
    rows, [myhouse.sg.foo] twice: the row left pending by the first call is
    committed together with the rows of the new scan. *)
Lemma update_house_merges_pending_rows :
  find_house "myhouse" (store Example.x_registered) = Some Example.myhouse
  /\ fst (update_house Example.rmtree Faulty.clone_denied "myhouse" Example.x_registered)
     = Raise (OSError "/cache/myhouse/part/sp")
  /\ find_house "myhouse" (store LeftOver.x_aborted_update) = Some Example.myhouse
  /\ fst (update_house Example.rmtree Example.clone_from "myhouse" LeftOver.x_aborted_update)
     = Ok tt
  /\ (exists rows evs,
        scan_house Example.env_b Example.myhouse = (rows, evs, None)
        /\ List.length rows = 3)
  /\ map PartModel.name
       (parts_of "myhouse"
          (store (snd (update_house Example.rmtree Example.clone_from "myhouse"
                         LeftOver.x_aborted_update))))
     = ["myhouse.sg.foo"; "myhouse.sg.foo"; "myhouse.sg.baz"; "myhouse.sys.foo"].
Proof.
  split; [reflexivity|]. split; [reflexivity|]. split; [reflexivity|].
  split; [reflexivity|]. split; [|reflexivity].
  eexists. eexists. split; [vm_compute; reflexivity|reflexivity].
Qed.

Lemma remove_house_total_witness :
  all_committed Example.x_registered
  /\ exists x',
       remove_house "myhouse" Example.x_registered = (Ok tt, x')
       /\ house_part (store x') = [Example.other_part]
       /\ house_repo (store x') = []
       /\ (exists names, fst (get_house_name_list x') = Ok names /\ ~ In "myhouse" names)
       /\ fst (get_part_name_list (Some "myhouse") None x') = Ok [].
Proof.
  split; [exact I|].
  destruct (remove_house_total "myhouse" Example.x_registered I)
    as (x' & Hrun & _ & _ & Hstore & Hnames & Hparts & _).
  exists x'. split; [exact Hrun|].
  split; [rewrite Hstore; reflexivity|]. split; [rewrite Hstore; reflexivity|].
  split; [exact Hnames|exact Hparts].
Defined.

(** C5 as stated fails.  An [add_remote_house] of [myhouse] raises in its
    scan and leaves the row of [sg/foo] pending in the attached session.
    [remove_house] of [myhouse] then returns, but its commit inserts the
    pending row, and [get_part_name_list(house=myhouse)] is not empty. *)
Lemma remove_house_commits_pending_rows :
  fst (add_remote_house Example.rmtree Faulty.clone_denied
         "myhouse" Example.url "master" Example.x0)
  = Raise (OSError "/cache/myhouse/part/sp")
  /\ fst (remove_house "myhouse" LeftOver.x_aborted_add) = Ok tt
  /\ fst (get_part_name_list (Some "myhouse") None
            (snd (remove_house "myhouse" LeftOver.x_aborted_add)))
     = Ok ["myhouse.sg.foo"].
Proof. repeat split. Qed.

(* ------------------------------------------------------------------ *)
(** ** Other houses are left alone *)

Lemma houses_named_add_house h' db rows record :
  HouseModel.name record <> h' ->
  houses_named h' (add_house (add_parts db rows) record) = houses_named h' db.
Proof.
  intros Hne. unfold houses_named, add_house, add_parts; simpl.
  rewrite filter_app. simpl. apply String.eqb_neq in Hne. rewrite Hne. apply app_nil_r.
Qed.

Lemma frame_add h h' db rows record :
  h <> h' ->
  Forall (fun p => PartModel.house_name p = h) rows ->
  HouseModel.name record = h ->
  parts_of h' (add_house (add_parts db rows) record) = parts_of h' db
  /\ houses_named h' (add_house (add_parts db rows) record) = houses_named h' db.
Proof.
  intros Hne Hrows Hname. split.
  - change (parts_of h' (add_house (add_parts db rows) record))
      with (parts_of h' (add_parts db rows)).
    rewrite parts_of_add_parts, (filter_foreign_rows h h') by assumption. apply app_nil_r.
  - apply houses_named_add_house. congruence.
Qed.

Lemma frame_update h h' db rows :
  h <> h' ->
  Forall (fun p => PartModel.house_name p = h) rows ->
  parts_of h' (add_parts (delete_parts h db) rows) = parts_of h' db
  /\ houses_named h' (add_parts (delete_parts h db) rows) = houses_named h' db.
Proof.
  intros Hne Hrows. split; [|reflexivity].
  rewrite parts_of_add_parts, (filter_foreign_rows h h') by assumption.
  rewrite app_nil_r. now apply parts_of_delete_parts_other.
Qed.

Lemma untouched_settled h' x db e evs :
  parts_of h' db = parts_of h' (store x) ->
  houses_named h' db = houses_named h' (store x) ->
  untouched h' x (settled x db e evs).
Proof.
  intros Hparts Hhouses. unfold untouched. rewrite store_settled.
  split; [exact Hparts|]. split; [exact Hhouses|].
  unfold settled. destruct (_session x); cbn [_session in_session idle]; [|discriminate].
  intros s' [= <-]. cbn [txn pending]. repeat split; auto.
Qed.

Lemma untouched_in_session h h' x db rows e evs :
  h <> h' ->
  parts_of h' db = parts_of h' (store x) ->
  houses_named h' db = houses_named h' (store x) ->
  Forall (fun p => PartModel.house_name p = h) rows ->
  untouched h' x (in_session x (store x) db (map PartRow rows) e evs).
Proof.
  intros Hne Hparts Hhouses Hrows. unfold untouched. cbn [store _session in_session].
  split; [reflexivity|]. split; [reflexivity|].
  intros s [= <-]. cbn [txn pending]. split; [exact Hparts|]. split; [exact Hhouses|].
  apply Forall_map. eapply Forall_impl; [|exact Hrows]. simpl. congruence.
Qed.

Lemma untouched_opened h' x e evs :
  untouched h' x (in_session x (store x) (store x) [] e evs).
Proof.
  unfold untouched. cbn [store _session in_session].
  split; [reflexivity|]. split; [reflexivity|].
  intros s [= <-]. cbn [txn pending]. repeat split. constructor.
Qed.

Section Frame.

Variable rmtree : string -> Env -> Env * option exn.
Variable clone_from : option string -> string -> option string -> Env -> Env * bool.
Variable sys_path_append : string -> Env -> Env.

(** C10, as the code has it.  When nothing waits for a commit in the
    session, for distinct house names [h] and [h']: whether they return or
    raise, [add_remote_house h], [add_local_house] of a path whose house
    name is [h], [update_house h], [remove_house h] and a scan of a house
    named [h] leave the committed part rows and the house row of [h'] as
    they were, and nothing that such a call leaves in the session touches
    [h']: the transaction shows the rows of [h'] as before and no pending
    row belongs to [h'].  A scan of a house named [h] keeps every committed
    row, in place, only appending part rows of [h]. *)
Theorem other_houses_untouched (h h' : string) (x : HouseManager) :
  all_committed x ->
  h <> h' ->
  (forall url branch,
     untouched h' x (snd (add_remote_house rmtree clone_from h url branch x)))
  /\ (forall path,
        OsPath.basename (abspath (env x) path) = h ->
        untouched h' x (snd (add_local_house sys_path_append path x)))
  /\ untouched h' x (snd (update_house rmtree clone_from h x))
  /\ untouched h' x (snd (remove_house h x))
  /\ (forall house_model,
        HouseModel.name house_model = h ->
        untouched h' x (snd (import_part_to_db house_model x))
        /\ house_repo (store (snd (import_part_to_db house_model x))) = house_repo (store x)
        /\ exists rows,
             house_part (store (snd (import_part_to_db house_model x)))
             = house_part (store x) ++ rows
             /\ Forall (fun p => PartModel.house_name p = h) rows).
Proof.
  intros Hc Hne. split; [|split; [|split; [|split]]].
  - intros url branch. rewrite add_remote_house_committed by assumption.
    destruct (find_house h (store x)); [apply untouched_opened|]. cbv zeta.
    destruct (fetch _ _ _ _ _ _) as [[e' evs1] [ex|]]; [apply untouched_opened|].
    destruct (scan_house e' _) as [[rows evs2] [ex|]] eqn:Hscan;
      apply scan_house_rows in Hscan; cbn [snd].
    + now apply (untouched_in_session h).
    + apply untouched_settled; now apply (frame_add h h').
  - intros path Hname. rewrite add_local_house_committed by assumption. cbv zeta.
    destruct (negb (lexists (env x) path)); [apply untouched_opened|].
    destruct (find_house _ (store x)); [apply untouched_opened|].
    destruct (import_module _ _) as [tmp| |ex]; try apply untouched_opened.
    destruct (PyModule.__path__ tmp) as [[|tmp_path rest]|]; try apply untouched_opened.
    destruct (negb (tmp_path =? _)%string); [apply untouched_opened|].
    destruct (scan_house _ _) as [[rows evs2] [ex|]] eqn:Hscan;
      apply scan_house_rows in Hscan; cbn [snd];
      cbn [HouseModel.name local_house] in Hscan; rewrite Hname in Hscan.
    + now apply (untouched_in_session h).
    + apply untouched_settled; now apply (frame_add h h').
  - rewrite update_house_committed by assumption.
    destruct (find_house h (store x)) as [house_model|] eqn:Hfind; [|apply untouched_opened].
    cbv zeta.
    destruct (if (HouseModel.house_type house_model =? "remote")%string then _ else _)
      as [[e' evs1] [ex|]]; cbn [snd].
    { change (@nil Row) with (map PartRow []).
      apply (untouched_in_session h); auto using parts_of_delete_parts_other. }
    destruct (scan_house e' _) as [[rows evs2] [ex|]] eqn:Hscan;
      apply scan_house_rows in Hscan; cbn [snd];
      rewrite (find_some_name _ _ _ Hfind) in Hscan.
    + apply (untouched_in_session h); auto using parts_of_delete_parts_other.
    + apply untouched_settled; now apply frame_update.
  - rewrite remove_house_committed by assumption. cbn [snd].
    apply untouched_settled.
    + change (parts_of h' (delete_houses h (delete_parts h (store x))))
        with (parts_of h' (delete_parts h (store x))).
      now apply parts_of_delete_parts_other.
    + rewrite houses_named_delete_houses_other by assumption. reflexivity.
  - intros house_model Hname. rewrite import_part_to_db_committed by assumption.
    destruct (scan_house (env x) house_model) as [[rows evs] [ex|]] eqn:Hscan;
      apply scan_house_rows in Hscan; rewrite Hname in Hscan; cbn [snd].
    + split; [now apply (untouched_in_session h)|].
      cbn [store in_session]. split; [reflexivity|].
      exists []. split; [now rewrite app_nil_r|constructor].
    + split.
      * apply untouched_settled; [|reflexivity].
        rewrite parts_of_add_parts, (filter_foreign_rows h h') by assumption.
        apply app_nil_r.
      * rewrite store_settled. split; [reflexivity|]. exists rows. now split.
Qed.

End Frame.

Lemma other_houses_untouched_witness :
  all_committed Example.x_registered
  /\ "myhouse" <> "default"
  /\ parts_of "default"
       (store (snd (update_house Example.rmtree Example.clone_from "myhouse"
                      Example.x_registered)))
     = [Example.other_part]
  /\ parts_of "default" (store (snd (remove_house "myhouse" Example.x_registered)))
     = [Example.other_part].
Proof.
  assert (Hne : "myhouse" <> "default") by discriminate.
  split; [exact I|]. split; [exact Hne|].
  destruct (other_houses_untouched Example.rmtree Example.clone_from Example.sys_path_append
              "myhouse" "default" Example.x_registered I Hne)
    as (_ & _ & Hupdate & Hremove & _).
  split.
  - destruct Hupdate as [Hparts _]. rewrite Hparts. reflexivity.
  - destruct Hremove as [Hparts _]. rewrite Hparts. reflexivity.
Defined.

(** C10 as stated fails.  An [add_remote_house] of [myhouse] raises in its
    scan and leaves the row of [sg/foo] pending; [remove_house] of the
    other house [default] then commits it, and [myhouse] has a part row
    that it had not before that call.  And an [update_house] of [myhouse]
    whose clone fails leaves the deletion of its rows uncommitted;
    [remove_house] of [default] then commits it, and the part row that
    [myhouse] had before that call is gone. *)
Lemma operation_commits_work_left_for_another_house :
  "default" <> "myhouse"
  /\ fst (add_remote_house Example.rmtree Faulty.clone_denied
            "myhouse" Example.url "master" Example.x0)
     = Raise (OSError "/cache/myhouse/part/sp")
  /\ parts_of "myhouse" (store LeftOver.x_aborted_add) = []
  /\ fst (remove_house "default" LeftOver.x_aborted_add) = Ok tt
  /\ map PartModel.name
       (parts_of "myhouse" (store (snd (remove_house "default" LeftOver.x_aborted_add))))
     = ["myhouse.sg.foo"]
  /\ fst (update_house Example.rmtree Faulty.clone_fails "myhouse" Example.x_registered)
     = Raise (RuntimeError (CheckNetworkOrUrl (Some Example.url)))
  /\ parts_of "myhouse" (store LeftOver.x_failed_update) = [Example.bar_part]
  /\ fst (remove_house "default" LeftOver.x_failed_update) = Ok tt
  /\ parts_of "myhouse" (store (snd (remove_house "default" LeftOver.x_failed_update)))
     = [].
Proof.
  split; [discriminate|]. repeat split.
Qed.

(* ------------------------------------------------------------------ *)
(** ** Commits of nested decorated calls *)

Lemma fetch_no_commit rmtree clone_from e local_dir url branch e' evs r :
  fetch rmtree clone_from e local_dir url branch = (e', evs, r) ->
  filter is_commit evs = [] /\ filter is_session_event evs = [].
Proof.
  intros H. apply fetch_events in H.
  split; apply (filter_class _ is_fetch); try assumption; now intros [].
Qed.

Lemma scan_no_commit e house_model rows evs r :
  scan_house e house_model = (rows, evs, r) ->
  filter is_commit evs = [] /\ filter is_session_event evs = [].
Proof.
  intros H. apply scan_house_events in H.
  split; apply (filter_class _ is_log); try assumption; now intros [].
Qed.

Ltac scope_leaf :=
  eexists; cbn [fst snd trace store _session in_session idle];
  split; [reflexivity|];
  cbn [app filter is_commit is_session_event];
  rewrite ?filter_app;
  repeat match goal with
         | H : filter _ _ = [] |- _ => rewrite H; clear H
         end;
  repeat split.

(** C8, as the code has it.  A decorated call made inside a session
    shares it: the scanner called with a session open (and nothing
    pending) opens and closes none, and when it returns the session is
    still open; but it commits at its own end, so its part rows are in the
    committed store when it returns.  Hence, with no session active, a
    call of [add_remote_house] that returns has opened and closed one
    session and committed twice: first the store with the scanned part
    rows and without the house row, then the same with the house row.
    Likewise [add_local_house] and [update_house] commit twice and
    [remove_house] once.  A call of any of the four that raises has
    committed nothing and leaves the store as it was. *)
Theorem add_remote_house_commits_twice
    (rmtree : string -> Env -> Env * option exn)
    (clone_from : option string -> string -> option string -> Env -> Env * bool)
    (sys_path_append : string -> Env -> Env)
    (name url branch path : string) (x : HouseManager) :
  _session x = None ->
  (forall house_model x0 st db e evs0 x',
     import_part_to_db house_model (in_session x0 st db [] e evs0) = (Ok tt, x') ->
     exists rows evs,
       x' = in_session x0 (add_parts db rows) (add_parts db rows) [] e
                       (evs0 ++ evs ++ [Committed (add_parts db rows)])
       /\ filter is_session_event evs = []
       /\ filter is_commit evs = [])
  /\ (exists evs,
        trace (snd (add_remote_house rmtree clone_from name url branch x)) = trace x ++ evs
        /\ match fst (add_remote_house rmtree clone_from name url branch x) with
           | Ok _ =>
               exists rows,
                 filter is_commit evs
                 = [Committed (add_parts (store x) rows);
                    Committed (add_house (add_parts (store x) rows)
                                 (remote_house (remote_cache_dir x) name url branch))]
                 /\ filter is_session_event evs = [SessionOpened; SessionClosed]
                 /\ store (snd (add_remote_house rmtree clone_from name url branch x))
                    = add_house (add_parts (store x) rows)
                        (remote_house (remote_cache_dir x) name url branch)
           | Raise _ =>
               filter is_commit evs = []
               /\ filter is_session_event evs = [SessionOpened]
               /\ store (snd (add_remote_house rmtree clone_from name url branch x)) = store x
           end)
  /\ transaction_scope x (add_remote_house rmtree clone_from name url branch x) 2
  /\ transaction_scope x (add_local_house sys_path_append path x) 2
  /\ transaction_scope x (update_house rmtree clone_from name x) 2
  /\ transaction_scope x (remove_house name x) 1.
Proof.
  intros Hidle. split; [|split; [|split; [|split; [|split]]]].
  - intros house_model x0 st db e evs0 x'. rewrite import_part_to_db_nested.
    destruct (scan_house e house_model) as [[rows evs] [ex|]] eqn:Hscan; [discriminate|].
    intros [= <-]. exists rows, evs. apply scan_no_commit in Hscan. tauto.
  - rewrite add_remote_house_idle by assumption.
    destruct (find_house name (store x)); [scope_leaf|].
    cbv zeta.
    destruct (fetch _ _ _ _ _ _) as [[e' evs1] [ex|]] eqn:Hfetch;
      apply fetch_no_commit in Hfetch as [Hc1 Hs1]; [scope_leaf|].
    destruct (scan_house e' _) as [[rows evs2] [ex|]] eqn:Hscan;
      apply scan_no_commit in Hscan as [Hc2 Hs2]; [scope_leaf|].
    eexists. cbn [fst snd trace store idle]. split; [reflexivity|].
    exists rows. cbn [app filter is_commit is_session_event].
    rewrite !filter_app, Hc1, Hs1, Hc2, Hs2. repeat split.
  - unfold transaction_scope. rewrite add_remote_house_idle by assumption.
    destruct (find_house name (store x)); [scope_leaf|].
    cbv zeta.
    destruct (fetch _ _ _ _ _ _) as [[e' evs1] [ex|]] eqn:Hfetch;
      apply fetch_no_commit in Hfetch as [Hc1 Hs1]; [scope_leaf|].
    destruct (scan_house e' _) as [[rows evs2] [ex|]] eqn:Hscan;
      apply scan_no_commit in Hscan as [Hc2 Hs2]; scope_leaf.
  - unfold transaction_scope. rewrite add_local_house_idle by assumption. cbv zeta.
    destruct (negb (lexists (env x) path)); [scope_leaf|].
    destruct (find_house _ (store x)); [scope_leaf|].
    destruct (import_module _ _) as [tmp| |cls]; try scope_leaf.
    destruct (PyModule.__path__ tmp) as [[|tmp_path rest]|]; try scope_leaf.
    destruct (negb (tmp_path =? _)%string); [scope_leaf|].
    destruct (scan_house _ _) as [[rows evs2] [ex|]] eqn:Hscan;
      apply scan_no_commit in Hscan as [Hc2 Hs2]; scope_leaf.
  - unfold transaction_scope. rewrite update_house_idle by assumption.
    destruct (find_house name (store x)) as [house_model|]; [|scope_leaf].
    cbv zeta.
    destruct (HouseModel.house_type house_model =? "remote")%string.
    + destruct (fetch _ _ _ _ _ _) as [[e' evs1] [ex|]] eqn:Hfetch;
        apply fetch_no_commit in Hfetch as [Hc1 Hs1]; [scope_leaf|].
      destruct (scan_house e' _) as [[rows evs2] [ex|]] eqn:Hscan;
        apply scan_no_commit in Hscan as [Hc2 Hs2]; scope_leaf.
    + destruct (scan_house _ _) as [[rows evs2] [ex|]] eqn:Hscan;
        apply scan_no_commit in Hscan as [Hc2 Hs2]; scope_leaf.
  - unfold transaction_scope. rewrite remove_house_idle by assumption. scope_leaf.
Qed.

Lemma add_remote_house_commits_twice_witness :
  _session Example.x0 = None
  /\ fst (add_remote_house Example.rmtree Example.clone_from
            "myhouse" Example.url "master" Example.x0) = Ok tt
  /\ exists evs rows,
       trace (snd (add_remote_house Example.rmtree Example.clone_from
                     "myhouse" Example.url "master" Example.x0)) = evs
       /\ filter is_commit evs
          = [Committed (add_parts Example.empty_db rows);
             Committed (add_house (add_parts Example.empty_db rows)
                          (remote_house "/cache" "myhouse" Example.url "master"))]
       /\ filter is_session_event evs = [SessionOpened; SessionClosed].
Proof.
  split; [reflexivity|]. split; [reflexivity|].
  destruct (add_remote_house_commits_twice Example.rmtree Example.clone_from
              Example.sys_path_append "myhouse" Example.url "master" "/cache/myhouse"
              Example.x0 eq_refl)
    as (_ & (evs & Htrace & Hok) & _).
  assert (Hrun : fst (add_remote_house Example.rmtree Example.clone_from
                        "myhouse" Example.url "master" Example.x0) = Ok tt)
    by (vm_compute; reflexivity).
  rewrite Hrun in Hok. destruct Hok as (rows & Hcommits & Hsessions & _).
  exists evs, rows. split; [exact Htrace|]. split; [exact Hcommits|exact Hsessions].
Defined.

(** C8 as stated fails: one [add_remote_house] on the example house
    commits twice, and the first commit, made by the nested scanner, holds
    the three part rows of the house and no house row. *)
Lemma nested_scan_commits_on_its_own :
  fst (add_remote_house Example.rmtree Example.clone_from
         "myhouse" Example.url "master" Example.x0) = Ok tt
  /\ exists db1 db2,
       filter is_commit
         (trace (snd (add_remote_house Example.rmtree Example.clone_from
                        "myhouse" Example.url "master" Example.x0)))
       = [Committed db1; Committed db2]
       /\ map PartModel.name (house_part db1)
          = ["myhouse.sg.foo"; "myhouse.sg.baz"; "myhouse.sys.foo"]
       /\ house_repo db1 = []
       /\ map HouseModel.name (house_repo db2) = ["myhouse"]
       /\ List.length
            (filter is_commit
               (trace (snd (add_remote_house Example.rmtree Example.clone_from
                              "myhouse" Example.url "master" Example.x0)))) <> 1.
Proof.
  split; [reflexivity|].
  eexists. eexists. split; [vm_compute; reflexivity|].
  repeat split. vm_compute. discriminate.
Qed.

(* ------------------------------------------------------------------ *)
(** ** The part resolver *)

Lemma in_tuple_In (x : string) (t : list string) : PyStr.in_tuple x t = true <-> In x t.
Proof.
  induction t as [|y t IH]; simpl; [split; [discriminate|tauto]|].
  rewrite orb_true_iff, IH, String.eqb_eq. split; intros [H|H]; auto.
Qed.

Lemma py_index_minus2 {A} (l : list A) :
  (2 <= List.length l)%nat -> py_index l (-2) = nth_error l (List.length l - 2).
Proof.
  intros Hlen. unfold py_index. cbn [Z.ltb Z.compare].
  destruct (-2 + Z.of_nat (List.length l) <? 0)%Z eqn:Hneg.
  - apply Z.ltb_lt in Hneg. lia.
  - f_equal. lia.
Qed.

(** The flag computed by the check is [true] exactly on malformed names. *)
Lemma check_flag (name : string) :
  (if (List.length (PyStr.split "." name) <? 2)%nat then Ok true
   else match py_index (PyStr.split "." name) (-2) with
        | Some seg => Ok (negb (PyStr.in_tuple seg categories))
        | None => Raise IndexError
        end) = Ok true /\ malformed name
  \/ (if (List.length (PyStr.split "." name) <? 2)%nat then Ok true
      else match py_index (PyStr.split "." name) (-2) with
           | Some seg => Ok (negb (PyStr.in_tuple seg categories))
           | None => Raise IndexError
           end) = Ok false /\ ~ malformed name.
Proof.
  unfold malformed. cbv zeta.
  destruct (List.length (PyStr.split "." name) <? 2)%nat eqn:Hlen.
  - left. apply Nat.ltb_lt in Hlen. auto.
  - apply Nat.ltb_ge in Hlen. rewrite py_index_minus2 by assumption.
    destruct (nth_error _ _) as [seg|] eqn:Hseg.
    + destruct (PyStr.in_tuple seg categories) eqn:Hin.
      * right. split; [reflexivity|]. apply in_tuple_In in Hin.
        intros [Hlt|(seg' & Hseg' & Hnot)]; [lia|]. congruence.
      * left. split; [reflexivity|]. right. exists seg. split; [reflexivity|].
        rewrite <- in_tuple_In. congruence.
    + apply nth_error_None in Hseg. lia.
Qed.

Lemma check_part_name_ok (name : string) (x : HouseManager) :
  ~ malformed name -> check_part_name name x = (Ok tt, x).
Proof.
  intros Hwell. unfold check_part_name. cbv zeta. unfold bind, lift.
  destruct (check_flag name) as [[_ Hm]|[-> _]]; [contradiction|reflexivity].
Qed.

Lemma resolve_part_split (name : string) (kw : kwargs) :
  resolve_part name kw = (part_name <- qualify_name name ;; load_part part_name kw).
Proof. reflexivity. Qed.

(** The completion of the name leaves the manager as it is and raises no
    PartNameError. *)
Lemma qualify_name_result (name : string) (x : HouseManager) :
  exists r, qualify_name name x = (r, x) /\ forall n, r <> Raise (PartNameError n).
Proof.
  unfold qualify_name. cbv zeta.
  destruct (List.length (PyStr.split "." name) =? 2)%nat.
  2: { exists (Ok name). split; [reflexivity|discriminate]. }
  unfold bind, get_env, lift, checkif, raise, ret.
  destruct (py_index (PyStr.split "." name) 0) as [head|].
  2: { eexists. split; [reflexivity|discriminate]. }
  destruct (PyStr.in_tuple head ["prtflo"; "sys"]).
  - destruct (List.length _ <? 4)%nat; [eexists; split; [reflexivity|discriminate]|].
    destruct (py_index _ (-4)); eexists; (split; [reflexivity|discriminate]).
  - destruct (List.length _ <? 5)%nat; [eexists; split; [reflexivity|discriminate]|].
    destruct (py_index _ (-5)); eexists; (split; [reflexivity|discriminate]).
Qed.

(** A PartNameError that leaves the lookup is one that loaded code
    raised. *)
Lemma load_part_name_error (part_name : string) (kw : kwargs) (x x' : HouseManager)
    (n : string) :
  load_part part_name kw x = (Raise (PartNameError n), x') ->
  raised_by_loaded_code (env x) kw (PartNameError n).
Proof.
  unfold load_part, bind, query, get_env, checkif, raise, ret.
  destruct (_session x) as [s|]; [|discriminate].
  destruct (first _ (house_part (txn s))) as [part_model|]; cbn [is_None]; [|discriminate].
  destruct (import_module (env x) (PartModel.module_name part_model))
    as [part_module| |ex] eqn:Himp; [|discriminate|].
  - destruct (PyModule.part part_module) as [factory|] eqn:Hpart; [|discriminate].
    destruct (PartFactory.call factory kw) as [p|ex] eqn:Hcall; [discriminate|].
    intros [= -> _]. exists (PartModel.module_name part_model). right. eauto.
  - destruct ex; try discriminate.
    intros [= -> _]. exists (PartModel.module_name part_model). now left.
Qed.

(** C6, as the code has it.  For every name, keyword arguments and state
    of the manager: when the name, split on the dot, has fewer than two
    segments or its second-to-last segment is not one of the eleven
    categories, [get_part] fails with the PartNameError that carries the
    name; when the name is well formed, the check raises nothing, and a
    PartNameError with which the call still fails is one that the import of
    a part module or the factory of a part module raised, which [get_part]
    lets through.  A name is one or the other. *)
Theorem get_part_name_error (name : string) (kw : kwargs) (x : HouseManager) :
  (malformed name -> fst (get_part name kw x) = Raise (PartNameError name))
  /\ (~ malformed name ->
      forall n,
        fst (get_part name kw x) = Raise (PartNameError n) ->
        raised_by_loaded_code (env x) kw (PartNameError n))
  /\ (malformed name \/ ~ malformed name).
Proof.
  split; [|split].
  - intros Hm. unfold get_part, dbsession, check_part_name. cbv zeta.
    unfold bind at 1. unfold bind at 1. unfold lift.
    destruct (check_flag name) as [[-> _]|[_ Hn]]; [|contradiction].
    reflexivity.
  - intros Hwell n. unfold get_part, dbsession. cbv zeta.
    assert (Henv : env (match _session x with None => scoped_Session x | Some _ => x end)
                   = env x) by (destruct (_session x); reflexivity).
    revert Henv. generalize (match _session x with None => scoped_Session x | Some _ => x end).
    intros x1 Henv.
    unfold bind at 1. rewrite check_part_name_ok by assumption.
    rewrite resolve_part_split. unfold bind at 1.
    destruct (qualify_name_result name x1) as (r & -> & Hr).
    destruct r as [part_name|ex].
    + destruct (load_part part_name kw x1) as [[p|ex] x2] eqn:Hload.
      * unfold commit. destruct (_session x2) as [s|]; [|discriminate].
        destruct (flush (txn s) (pending s)); [|discriminate].
        destruct (is_not _ _); discriminate.
      * cbn [fst]. intros [= ->]. rewrite <- Henv.
        eapply load_part_name_error. exact Hload.
    + cbn [fst]. intros [= ->]. now elim (Hr n).
  - destruct (check_flag name) as [[_ Hm]|[_ Hn]]; [now left|now right].
Qed.

Lemma get_part_name_error_witness :
  malformed "sg"
  /\ fst (get_part "sg" [] Example.x0) = Raise (PartNameError "sg")
  /\ malformed "myhouse.xx.foo"
  /\ fst (get_part "myhouse.xx.foo" [] Example.x0) = Raise (PartNameError "myhouse.xx.foo")
  /\ raised_by_loaded_code (env Nested.x_nested) [] (PartNameError "helper").
Proof.
  assert (H1 : malformed "sg") by (left; simpl; lia).
  assert (H2 : malformed "myhouse.xx.foo").
  { right. exists "xx". split; [reflexivity|].
    intros Hin. simpl in Hin. repeat (destruct Hin as [Hin|Hin]; [discriminate|]).
    exact Hin. }
  assert (H3 : ~ malformed "myhouse.sg.nested").
  { intros [Hlt|(seg & Hseg & Hnot)]; [simpl in Hlt; lia|].
    simpl in Hseg. injection Hseg as <-. apply Hnot. simpl. tauto. }
  split; [exact H1|]. split; [apply (get_part_name_error "sg" [] Example.x0); exact H1|].
  split; [exact H2|].
  split; [apply (get_part_name_error "myhouse.xx.foo" [] Example.x0); exact H2|].
  apply (get_part_name_error "myhouse.sg.nested" [] Nested.x_nested); [exact H3|].
  reflexivity.
Defined.

(** C6 as stated fails: the name [myhouse.sg.nested] has three segments
    and the category [sg] before the last, its part is registered and its
    module loads; the factory asks the manager for the part [helper], that
    inner call raises PartNameError, and [get_part] of the well-formed name
    fails with this PartNameError. *)
Lemma get_part_name_error_from_factory :
  ~ malformed "myhouse.sg.nested"
  /\ find_part "myhouse.sg.nested" (store Nested.x_nested) = Some Nested.nested_part
  /\ import_module (env Nested.x_nested) (PartModel.module_name Nested.nested_part)
     = Imported Nested.nested_module
  /\ PyModule.part Nested.nested_module = Some Nested.factory
  /\ fst (get_part "helper" [] Nested.x_nested) = Raise (PartNameError "helper")
  /\ PartFactory.call Nested.factory [] = inr (PartNameError "helper")
  /\ fst (get_part "myhouse.sg.nested" [] Nested.x_nested) = Raise (PartNameError "helper").
Proof.
  split.
  { intros [Hlt|(seg & Hseg & Hnot)]; [simpl in Hlt; lia|].
    simpl in Hseg. injection Hseg as <-. apply Hnot. simpl. tauto. }
  repeat split.
Qed.




(* ------------------------------------------------------------------ *)
(** ** [str.strip] *)




















(* ------------------------------------------------------------------ *)
(** ** Author, version and doc of a registered part *)

Lemma get_part_info_idle (name : string) (x : HouseManager) (part_model : PartModel.t) :
  _session x = None ->
  find_part name (store x) = Some part_model ->
  get_part_info name x
  = (Ok {| PartInfo.name := name;
           PartInfo.author := PartModel.author part_model;
           PartInfo.version := PartModel.version part_model;
           PartInfo.doc := PartModel.doc part_model |},
     idle x (store x) (env x) [SessionOpened; Committed (store x); SessionClosed]).
Proof.
  intros Hidle Hfind. unfold get_part_info. rewrite dbsession_idle by assumption.
  unfold bind at 1. rewrite query_run.
  unfold find_part in Hfind. rewrite Hfind.
  unfold bind at 1. cbn [is_None checkif]. unfold ret.
  rewrite commit_run. cbn [flush is_not _session in_session]. now rewrite close_run.
Qed.



(* ------------------------------------------------------------------ *)
(** ** The decorator on its own *)

(** X1. Whatever the decorated function does, when the decorated call
    returns: a session is attached afterwards exactly when one was
    attached before; nothing is left uncommitted (the transaction of an
    attached session equals the committed store and nothing is pending);
    and the last events are the commit of that store, followed by the
    closing of the session when the call had opened it. *)
Theorem dbsession_return_committed {A} (func : M A) (x x' : HouseManager) (r : A) :
  dbsession func x = (Ok r, x') ->
  (_session x' = None <-> _session x = None)
  /\ all_committed x'
  /\ exists evs, trace x' = evs ++ closing (_session x) (store x').
Proof.
  unfold dbsession.
  destruct (func _) as [[a|ex] x2]; [|discriminate].
  unfold commit. destruct (_session x2) as [s|]; [|discriminate].
  destruct (flush (txn s) (pending s)) as [db|]; [|discriminate].
  cbn [_session log set_session set_store].
  destruct (_session x) as [s0|]; cbn [is_not]; intros [= <- <-].
  - split; [split; discriminate|]. split; [split; reflexivity|].
    exists (trace x2). reflexivity.
  - split; [split; reflexivity|]. split; [exact I|].
    exists (trace x2). cbn. now rewrite <- app_assoc.
Qed.

Lemma dbsession_return_committed_witness :
  remove_house "myhouse" Example.x_registered
  = (Ok tt, snd (remove_house "myhouse" Example.x_registered))
  /\ _session (snd (remove_house "myhouse" Example.x_registered)) = None
  /\ all_committed (snd (remove_house "myhouse" Example.x_registered)).
Proof.
  assert (Hrun : remove_house "myhouse" Example.x_registered
                 = (Ok tt, snd (remove_house "myhouse" Example.x_registered)))
    by (vm_compute; reflexivity).
  split; [exact Hrun|].
  destruct (dbsession_return_committed _ _ _ _ Hrun) as (Hsession & Hall & _).
  split; [apply Hsession; reflexivity|exact Hall].
Defined.

(* ------------------------------------------------------------------ *)
(** ** Calls that only read *)

Section Reads.

Context {A B : Type}.

Lemma reads_ret (a : A) : reads_only (ret a).
Proof. intros x. reflexivity. Qed.

Lemma reads_raise (e : exn) : reads_only (@raise A e).
Proof. intros x. reflexivity. Qed.

Lemma reads_lift (r : Result A) : reads_only (lift r).
Proof. intros x. reflexivity. Qed.

Lemma reads_bind (m : M A) (k : A -> M B) :
  reads_only m -> (forall a, reads_only (k a)) -> reads_only (bind m k).
Proof.
  intros Hm Hk x. unfold bind. specialize (Hm x).
  destruct (m x) as [[a|e] x1]; simpl in Hm; subst x1; [apply Hk|reflexivity].
Qed.

End Reads.

Lemma reads_checkif (b : bool) (e : exn) : reads_only (checkif b e).
Proof. intros x. unfold checkif. now destruct b. Qed.

Lemma reads_query : reads_only query.
Proof. intros x. unfold query. now destruct (_session x). Qed.

Lemma reads_get_env : reads_only get_env.
Proof. intros x. reflexivity. Qed.

Ltac reads_step :=
  first
    [ apply reads_ret
    | apply reads_raise
    | apply reads_lift
    | apply reads_get_env
    | apply reads_query
    | apply reads_checkif
    | apply reads_bind; [|intros ?]
    | match goal with
      | |- reads_only (match ?d with _ => _ end) => destruct d
      end ].

(** A decorated reader run with no session active. *)
Lemma dbsession_reads_idle {A} (body : M A) (x : HouseManager) :
  reads_only body ->
  _session x = None ->
  read_run x (dbsession body x).
Proof.
  intros Hbody Hidle. rewrite dbsession_idle by assumption.
  specialize (Hbody (in_session x (store x) (store x) [] (env x) [SessionOpened])).
  destruct (body _) as [[a|ex] x2]; simpl in Hbody; subst x2.
  - rewrite commit_run. cbn [flush is_not _session in_session]. rewrite close_run.
    repeat split.
  - repeat split.
Qed.

(** A decorated reader run inside a session: it commits what the session
    holds. *)
Lemma dbsession_reads_nested {A} (body : M A) x0 st db rows e evs :
  reads_only body ->
  dbsession body (in_session x0 st db (map PartRow rows) e evs)
  = match fst (body (in_session x0 st db (map PartRow rows) e evs)) with
    | Ok r =>
        (Ok r,
         in_session x0 (add_parts db rows) (add_parts db rows) [] e
                    (evs ++ [Committed (add_parts db rows)]))
    | Raise ex => (Raise ex, in_session x0 st db (map PartRow rows) e evs)
    end.
Proof.
  intros Hbody. rewrite dbsession_nested.
  specialize (Hbody (in_session x0 st db (map PartRow rows) e evs)).
  destruct (body _) as [[a|ex] x2]; simpl in Hbody; subst x2; [|reflexivity].
  rewrite commit_run, flush_parts. reflexivity.
Qed.

Lemma reads_get_part name kw : reads_only (check_part_name name ;; resolve_part name kw).
Proof. unfold check_part_name, resolve_part. cbv zeta. repeat reads_step. Qed.

Lemma reads_get_part_info name :
  reads_only
    (db <- query ;;
     checkif (is_None (first (fun p => PartModel.name p =? name)%string (house_part db)))
             (PartNotFoundError name NotInHouse) ;;
     match first (fun p => PartModel.name p =? name)%string (house_part db) with
     | None => raise AttributeError
     | Some part_model =>
         ret {| PartInfo.name := name;
                PartInfo.author := PartModel.author part_model;
                PartInfo.version := PartModel.version part_model;
                PartInfo.doc := PartModel.doc part_model |}
     end).
Proof. repeat reads_step. Qed.

Lemma reads_get_house_path name :
  reads_only
    (db <- query ;;
     checkif (is_None (first (fun h => HouseModel.name h =? name)%string (house_repo db)))
             (HouseNotFoundError name) ;;
     match first (fun h => HouseModel.name h =? name)%string (house_repo db) with
     | None => raise AttributeError
     | Some h => ret (HouseModel.local h)
     end).
Proof. repeat reads_step. Qed.

Lemma reads_get_house_name_list :
  reads_only (db <- query ;; ret (map HouseModel.name (house_repo db))).
Proof. repeat reads_step. Qed.

Lemma reads_get_part_name_list (house part_type : option string) :
  reads_only
    (db <- query ;;
     ret (map PartModel.name
            match house, part_type with
            | None, None => house_part db
            | None, Some part_type =>
                filter (fun p => PartModel.part p =? part_type)%string (house_part db)
            | Some house, None =>
                filter (fun p => PartModel.house_name p =? house)%string (house_part db)
            | Some house, Some part_type =>
                filter (fun p => (PartModel.house_name p =? house)%string
                                 && (PartModel.part p =? part_type)%string) (house_part db)
            end)).
Proof. repeat reads_step. Qed.

(** X2. Called with no session active, the five reading operations
    ([get_part], [get_part_info], [get_house_path], [get_house_name_list],
    [get_part_name_list]) leave the committed store and the environment as
    they were, whether they return or raise.  Each one that returns has
    opened a session, committed once and closed it; each one that raises
    has left its session open. *)
Theorem reads_keep_store (x : HouseManager) (name : string) (kw : kwargs)
    (house part_type : option string) :
  _session x = None ->
  read_run x (get_part name kw x)
  /\ read_run x (get_part_info name x)
  /\ read_run x (get_house_path name x)
  /\ read_run x (get_house_name_list x)
  /\ read_run x (get_part_name_list house part_type x).
Proof.
  intros Hidle. repeat split.
  all: first [ apply (dbsession_reads_idle _ x (reads_get_part name kw) Hidle)
             | apply (dbsession_reads_idle _ x (reads_get_part_info name) Hidle)
             | apply (dbsession_reads_idle _ x (reads_get_house_path name) Hidle)
             | apply (dbsession_reads_idle _ x reads_get_house_name_list Hidle)
             | apply (dbsession_reads_idle _ x (reads_get_part_name_list house part_type)
                        Hidle) ].
Qed.

Lemma reads_keep_store_witness :
  _session Example.x_registered = None
  /\ store (snd (get_part "myhouse.sg.bar" [] Example.x_registered))
     = store Example.x_registered
  /\ fst (get_house_path "nowhere" Example.x_registered)
     = Raise (HouseNotFoundError "nowhere")
  /\ _session (snd (get_house_path "nowhere" Example.x_registered))
     = Some {| txn := store Example.x_registered; pending := [] |}.
Proof.
  split; [reflexivity|].
  destruct (reads_keep_store Example.x_registered "myhouse.sg.bar" [] None None eq_refl)
    as ((Hstore & _) & _).
  split; [exact Hstore|]. split; [reflexivity|].
  destruct (reads_keep_store Example.x_registered "nowhere" [] None None eq_refl)
    as (_ & _ & (_ & _ & Hpath) & _).
  assert (Hraise : fst (get_house_path "nowhere" Example.x_registered)
                   = Raise (HouseNotFoundError "nowhere")) by reflexivity.
  rewrite Hraise in Hpath. rewrite Hpath. reflexivity.
Defined.

(* ------------------------------------------------------------------ *)
(** ** What a raised call leaves to the next one *)

Lemma add_parts_nil (db : DB) : add_parts db [] = db.
Proof. unfold add_parts. rewrite app_nil_r. now destruct db. Qed.

Lemma get_house_name_list_in_session x0 st db rows e evs :
  get_house_name_list (in_session x0 st db (map PartRow rows) e evs)
  = (Ok (map HouseModel.name (house_repo db)),
     in_session x0 (add_parts db rows) (add_parts db rows) [] e
                (evs ++ [Committed (add_parts db rows)])).
Proof.
  unfold get_house_name_list.
  rewrite (dbsession_reads_nested _ x0 st db rows e evs reads_get_house_name_list).
  reflexivity.
Qed.

(** X3. The decorator does not undo or close anything when the call
    raises, and the next call commits what was left.  With no session
    active, when the re-fetch of a registered remote house fails,
    [update_house] raises the fetch error with the committed store
    unchanged; but its deletion of the house's part rows stays in the open
    session, and a following [get_house_name_list] returns normally and
    commits it: the house is still listed, and the store has lost all its
    part rows. *)
Theorem failed_update_loses_parts
    (rmtree : string -> Env -> Env * option exn)
    (clone_from : option string -> string -> option string -> Env -> Env * bool)
    (name : string) (x : HouseManager) (house_model : HouseModel.t)
    (e' : Env) (evs : list Event) (ex : exn) :
  _session x = None ->
  find_house name (store x) = Some house_model ->
  HouseModel.house_type house_model = "remote"%string ->
  fetch rmtree clone_from (env x) (HouseModel.local house_model)
        (HouseModel.url house_model) (HouseModel.branch house_model) = (e', evs, Some ex) ->
  exists x1 x2,
    update_house rmtree clone_from name x = (Raise ex, x1)
    /\ store x1 = store x
    /\ get_house_name_list x1 = (Ok (map HouseModel.name (house_repo (store x))), x2)
    /\ In name (map HouseModel.name (house_repo (store x)))
    /\ store x2 = delete_parts name (store x)
    /\ parts_of name (store x2) = [].
Proof.
  intros Hidle Hfind Hremote Hfetch.
  rewrite update_house_idle by assumption. rewrite Hfind. cbv zeta.
  apply String.eqb_eq in Hremote. rewrite Hremote, Hfetch.
  eexists. eexists. split; [reflexivity|]. split; [reflexivity|].
  change (@nil Row) with (map PartRow []).
  rewrite get_house_name_list_in_session, add_parts_nil.
  split; [reflexivity|]. cbn [store in_session].
  split; [|split; [reflexivity|apply parts_of_delete_parts_same]].
  unfold find_house, first in Hfind. apply find_some in Hfind as [Hin Hname].
  apply String.eqb_eq in Hname. rewrite <- Hname. now apply in_map.
Qed.

Lemma failed_update_loses_parts_witness :
  _session Example.x_registered = None
  /\ parts_of "myhouse" (store Example.x_registered) = [Example.bar_part]
  /\ exists x1 x2,
       update_house Example.rmtree Faulty.clone_fails "myhouse" Example.x_registered
       = (Raise (RuntimeError (CheckNetworkOrUrl (Some "https://example.org/myhouse.git"))), x1)
       /\ store x1 = store Example.x_registered
       /\ get_house_name_list x1 = (Ok ["myhouse"], x2)
       /\ parts_of "myhouse" (store x2) = [].
Proof.
  split; [reflexivity|]. split; [reflexivity|].
  destruct (failed_update_loses_parts Example.rmtree Faulty.clone_fails "myhouse"
              Example.x_registered Example.myhouse Example.env_a
              [Downloading "/cache/myhouse"; Rmtree "/cache/myhouse";
               CloneFrom (Some "https://example.org/myhouse.git") "/cache/myhouse"
                         (Some "master")]
              (RuntimeError (CheckNetworkOrUrl (Some "https://example.org/myhouse.git")))
              eq_refl eq_refl eq_refl eq_refl)
    as (x1 & x2 & Hrun & Hstore & Hlist & _ & _ & Hparts).
  exists x1, x2. split; [exact Hrun|]. split; [exact Hstore|].
  split; [exact Hlist|exact Hparts].
Defined.

(** X4. With no session active, when [add_remote_house] of a new name
    fetches well but the scan is aborted by a category directory that
    cannot be listed, the call raises that error, the committed store is
    unchanged and the house is not registered; but the part rows added
    before the abort stay pending in the open session, and a following
    [get_house_name_list] returns normally and commits them: the store
    then holds part rows of a house that has no house row. *)
Theorem aborted_scan_leaves_orphans
    (rmtree : string -> Env -> Env * option exn)
    (clone_from : option string -> string -> option string -> Env -> Env * bool)
    (name url branch : string) (x : HouseManager)
    (e' : Env) (evs1 evs2 : list Event) (rows : list PartModel.t) (ex : exn) :
  _session x = None ->
  find_house name (store x) = None ->
  fetch rmtree clone_from (env x)
        (HouseModel.local (remote_house (remote_cache_dir x) name url branch))
        (Some url) (Some branch) = (e', evs1, None) ->
  scan_house e' (remote_house (remote_cache_dir x) name url branch) = (rows, evs2, Some ex) ->
  exists x1 x2,
    add_remote_house rmtree clone_from name url branch x = (Raise ex, x1)
    /\ store x1 = store x
    /\ get_house_name_list x1 = (Ok (map HouseModel.name (house_repo (store x))), x2)
    /\ ~ In name (map HouseModel.name (house_repo (store x2)))
    /\ house_part (store x2) = house_part (store x) ++ rows
    /\ Forall (fun p => PartModel.house_name p = name) rows.
Proof.
  intros Hidle Hfind Hfetch Hscan.
  rewrite add_remote_house_idle by assumption. rewrite Hfind. cbv zeta.
  rewrite Hfetch, Hscan.
  eexists. eexists. split; [reflexivity|]. split; [reflexivity|].
  rewrite get_house_name_list_in_session.
  split; [reflexivity|]. cbn [store in_session add_parts house_repo house_part].
  split; [|split; [reflexivity|]].
  - intros Hin. apply in_map_iff in Hin as (h & Hname & Hin).
    apply find_none_forall in Hfind. rewrite Forall_forall in Hfind.
    specialize (Hfind h Hin). simpl in Hfind. rewrite Hname, String.eqb_refl in Hfind.
    discriminate.
  - apply scan_house_rows in Hscan. exact Hscan.
Qed.

Lemma aborted_scan_leaves_orphans_witness :
  _session Example.x0 = None
  /\ exists x1 x2,
       add_remote_house Example.rmtree Faulty.clone_denied "myhouse" Example.url "master"
         Example.x0
       = (Raise (OSError "/cache/myhouse/part/sp"), x1)
       /\ store x1 = Example.empty_db
       /\ get_house_name_list x1 = (Ok [], x2)
       /\ house_repo (store x2) = []
       /\ map PartModel.name (house_part (store x2)) = ["myhouse.sg.foo"].
Proof.
  split; [reflexivity|].
  assert (Hscan : exists rows,
            scan_house Faulty.env_denied
              (remote_house (remote_cache_dir Example.x0) "myhouse" Example.url "master")
            = (rows, [], Some (OSError "/cache/myhouse/part/sp"))
            /\ map PartModel.name rows = ["myhouse.sg.foo"]).
  { eexists. split; [vm_compute; reflexivity|reflexivity]. }
  destruct Hscan as (rows & Hscan & Hnames).
  destruct (aborted_scan_leaves_orphans Example.rmtree Faulty.clone_denied
              "myhouse" Example.url "master" Example.x0 Faulty.env_denied
              [Downloading "/cache/myhouse"; Rmtree "/cache/myhouse";
               CloneFrom (Some Example.url) "/cache/myhouse" (Some "master"); Downloaded]
              [] rows (OSError "/cache/myhouse/part/sp") eq_refl eq_refl eq_refl Hscan)
    as (x1 & x2 & Hrun & Hstore & Hlist & Hnot & Hparts & _).
  exists x1, x2. split; [exact Hrun|]. split; [exact Hstore|].
  split; [exact Hlist|].
  assert (Hrepo : house_repo (store x2) = []).
  { pose proof Hrun as Hx1. vm_compute in Hx1. injection Hx1 as Hx1.
    pose proof Hlist as Hx2. rewrite <- Hx1 in Hx2. vm_compute in Hx2.
    injection Hx2 as Hx2. rewrite <- Hx2. reflexivity. }
  split; [exact Hrepo|]. rewrite Hparts. exact Hnames.
Defined.

(* ------------------------------------------------------------------ *)
(** ** Resolving names *)

Lemma split_cons (sep : ascii) (s : string) : exists h t, PyStr.split sep s = h :: t.
Proof.
  induction s as [|c s (h & t & IH)]; simpl; [eauto|].
  destruct (Ascii.eqb c sep); [eauto|]. rewrite IH. eauto.
Qed.

Lemma split_app (sep : ascii) (a b : string) :
  PyStr.split sep (a ++ String sep b) = PyStr.split sep a ++ PyStr.split sep b.
Proof.
  induction a as [|c a IH]; simpl.
  - now rewrite Ascii.eqb_refl.
  - destruct (Ascii.eqb c sep); [now rewrite IH|].
    rewrite IH. destruct (split_cons sep a) as (h & t & ->). reflexivity.
Qed.

Lemma format2 (a b : string) : PyStr.format "{}.{}" [a; b] = (a ++ "." ++ b)%string.
Proof. simpl. now rewrite string_app_nil_r. Qed.

Lemma part_name_of_eq (H C E : string) :
  part_name_of H C E = (H ++ "." ++ C ++ "." ++ E)%string.
Proof. unfold part_name_of. destruct (negb _); simpl; now rewrite string_app_nil_r. Qed.

Lemma py_index_neg {A} (l : list A) (k : nat) :
  (0 < k <= List.length l)%nat ->
  py_index l (- Z.of_nat k) = nth_error l (List.length l - k).
Proof.
  intros Hk. unfold py_index.
  destruct (- Z.of_nat k <? 0)%Z eqn:Hneg; [|apply Z.ltb_ge in Hneg; lia].
  destruct (- Z.of_nat k + Z.of_nat (List.length l) <? 0)%Z eqn:Hneg2.
  - apply Z.ltb_lt in Hneg2. lia.
  - f_equal. lia.
Qed.

Lemma not_malformed_intro (name : string) (pre : list string) (c e : string) :
  PyStr.split "." name = pre ++ [c; e] -> In c categories -> ~ malformed name.
Proof.
  intros Hsplit Hc. unfold malformed. cbv zeta. rewrite Hsplit.
  rewrite length_app. cbn [List.length].
  replace (List.length pre + 2 - 2)%nat with (List.length pre + 0)%nat by lia.
  rewrite nth_error_app2 by lia.
  replace (List.length pre + 0 - List.length pre)%nat with 0%nat by lia.
  intros [Hlt|(seg & [= <-] & Hnot)]; [lia|contradiction].
Qed.

Lemma not_malformed_two (name : string) :
  List.length (PyStr.split "." name) = 2%nat -> ~ malformed name ->
  exists c e, PyStr.split "." name = [c; e] /\ In c categories.
Proof.
  intros Hlen Hwell. unfold malformed in Hwell. cbv zeta in Hwell.
  destruct (PyStr.split "." name) as [|c [|e [|? ?]]]; try discriminate.
  exists c, e. split; [reflexivity|].
  destruct (PyStr.in_tuple c categories) eqn:Hin; [now apply in_tuple_In|].
  exfalso. apply Hwell. right. exists c. split; [reflexivity|].
  rewrite <- in_tuple_In. congruence.
Qed.

Lemma load_part_run x0 st db pend e evs part_name kw :
  load_part part_name kw (in_session x0 st db pend e evs)
  = (resolve e db part_name kw, in_session x0 st db pend e evs).
Proof.
  unfold load_part, resolve, find_part.
  unfold bind at 1. rewrite query_run.
  destruct (first _ (house_part db)) as [part_model|]; [|reflexivity].
  unfold bind at 1. cbn [is_None checkif]. unfold ret at 1.
  unfold bind at 1. rewrite get_env_run.
  unfold bind at 1.
  destruct (import_module e _) as [part_module| |[]]; try reflexivity.
  unfold ret at 1. unfold bind at 1.
  destruct (PyModule.part part_module) as [factory|]; [|reflexivity].
  destruct (PartFactory.call factory kw); reflexivity.
Qed.

Lemma qualify_name_long (name : string) (x : HouseManager) :
  List.length (PyStr.split "." name) <> 2%nat -> qualify_name name x = (Ok name, x).
Proof.
  intros Hlen. unfold qualify_name. cbv zeta.
  apply Nat.eqb_neq in Hlen. now rewrite Hlen.
Qed.

(** [get_part] of a well-formed name that is not of two segments, with no
    session active. *)
Lemma get_part_qualified_idle (name : string) (kw : kwargs) (x : HouseManager) :
  _session x = None ->
  ~ malformed name ->
  List.length (PyStr.split "." name) <> 2%nat ->
  get_part name kw x
  = match resolve (env x) (store x) name kw with
    | Ok p =>
        (Ok p, idle x (store x) (env x) [SessionOpened; Committed (store x); SessionClosed])
    | Raise ex => (Raise ex, in_session x (store x) (store x) [] (env x) [SessionOpened])
    end.
Proof.
  intros Hidle Hwell Hlen. unfold get_part. rewrite dbsession_idle by assumption.
  unfold bind at 1. rewrite check_part_name_ok by assumption.
  rewrite resolve_part_split. unfold bind at 1.
  rewrite qualify_name_long by assumption. rewrite load_part_run.
  destruct (resolve _ _ _ _); [|reflexivity].
  rewrite commit_run. cbn [flush is_not _session in_session]. now rewrite close_run.
Qed.

Lemma find_part_name name db part_model :
  find_part name db = Some part_model -> PartModel.name part_model = name.
Proof.
  unfold find_part, first. intros H. apply find_some in H as [_ H].
  now apply String.eqb_eq.
Qed.

(** X5. With no session active, for a well-formed name of more than two
    segments: when no part row has the name, [get_part] fails with
    PartNotFoundError "not in the house"; when a row has it and its module
    loads, the call fails with AttributeError if the module has no [part],
    lets an exception of the factory through, and otherwise returns the
    instance the factory made from the caller's keyword arguments with its
    name replaced by the requested name. *)
Theorem get_part_returns_named (name : string) (kw : kwargs) (x : HouseManager) :
  _session x = None ->
  ~ malformed name ->
  (2 < List.length (PyStr.split "." name))%nat ->
  (find_part name (store x) = None ->
   fst (get_part name kw x) = Raise (PartNotFoundError name NotInHouse))
  /\ (forall part_model part_module,
        find_part name (store x) = Some part_model ->
        import_module (env x) (PartModel.module_name part_model) = Imported part_module ->
        match PyModule.part part_module with
        | None => fst (get_part name kw x) = Raise AttributeError
        | Some factory =>
            match PartFactory.call factory kw with
            | inl p =>
                get_part name kw x
                = (Ok {| Part.name := name; Part.params := Part.params p |},
                   idle x (store x) (env x)
                     [SessionOpened; Committed (store x); SessionClosed])
            | inr ex => fst (get_part name kw x) = Raise ex
            end
        end).
Proof.
  intros Hidle Hwell Hlen.
  rewrite get_part_qualified_idle by (try assumption; lia).
  unfold resolve. split.
  - intros ->. reflexivity.
  - intros part_model part_module Hfind Himp. rewrite Hfind, Himp.
    rewrite (find_part_name _ _ _ Hfind).
    destruct (PyModule.part part_module) as [factory|]; [|reflexivity].
    destruct (PartFactory.call factory kw); reflexivity.
Qed.

Lemma get_part_returns_named_witness :
  _session (snd (add_remote_house Example.rmtree Example.clone_from
                   "myhouse" Example.url "master" Example.x0)) = None
  /\ (2 < List.length (PyStr.split "." "myhouse.sg.foo"))%nat
  /\ fst (get_part "myhouse.sg.foo" [("n", PyObject true)]
            (snd (add_remote_house Example.rmtree Example.clone_from
                    "myhouse" Example.url "master" Example.x0)))
     = Ok {| Part.name := "myhouse.sg.foo"; Part.params := [("n", PyObject true)] |}.
Proof.
  split; [reflexivity|]. split; [simpl; lia|].
  assert (Hwell : ~ malformed "myhouse.sg.foo").
  { apply (not_malformed_intro _ ["myhouse"] "sg" "foo"); [reflexivity|simpl; tauto]. }
  destruct (get_part_returns_named "myhouse.sg.foo" [("n", PyObject true)]
              (snd (add_remote_house Example.rmtree Example.clone_from
                      "myhouse" Example.url "master" Example.x0))
              eq_refl Hwell ltac:(simpl; lia)) as [_ Hfound].
  specialize (Hfound _ Example.good_module eq_refl eq_refl).
  cbn [PyModule.part Example.good_module PartFactory.call Example.factory] in Hfound.
  rewrite Hfound. reflexivity.
Defined.

Lemma split_category (c : string) : In c categories -> PyStr.split "." c = [c].
Proof.
  intros Hc. simpl in Hc.
  repeat (destruct Hc as [<-|Hc]; [reflexivity|]). destruct Hc.
Qed.

(** X6. What the scanner registers, the resolver finds.  With no session
    active, for a row that the scan of a directory entry registers under
    one of the eleven categories, the entry's name having no dot: the
    row's name passes the name check of [get_part], and when the row is
    the one found under its name, [get_part] of that name in the same
    environment loads the module that the scan loaded and returns what its
    factory makes, named with the row's name (or lets the factory's
    exception through); of its own it raises neither PartNameError nor
    PartNotFoundError. *)
Theorem registered_part_resolves (x : HouseManager) (house_model : HouseModel.t)
    (base_local part path : string) (entry : DirEntry.t) (part_model : PartModel.t)
    (kw : kwargs) :
  _session x = None ->
  In part categories ->
  one_segment (DirEntry.name entry) ->
  In part_model (fst (scan_entry (env x) house_model base_local part path entry)) ->
  find_part (PartModel.name part_model) (store x) = Some part_model ->
  ~ malformed (PartModel.name part_model)
  /\ exists part_module factory,
       import_module (env x) (PartModel.module_name part_model) = Imported part_module
       /\ PyModule.part part_module = Some factory
       /\ fst (get_part (PartModel.name part_model) kw x)
          = match PartFactory.call factory kw with
            | inl p => Ok {| Part.name := PartModel.name part_model;
                             Part.params := Part.params p |}
            | inr ex => Raise ex
            end.
Proof.
  intros Hidle Hcat Hentry Hin Hfind.
  apply scan_entry_row in Hin
    as (_ & _ & _ & Hname & Hmodule & part_module & factory & Himp & Hpart & _).
  assert (Hsplit : PyStr.split "." (PartModel.name part_model)
                   = PyStr.split "." (HouseModel.name house_model)
                     ++ [part; DirEntry.name entry]).
  { rewrite Hname, part_name_of_eq.
    change (HouseModel.name house_model ++ "." ++ part ++ "." ++ DirEntry.name entry)%string
      with (HouseModel.name house_model
            ++ String "." (part ++ String "." (DirEntry.name entry)))%string.
    rewrite !split_app, (split_category _ Hcat), Hentry. reflexivity. }
  assert (Hwell : ~ malformed (PartModel.name part_model)).
  { eapply not_malformed_intro; eassumption. }
  split; [exact Hwell|].
  exists part_module, factory. rewrite Hmodule. split; [exact Himp|]. split; [exact Hpart|].
  rewrite get_part_qualified_idle; try assumption.
  - unfold resolve. rewrite Hfind, Hmodule, Himp, Hpart.
    destruct (PartFactory.call factory kw); reflexivity.
  - rewrite Hsplit, length_app. cbn [List.length].
    destruct (split_cons "." (HouseModel.name house_model)) as (h & t & ->).
    cbn [List.length]. lia.
Qed.

Lemma registered_part_resolves_witness :
  exists part_model,
    fst (scan_entry Example.env_b Example.myhouse "myhouse" "sys" "/cache/myhouse/sys"
           (Example.dir "foo")) = [part_model]
    /\ ~ malformed (PartModel.name part_model)
    /\ fst (get_part (PartModel.name part_model) []
              (snd (add_remote_house Example.rmtree Example.clone_from
                      "myhouse" Example.url "master" Example.x0)))
       = Ok {| Part.name := "myhouse.sys.foo"; Part.params := [] |}.
Proof.
  eexists. split; [reflexivity|].
  match goal with
  | |- ~ malformed (PartModel.name ?pm) /\ _ =>
      destruct (registered_part_resolves
                  (snd (add_remote_house Example.rmtree Example.clone_from
                          "myhouse" Example.url "master" Example.x0))
                  Example.myhouse "myhouse" "sys" "/cache/myhouse/sys" (Example.dir "foo")
                  pm [] eq_refl ltac:(simpl; tauto) eq_refl (or_introl eq_refl) eq_refl)
        as (Hwell & part_module & factory & Himp & Hpart & Hget)
  end.
  split; [exact Hwell|].
  vm_compute in Himp. injection Himp as <-.
  vm_compute in Hpart. injection Hpart as <-.
  rewrite Hget. reflexivity.
Defined.

Lemma dbsession_ext_at {A} (f g : M A) (x : HouseManager) :
  f (match _session x with None => scoped_Session x | Some _ => x end)
  = g (match _session x with None => scoped_Session x | Some _ => x end) ->
  dbsession f x = dbsession g x.
Proof. intros H. unfold dbsession. cbv zeta. now rewrite H. Qed.

Lemma env_entered (x : HouseManager) :
  env (match _session x with None => scoped_Session x | Some _ => x end) = env x.
Proof. now destruct (_session x). Qed.

Lemma qualify_name_two (name c e : string) (x : HouseManager) :
  PyStr.split "." name = [c; e] ->
  qualify_name name x
  = (let abs_path := abspath (env x) (__file__ (env x)) in
     let path_parts := OsPath.parts abs_path in
     let depth := if PyStr.in_tuple c ["prtflo"; "sys"] then 4%nat else 5%nat in
     if (List.length path_parts <? depth)%nat
     then Raise (PartNotFoundError name (NotAHouseFile abs_path))
     else match nth_error path_parts (List.length path_parts - depth) with
          | Some house => Ok (house ++ "." ++ name)%string
          | None => Raise IndexError
          end,
     x).
Proof.
  intros Hsplit. unfold qualify_name. cbv zeta. rewrite Hsplit.
  cbn [List.length Nat.eqb py_index Z.ltb Z.compare Z.to_nat nth_error].
  unfold bind at 1, get_env. unfold bind at 1, lift.
  destruct (PyStr.in_tuple c ["prtflo"; "sys"]).
  - destruct (List.length (OsPath.parts _) <? 4)%nat eqn:Hlen; [reflexivity|].
    unfold bind, checkif, ret. apply Nat.ltb_ge in Hlen.
    change (-4)%Z with (- Z.of_nat 4)%Z. rewrite py_index_neg by lia.
    destruct (nth_error _ _); [now rewrite format2|reflexivity].
  - destruct (List.length (OsPath.parts _) <? 5)%nat eqn:Hlen; [reflexivity|].
    unfold bind, checkif, ret. apply Nat.ltb_ge in Hlen.
    change (-5)%Z with (- Z.of_nat 5)%Z. rewrite py_index_neg by lia.
    destruct (nth_error _ _); [now rewrite format2|reflexivity].
Qed.

(** X7. A name of two segments, category and entry, is completed with a
    house name read from the path of house.py itself: the component four
    places from the end of the path for the categories prtflo and sys, five
    places for the others, the anchor of the path ("/", or "//" for a path
    with exactly two leading slashes) counting as its first component.  In
    every state of the manager: when the path has fewer components than
    that, [get_part] fails with
    PartNotFoundError naming the file; otherwise it behaves in every
    respect as [get_part] of the completed name. *)
Theorem unqualified_name_resolution (name c e : string) (kw : kwargs) (x : HouseManager) :
  PyStr.split "." name = [c; e] ->
  In c categories ->
  let abs_path := abspath (env x) (__file__ (env x)) in
  let path_parts := OsPath.parts abs_path in
  let depth := if PyStr.in_tuple c ["prtflo"; "sys"] then 4%nat else 5%nat in
  ((List.length path_parts < depth)%nat ->
   fst (get_part name kw x) = Raise (PartNotFoundError name (NotAHouseFile abs_path)))
  /\ (forall house,
        (depth <= List.length path_parts)%nat ->
        nth_error path_parts (List.length path_parts - depth) = Some house ->
        get_part name kw x = get_part (house ++ "." ++ name)%string kw x).
Proof.
  intros Hsplit Hc abs_path path_parts depth.
  assert (Hwell : ~ malformed name).
  { apply (not_malformed_intro name [] c e); assumption. }
  split.
  - intros Hshort. unfold get_part, dbsession. cbv zeta.
    unfold bind at 1. rewrite check_part_name_ok by assumption.
    rewrite resolve_part_split. unfold bind at 1.
    rewrite (qualify_name_two name c e _ Hsplit). cbv zeta. rewrite env_entered.
    fold abs_path path_parts depth.
    apply Nat.ltb_lt in Hshort. rewrite Hshort. reflexivity.
  - intros house Hdeep Hhouse.
    assert (Hsplit' : PyStr.split "." (house ++ "." ++ name)%string
                      = PyStr.split "." house ++ [c; e]).
    { change (house ++ "." ++ name)%string with (house ++ String "." name)%string.
      now rewrite split_app, Hsplit. }
    assert (Hwell' : ~ malformed (house ++ "." ++ name)%string).
    { eapply not_malformed_intro; eassumption. }
    assert (Hlong : List.length (PyStr.split "." (house ++ "." ++ name)%string) <> 2%nat).
    { rewrite Hsplit', length_app. cbn [List.length].
      destruct (split_cons "." house) as (h & t & ->). cbn [List.length]. lia. }
    unfold get_part. apply dbsession_ext_at.
    unfold bind at 1 2. rewrite !check_part_name_ok by assumption.
    rewrite !resolve_part_split. unfold bind at 1 2.
    rewrite (qualify_name_two name c e _ Hsplit). cbv zeta. rewrite env_entered.
    fold abs_path path_parts depth.
    apply Nat.ltb_ge in Hdeep. rewrite Hdeep, Hhouse.
    now rewrite qualify_name_long by assumption.
Qed.

Lemma unqualified_name_resolution_witness :
  PyStr.split "." "sg.foo" = ["sg"; "foo"]
  /\ OsPath.parts "/usr/lib/python3/site-packages/hikyuu/house.py"
     = ["/"; "usr"; "lib"; "python3"; "site-packages"; "hikyuu"; "house.py"]
  /\ OsPath.parts "//srv/site-packages/hikyuu/house.py"
     = ["//"; "srv"; "site-packages"; "hikyuu"; "house.py"]
  /\ get_part "sg.foo" [] Example.x_registered = get_part "lib.sg.foo" [] Example.x_registered
  /\ fst (get_part "sg.foo" [] Example.x_registered)
     = Raise (PartNotFoundError "lib.sg.foo" NotInHouse).
Proof.
  split; [reflexivity|]. split; [reflexivity|]. split; [reflexivity|].
  destruct (unqualified_name_resolution "sg.foo" "sg" "foo" [] Example.x_registered
              eq_refl ltac:(simpl; tauto)) as [_ Hdeep].
  specialize (Hdeep "lib" ltac:(simpl; lia) eq_refl).
  split; [exact Hdeep|]. rewrite Hdeep. reflexivity.
Defined.

(* ------------------------------------------------------------------ *)
(** ** Registering, looking up, removing *)

Lemma get_house_path_idle (name : string) (x : HouseManager) :
  _session x = None ->
  get_house_path name x
  = match find_house name (store x) with
    | Some h =>
        (Ok (HouseModel.local h),
         idle x (store x) (env x) [SessionOpened; Committed (store x); SessionClosed])
    | None =>
        (Raise (HouseNotFoundError name),
         in_session x (store x) (store x) [] (env x) [SessionOpened])
    end.
Proof.
  intros Hidle. unfold get_house_path. rewrite dbsession_idle by assumption.
  unfold bind at 1. rewrite query_run. unfold find_house.
  destruct (first _ (house_repo (store x))) as [h|]; [|reflexivity].
  unfold bind at 1. cbn [is_None checkif]. unfold ret.
  rewrite commit_run. cbn [flush is_not _session in_session]. now rewrite close_run.
Qed.

Lemma find_house_add_new (name : string) (db : DB) (rows : list PartModel.t)
    (record : HouseModel.t) :
  find_house name db = None ->
  HouseModel.name record = name ->
  find_house name (add_house (add_parts db rows) record) = Some record.
Proof.
  intros Hnone Hname. unfold find_house, first, add_house, add_parts in *. simpl.
  induction (house_repo db) as [|h l IH]; simpl in *.
  - now rewrite Hname, String.eqb_refl.
  - destruct (HouseModel.name h =? name)%string; [discriminate|auto].
Qed.

Section Lifecycle.

Variable rmtree : string -> Env -> Env * option exn.
Variable clone_from : option string -> string -> option string -> Env -> Env * bool.

(** What a returning [add_remote_house] did. *)
Lemma add_remote_house_ok (name url branch : string) (x x1 : HouseManager) :
  _session x = None ->
  add_remote_house rmtree clone_from name url branch x = (Ok tt, x1) ->
  find_house name (store x) = None
  /\ exists e' evs rows,
       (exists evs2, scan_house e' (remote_house (remote_cache_dir x) name url branch)
                     = (rows, evs2, None))
       /\ x1 = idle x (add_house (add_parts (store x) rows)
                                 (remote_house (remote_cache_dir x) name url branch))
                    e' evs.
Proof.
  intros Hidle. rewrite add_remote_house_idle by assumption.
  destruct (find_house name (store x)); [discriminate|]. cbv zeta.
  destruct (fetch _ _ _ _ _ _) as [[e' evs1] [ex|]]; [discriminate|].
  destruct (scan_house e' _) as [[rows evs2] [ex|]] eqn:Hscan; [discriminate|].
  intros [= <-]. split; [reflexivity|]. eauto 8.
Qed.

(** X8. With no session active, after an [add_remote_house] that
    returned: [get_house_path] of the name is the cache directory joined
    with the name; [get_house_name_list] holds, in some order, the names
    of the houses registered before and the new name once more; and
    [get_part_name_list(house=name)] is the names of the part rows that
    already bore that house name followed by those of the rows that a scan
    of the fetched tree yields. *)
Theorem add_then_lookup (name url branch : string) (x x1 : HouseManager) :
  _session x = None ->
  add_remote_house rmtree clone_from name url branch x = (Ok tt, x1) ->
  fst (get_house_path name x1) = Ok (remote_cache_dir x ++ "/" ++ name)%string
  /\ (exists names,
        fst (get_house_name_list x1) = Ok names
        /\ Permutation names (name :: map HouseModel.name (house_repo (store x))))
  /\ exists rows evs,
       scan_house (env x1) (remote_house (remote_cache_dir x) name url branch)
       = (rows, evs, None)
       /\ fst (get_part_name_list (Some name) None x1)
          = Ok (map PartModel.name (parts_of name (store x) ++ rows)).
Proof.
  intros Hidle Hrun.
  destruct (add_remote_house_ok _ _ _ _ _ Hidle Hrun)
    as (Hnone & e' & evs & rows & (evs2 & Hscan) & ->).
  split; [|split].
  - rewrite get_house_path_idle by reflexivity. cbn [store idle].
    rewrite (find_house_add_new name _ rows
               (remote_house (remote_cache_dir x) name url branch) Hnone eq_refl).
    cbn [fst HouseModel.local remote_house PyStr.format].
    now rewrite string_app_nil_r.
  - rewrite get_house_name_list_idle by reflexivity.
    cbn [fst store idle add_house add_parts house_repo]. eexists. split; [reflexivity|].
    rewrite map_app. cbn [map HouseModel.name remote_house].
    symmetry. apply Permutation_cons_append.
  - exists rows, evs2. split; [exact Hscan|].
    rewrite get_part_name_list_idle by reflexivity. cbn [fst store idle].
    change (parts_of name (add_house (add_parts (store x) rows)
                             (remote_house (remote_cache_dir x) name url branch)))
      with (parts_of name (add_parts (store x) rows)).
    rewrite parts_of_add_parts, filter_own_rows; [reflexivity|].
    apply scan_house_rows in Hscan. exact Hscan.
Qed.

(** X9. With no session active, an [add_remote_house] that returned
    followed by [remove_house] of the same name: the removal returns; the
    house rows are those of before the addition, the part rows those of
    before without any that bore the house name, so a store that had no
    such part rows is restored exactly; the environment is the one the
    fetch left (nothing is removed from the file system); and
    [get_house_path] of the name then fails with HouseNotFoundError. *)
Theorem add_then_remove (name url branch : string) (x x1 : HouseManager) :
  _session x = None ->
  add_remote_house rmtree clone_from name url branch x = (Ok tt, x1) ->
  exists x2,
    remove_house name x1 = (Ok tt, x2)
    /\ house_repo (store x2) = house_repo (store x)
    /\ house_part (store x2) = parts_not_of name (store x)
    /\ (parts_of name (store x) = [] -> store x2 = store x)
    /\ env x2 = env x1
    /\ fst (get_house_path name x2) = Raise (HouseNotFoundError name).
Proof.
  intros Hidle Hrun.
  destruct (add_remote_house_ok _ _ _ _ _ Hidle Hrun)
    as (Hnone & e' & evs & rows & (evs2 & Hscan) & ->).
  rewrite remove_house_idle by reflexivity. eexists. split; [reflexivity|].
  cbn [store env idle].
  assert (Hrepo : house_repo
                    (delete_houses name
                       (delete_parts name
                          (add_house (add_parts (store x) rows)
                             (remote_house (remote_cache_dir x) name url branch))))
                  = house_repo (store x)).
  { unfold delete_houses, delete_parts, add_house, add_parts. simpl.
    rewrite filter_app. simpl. rewrite String.eqb_refl. simpl. rewrite app_nil_r.
    apply filter_all. apply find_none_forall in Hnone.
    eapply Forall_impl; [|exact Hnone]. simpl. now intros h ->. }
  assert (Hpart : house_part
                    (delete_houses name
                       (delete_parts name
                          (add_house (add_parts (store x) rows)
                             (remote_house (remote_cache_dir x) name url branch))))
                  = parts_not_of name (store x)).
  { unfold delete_houses, delete_parts, add_house, add_parts, parts_not_of. simpl.
    rewrite filter_app. rewrite (filter_none _ rows); [apply app_nil_r|].
    apply scan_house_rows in Hscan. eapply Forall_impl; [|exact Hscan].
    simpl. intros p ->. now rewrite String.eqb_refl. }
  split; [exact Hrepo|]. split; [exact Hpart|]. split; [|split; [reflexivity|]].
  - intros Hnoparts.
    destruct (delete_houses _ _) as [repo part]. simpl in Hrepo, Hpart. subst repo part.
    unfold parts_not_of. rewrite filter_all; [now destruct (store x)|].
    apply Forall_forall. intros p Hin.
    destruct (PartModel.house_name p =? name)%string eqn:Hp; [|reflexivity].
    assert (Hin' : In p (parts_of name (store x))) by (apply filter_In; now split).
    rewrite Hnoparts in Hin'. destruct Hin'.
  - rewrite get_house_path_idle by reflexivity. cbn [store idle].
    match goal with
    | |- context [find_house name ?db] =>
        destruct (find_house name db) as [h|] eqn:Hfind; [|reflexivity]
    end.
    exfalso. unfold find_house, first in Hfind. apply find_some in Hfind as [Hin Hname].
    rewrite Hrepo in Hin. unfold find_house, first in Hnone.
    apply find_none_forall in Hnone. rewrite Forall_forall in Hnone.
    specialize (Hnone h Hin). simpl in Hnone. congruence.
Qed.

(** X10. With no session active, when the clone reports success but the
    house directory does not exist afterwards, [add_remote_house] of a new
    name still returns and registers the house: the house row is appended,
    no part row is added, and the warning about the missing path is
    logged. *)
Theorem add_remote_house_without_directory (name url branch : string) (x : HouseManager)
    (e' : Env) (evs : list Event) :
  _session x = None ->
  find_house name (store x) = None ->
  fetch rmtree clone_from (env x)
        (HouseModel.local (remote_house (remote_cache_dir x) name url branch))
        (Some url) (Some branch) = (e', evs, None) ->
  lexists e' (HouseModel.local (remote_house (remote_cache_dir x) name url branch)) = false ->
  exists x1,
    add_remote_house rmtree clone_from name url branch x = (Ok tt, x1)
    /\ house_repo (store x1)
       = house_repo (store x) ++ [remote_house (remote_cache_dir x) name url branch]
    /\ house_part (store x1) = house_part (store x)
    /\ filter is_log (skipn (List.length (trace x)) (trace x1))
       = [LogWarning (HousePathNotExists name
                        (HouseModel.local (remote_house (remote_cache_dir x) name url branch)))].
Proof.
  intros Hidle Hnone Hfetch Hgone.
  rewrite add_remote_house_idle by assumption. rewrite Hnone. cbv zeta. rewrite Hfetch.
  unfold scan_house. rewrite Hgone. cbn [negb].
  eexists. split; [reflexivity|]. cbn [store trace idle add_house add_parts house_repo house_part].
  split; [reflexivity|]. split; [apply app_nil_r|].
  rewrite skipn_app, skipn_all, Nat.sub_diag. cbn [skipn app].
  apply fetch_events in Hfetch.
  cbn [filter is_log]. rewrite !filter_app.
  rewrite (filter_class is_log is_fetch evs); [reflexivity| |exact Hfetch].
  now intros [].
Qed.

(** X11. With no session active, for a registered house that is not
    remote: an [update_house] that returned, followed by a second
    [update_house] of the same name, returns again and leaves the store
    and the environment exactly as the first one left them. *)
Theorem update_house_twice (name : string) (x x1 : HouseManager) (house_model : HouseModel.t) :
  _session x = None ->
  find_house name (store x) = Some house_model ->
  HouseModel.house_type house_model <> "remote"%string ->
  update_house rmtree clone_from name x = (Ok tt, x1) ->
  exists x2,
    update_house rmtree clone_from name x1 = (Ok tt, x2)
    /\ store x2 = store x1
    /\ env x2 = env x1
    /\ _session x2 = None.
Proof.
  intros Hidle Hfind Hlocal. rewrite update_house_idle by assumption. rewrite Hfind.
  cbv zeta. apply String.eqb_neq in Hlocal. rewrite Hlocal.
  destruct (scan_house (env x) house_model) as [[rows evs2] [ex|]] eqn:Hscan; [discriminate|].
  intros [= <-]. rewrite update_house_idle by reflexivity. cbn [store env idle].
  change (find_house name (add_parts (delete_parts name (store x)) rows))
    with (find_house name (store x)).
  rewrite Hfind. cbv zeta. rewrite Hlocal, Hscan.
  eexists. split; [reflexivity|]. cbn [store env _session idle].
  split; [|split; reflexivity]. f_equal.
  unfold delete_parts, add_parts. simpl. f_equal.
  rewrite filter_app. rewrite (filter_none _ rows).
  - rewrite app_nil_r. clear. induction (house_part (store x)) as [|p l IH]; simpl.
    + reflexivity.
    + destruct (negb (PartModel.house_name p =? name)%string) eqn:Hp; simpl.
      * now rewrite Hp, IH.
      * exact IH.
  - apply scan_house_rows in Hscan. rewrite (find_some_name _ _ _ Hfind) in Hscan.
    eapply Forall_impl; [|exact Hscan]. simpl. intros p ->. now rewrite String.eqb_refl.
Qed.

End Lifecycle.

Lemma add_then_lookup_witness :
  _session Example.x0 = None
  /\ fst (add_remote_house Example.rmtree Example.clone_from
            "myhouse" Example.url "master" Example.x0) = Ok tt
  /\ fst (get_house_path "myhouse"
            (snd (add_remote_house Example.rmtree Example.clone_from
                    "myhouse" Example.url "master" Example.x0)))
     = Ok "/cache/myhouse"
  /\ exists names,
       fst (get_house_name_list
              (snd (add_remote_house Example.rmtree Example.clone_from
                      "myhouse" Example.url "master" Example.x0)))
       = Ok names
       /\ Permutation names ["myhouse"].
Proof.
  split; [reflexivity|]. split; [reflexivity|].
  assert (Hrun : add_remote_house Example.rmtree Example.clone_from
                   "myhouse" Example.url "master" Example.x0
                 = (Ok tt, snd (add_remote_house Example.rmtree Example.clone_from
                                  "myhouse" Example.url "master" Example.x0)))
    by (vm_compute; reflexivity).
  destruct (add_then_lookup Example.rmtree Example.clone_from "myhouse" Example.url "master"
              Example.x0 _ eq_refl Hrun) as (Hpath & Hlist & _).
  split; [exact Hpath|exact Hlist].
Defined.

Lemma add_then_remove_witness :
  _session Example.x0 = None
  /\ exists x2,
       remove_house "myhouse"
         (snd (add_remote_house Example.rmtree Example.clone_from
                 "myhouse" Example.url "master" Example.x0))
       = (Ok tt, x2)
       /\ store x2 = store Example.x0
       /\ env x2 = Example.env_b.
Proof.
  split; [reflexivity|].
  assert (Hrun : add_remote_house Example.rmtree Example.clone_from
                   "myhouse" Example.url "master" Example.x0
                 = (Ok tt, snd (add_remote_house Example.rmtree Example.clone_from
                                  "myhouse" Example.url "master" Example.x0)))
    by (vm_compute; reflexivity).
  destruct (add_then_remove Example.rmtree Example.clone_from "myhouse" Example.url "master"
              Example.x0 _ eq_refl Hrun) as (x2 & Hremove & _ & _ & Hstore & Henv & _).
  exists x2. split; [exact Hremove|]. split; [apply Hstore; reflexivity|].
  rewrite Henv. reflexivity.
Defined.

Lemma add_remote_house_without_directory_witness :
  _session Example.x0 = None
  /\ exists x1,
       add_remote_house Example.rmtree Faulty.clone_gone "myhouse" Example.url "master"
         Example.x0 = (Ok tt, x1)
       /\ map HouseModel.name (house_repo (store x1)) = ["myhouse"]
       /\ house_part (store x1) = [].
Proof.
  split; [reflexivity|].
  destruct (add_remote_house_without_directory Example.rmtree Faulty.clone_gone
              "myhouse" Example.url "master" Example.x0 Faulty.env_gone
              [Downloading "/cache/myhouse"; Rmtree "/cache/myhouse";
               CloneFrom (Some Example.url) "/cache/myhouse" (Some "master"); Downloaded]
              eq_refl eq_refl eq_refl eq_refl)
    as (x1 & Hrun & Hrepo & Hpart & _).
  exists x1. split; [exact Hrun|]. split; [rewrite Hrepo; reflexivity|exact Hpart].
Defined.

Lemma update_house_twice_witness :
  _session LocalHouse.x_local = None
  /\ fst (update_house Example.rmtree Example.clone_from "myhouse" LocalHouse.x_local) = Ok tt
  /\ exists x2,
       update_house Example.rmtree Example.clone_from "myhouse"
         (snd (update_house Example.rmtree Example.clone_from "myhouse" LocalHouse.x_local))
       = (Ok tt, x2)
       /\ store x2
          = store (snd (update_house Example.rmtree Example.clone_from "myhouse"
                          LocalHouse.x_local)).
Proof.
  split; [reflexivity|]. split; [reflexivity|].
  assert (Hrun : update_house Example.rmtree Example.clone_from "myhouse" LocalHouse.x_local
                 = (Ok tt, snd (update_house Example.rmtree Example.clone_from "myhouse"
                                  LocalHouse.x_local)))
    by (vm_compute; reflexivity).
  destruct (update_house_twice Example.rmtree Example.clone_from "myhouse"
              LocalHouse.x_local _ LocalHouse.mylocal eq_refl eq_refl
              ltac:(discriminate) Hrun) as (x2 & Hagain & Hstore & _).
  exists x2. split; [exact Hagain|exact Hstore].
Defined.

(* ------------------------------------------------------------------ *)
(** ** House names stay unique *)

Lemma NoDup_snoc {A} (l : list A) (a : A) : NoDup l -> ~ In a l -> NoDup (l ++ [a]).
Proof.
  induction 1 as [|b l Hb Hl IH]; intros Ha; simpl.
  - repeat constructor. intros [].
  - constructor.
    + rewrite in_app_iff. simpl. intros [H|[H|[]]]; [contradiction|].
      subst. apply Ha. now left.
    + apply IH. intros H. apply Ha. now right.
Qed.

Lemma NoDup_map_filter {A B} (g : A -> B) (f : A -> bool) (l : list A) :
  NoDup (map g l) -> NoDup (map g (filter f l)).
Proof.
  induction l as [|a l IH]; simpl; [auto|].
  rewrite NoDup_cons_iff. intros [Ha Hl]. destruct (f a); simpl; [|auto].
  constructor; [|auto]. intros Hin. apply Ha.
  apply in_map_iff in Hin as (b & Hb & Hin). apply filter_In in Hin as [Hin _].
  rewrite <- Hb. now apply in_map.
Qed.

Lemma unique_add_house (db : DB) (rows : list PartModel.t) (record : HouseModel.t) :
  find_house (HouseModel.name record) db = None ->
  unique_house_names db ->
  unique_house_names (add_house (add_parts db rows) record).
Proof.
  intros Hnone Hunique. unfold unique_house_names, add_house, add_parts. simpl.
  rewrite map_app. simpl. apply NoDup_snoc; [exact Hunique|].
  intros Hin. apply in_map_iff in Hin as (h & Hname & Hin).
  apply find_none_forall in Hnone. rewrite Forall_forall in Hnone.
  specialize (Hnone h Hin). simpl in Hnone. rewrite Hname, String.eqb_refl in Hnone.
  discriminate.
Qed.

(** X12. The four operations that change the store keep the house names
    unique: called with no session active on a store in which no two
    house rows have the same name, [add_remote_house], [add_local_house],
    [update_house] and [remove_house] each leave such a store, whether
    they return or raise. *)
Theorem house_names_stay_unique
    (rmtree : string -> Env -> Env * option exn)
    (clone_from : option string -> string -> option string -> Env -> Env * bool)
    (sys_path_append : string -> Env -> Env)
    (name url branch path : string) (x : HouseManager) :
  _session x = None ->
  unique_house_names (store x) ->
  unique_house_names (store (snd (add_remote_house rmtree clone_from name url branch x)))
  /\ unique_house_names (store (snd (add_local_house sys_path_append path x)))
  /\ unique_house_names (store (snd (update_house rmtree clone_from name x)))
  /\ unique_house_names (store (snd (remove_house name x))).
Proof.
  intros Hidle Hunique. split; [|split; [|split]].
  - rewrite add_remote_house_idle by assumption.
    destruct (find_house name (store x)) eqn:Hfind; [exact Hunique|]. cbv zeta.
    destruct (fetch _ _ _ _ _ _) as [[e' evs1] [ex|]]; [exact Hunique|].
    destruct (scan_house e' _) as [[rows evs2] [ex|]]; [exact Hunique|].
    cbn [snd store idle]. now apply unique_add_house.
  - rewrite add_local_house_idle by assumption. cbv zeta.
    destruct (negb (lexists (env x) path)); [exact Hunique|].
    destruct (find_house _ (store x)) eqn:Hfind; [exact Hunique|].
    destruct (import_module _ _) as [tmp| |cls]; try exact Hunique.
    destruct (PyModule.__path__ tmp) as [[|tmp_path rest]|]; try exact Hunique.
    destruct (negb (tmp_path =? _)%string); [exact Hunique|].
    destruct (scan_house _ _) as [[rows evs2] [ex|]]; [exact Hunique|].
    cbn [snd store idle]. now apply unique_add_house.
  - rewrite update_house_idle by assumption.
    destruct (find_house name (store x)) as [house_model|]; [|exact Hunique]. cbv zeta.
    destruct (if (HouseModel.house_type house_model =? "remote")%string then _ else _)
      as [[e' evs1] [ex|]]; [exact Hunique|].
    destruct (scan_house e' _) as [[rows evs2] [ex|]]; exact Hunique.
  - rewrite remove_house_idle by assumption. cbn [snd store idle].
    unfold unique_house_names, delete_houses, delete_parts. simpl.
    now apply NoDup_map_filter.
Qed.

Lemma house_names_stay_unique_witness :
  _session Example.x_registered = None
  /\ unique_house_names (store Example.x_registered)
  /\ unique_house_names
       (store (snd (add_remote_house Example.rmtree Example.clone_from
                      "second" Example.url "master" Example.x_registered)))
  /\ map HouseModel.name
       (house_repo (store (snd (add_remote_house Example.rmtree Example.clone_from
                                  "second" Example.url "master" Example.x_registered))))
     = ["myhouse"; "second"].
Proof.
  assert (Hunique : unique_house_names (store Example.x_registered)).
  { unfold unique_house_names. simpl. repeat constructor. intros []. }
  split; [reflexivity|]. split; [exact Hunique|].
  split; [|reflexivity].
  apply (house_names_stay_unique Example.rmtree Example.clone_from Example.sys_path_append
           "second" Example.url "master" "/cache/myhouse" Example.x_registered
           eq_refl Hunique).
Defined.

(* ------------------------------------------------------------------ *)
(** ** Adding a local house *)

(** X13. The errors of [add_local_house], in the order the code checks,
    with no session active.  A path that does not exist raises the check
    error "path not found".  Otherwise the house name is the last segment
    of the absolute path, and a registered name raises
    HouseNameRepeatError; in both cases the environment is untouched.
    Otherwise the parent directory of the given path is appended to
    sys.path and the name is imported: when the module found lies at
    another path the call raises ModuleConflictError with both paths, and
    the entry in sys.path stays.  In none of these cases does the store
    change. *)
Theorem add_local_house_errors (sys_path_append : string -> Env -> Env)
    (path : string) (x : HouseManager) :
  _session x = None ->
  let local_path := abspath (env x) path in
  let name := OsPath.basename local_path in
  (lexists (env x) path = false ->
   add_local_house sys_path_append path x
   = (Raise (HKUCheckError (PathNotFound path)),
      in_session x (store x) (store x) [] (env x) [SessionOpened]))
  /\ (lexists (env x) path = true ->
      find_house name (store x) <> None ->
      add_local_house sys_path_append path x
      = (Raise (HouseNameRepeatError name),
         in_session x (store x) (store x) [] (env x) [SessionOpened]))
  /\ (lexists (env x) path = true ->
      find_house name (store x) = None ->
      forall tmp tmp_path rest,
        import_module (sys_path_append (OsPath.dirname path) (env x)) name = Imported tmp ->
        PyModule.__path__ tmp = Some (tmp_path :: rest) ->
        tmp_path <> local_path ->
        add_local_house sys_path_append path x
        = (Raise (ModuleConflictError name tmp_path local_path),
           in_session x (store x) (store x) []
             (sys_path_append (OsPath.dirname path) (env x))
             [SessionOpened; SysPathAppend (OsPath.dirname path)])).
Proof.
  intros Hidle local_path name. split; [|split].
  - intros Hex. rewrite add_local_house_idle by assumption. cbv zeta. now rewrite Hex.
  - intros Hex Hfind. rewrite add_local_house_idle by assumption. cbv zeta. rewrite Hex.
    cbn [negb]. fold local_path name.
    destruct (find_house name (store x)); [reflexivity|contradiction].
  - intros Hex Hfind tmp tmp_path rest Himp Hpath Hne.
    rewrite add_local_house_idle by assumption. cbv zeta. rewrite Hex.
    cbn [negb]. fold local_path name. rewrite Hfind, Himp, Hpath.
    apply String.eqb_neq in Hne. now rewrite Hne.
Qed.

Lemma add_local_house_errors_witness :
  _session (LocalHouse.x_home "/opt/other/myhouse") = None
  /\ fst (add_local_house Example.sys_path_append "/home/me/myhouse"
            (LocalHouse.x_home "/opt/other/myhouse"))
     = Raise (ModuleConflictError "myhouse" "/opt/other/myhouse" "/home/me/myhouse")
  /\ fst (add_local_house Example.sys_path_append "/home/me/missing"
            (LocalHouse.x_home "/opt/other/myhouse"))
     = Raise (HKUCheckError (PathNotFound "/home/me/missing")).
Proof.
  split; [reflexivity|].
  destruct (add_local_house_errors Example.sys_path_append "/home/me/myhouse"
              (LocalHouse.x_home "/opt/other/myhouse") eq_refl) as (_ & _ & Hconflict).
  destruct (add_local_house_errors Example.sys_path_append "/home/me/missing"
              (LocalHouse.x_home "/opt/other/myhouse") eq_refl) as (Hmissing & _).
  split.
  - rewrite (Hconflict eq_refl eq_refl (LocalHouse.package "/opt/other/myhouse")
               "/opt/other/myhouse" [] eq_refl eq_refl ltac:(discriminate)).
    reflexivity.
  - rewrite (Hmissing eq_refl). reflexivity.
Defined.

(** X14. With no session active, [add_local_house] of an existing path
    whose last segment is a new name, when the module of that name is
    found at the absolute path itself and the scan is not aborted:
    the call returns, the house row appended is a local one (its name the
    last segment, its directory the absolute path, no url and no branch),
    [get_house_path] of the name is the absolute path, and the part rows
    appended are those of the scan. *)
Theorem add_local_house_registers (sys_path_append : string -> Env -> Env)
    (path : string) (x : HouseManager) (tmp : PyModule.t) (rest : list string)
    (rows : list PartModel.t) (evs : list Event) :
  _session x = None ->
  let local_path := abspath (env x) path in
  let name := OsPath.basename local_path in
  let e' := sys_path_append (OsPath.dirname path) (env x) in
  lexists (env x) path = true ->
  find_house name (store x) = None ->
  import_module e' name = Imported tmp ->
  PyModule.__path__ tmp = Some (local_path :: rest) ->
  scan_house e' (local_house local_path) = (rows, evs, None) ->
  exists x1,
    add_local_house sys_path_append path x = (Ok tt, x1)
    /\ store x1 = add_house (add_parts (store x) rows) (local_house local_path)
    /\ env x1 = e'
    /\ _session x1 = None
    /\ fst (get_house_path name x1) = Ok local_path.
Proof.
  intros Hidle local_path name e' Hex Hfind Himp Hpath Hscan.
  rewrite add_local_house_idle by assumption. cbv zeta. rewrite Hex.
  cbn [negb]. fold local_path name e'. rewrite Hfind, Himp, Hpath.
  rewrite String.eqb_refl. cbn [negb]. rewrite Hscan.
  eexists. split; [reflexivity|]. cbn [store env _session idle].
  repeat split.
  rewrite get_house_path_idle by reflexivity. cbn [store idle].
  now rewrite (find_house_add_new name _ rows (local_house local_path) Hfind eq_refl).
Qed.

Lemma add_local_house_registers_witness :
  _session (LocalHouse.x_home "/home/me/myhouse") = None
  /\ exists x1,
       add_local_house Example.sys_path_append "/home/me/myhouse"
         (LocalHouse.x_home "/home/me/myhouse") = (Ok tt, x1)
       /\ house_repo (store x1) = [local_house "/home/me/myhouse"]
       /\ fst (get_house_path "myhouse" x1) = Ok "/home/me/myhouse".
Proof.
  split; [reflexivity|].
  destruct (add_local_house_registers Example.sys_path_append "/home/me/myhouse"
              (LocalHouse.x_home "/home/me/myhouse")
              (LocalHouse.package "/home/me/myhouse") [] [] []
              eq_refl eq_refl eq_refl eq_refl eq_refl eq_refl)
    as (x1 & Hrun & Hstore & _ & _ & Hpath).
  exists x1. split; [exact Hrun|]. split; [rewrite Hstore; reflexivity|exact Hpath].
Defined.

(* ------------------------------------------------------------------ *)
(** ** Fetching *)

Section Fetch.

Variable rmtree : string -> Env -> Env * option exn.
Variable clone_from : option string -> string -> option string -> Env -> Env * bool.

(** [download_remote_house] in any state of the manager. *)
Lemma download_remote_house_any (x : HouseManager) (local_dir : string)
    (url branch : option string) :
  download_remote_house rmtree clone_from local_dir url branch x
  = let '(e', evs, r) := fetch rmtree clone_from (env x) local_dir url branch in
    (match r with None => Ok tt | Some ex => Raise ex end, log (set_env x e') evs).
Proof.
  unfold download_remote_house, fetch, bind, emit, get_env, put_env, raise, ret.
  cbn [env log set_env].
  destruct (lexists (env x) local_dir); cbn [env log set_env].
  - destruct (snd (rmtree local_dir (env x))); cbn [env log set_env].
    + unfold log, set_env. cbn. now rewrite <- !app_assoc.
    + destruct (snd (clone_from _ _ _ _)); unfold log, set_env; cbn;
        now rewrite <- !app_assoc.
  - destruct (snd (clone_from _ _ _ _)); unfold log, set_env; cbn;
      now rewrite <- !app_assoc.
Qed.

(** X15. [download_remote_house], in every state of the manager, touches
    neither the store nor the session.  It calls rmtree exactly when the
    target directory exists.  When rmtree lets an exception out (the
    RuntimeError "cannot remove the directory" of the handler where it gives
    up, or the error of the handler's own chmod and retry, which nothing
    catches), the call raises that very exception and does not clone.
    When rmtree returns, or the directory did not exist, it clones into the
    environment left by the removal, and it returns when the clone succeeds
    and raises the RuntimeError "check the network or the url" when it does
    not. *)
Theorem download_remote_house_outcome (x : HouseManager) (local_dir : string)
    (url branch : option string) :
  let run := download_remote_house rmtree clone_from local_dir url branch x in
  let e1 := if lexists (env x) local_dir then fst (rmtree local_dir (env x)) else env x in
  let let_out :=
    if lexists (env x) local_dir then snd (rmtree local_dir (env x)) else None in
  store (snd run) = store x
  /\ _session (snd run) = _session x
  /\ exists evs,
       trace (snd run) = trace x ++ evs
       /\ (In (Rmtree local_dir) evs <-> lexists (env x) local_dir = true)
       /\ match let_out with
          | Some ex =>
              fst run = Raise ex
              /\ env (snd run) = e1
              /\ ~ In (CloneFrom url local_dir branch) evs
          | None =>
              env (snd run) = fst (clone_from url local_dir branch e1)
              /\ In (CloneFrom url local_dir branch) evs
              /\ fst run = if snd (clone_from url local_dir branch e1)
                           then Ok tt
                           else Raise (RuntimeError (CheckNetworkOrUrl url))
          end.
Proof.
  cbv zeta. rewrite download_remote_house_any. unfold fetch.
  destruct (lexists (env x) local_dir).
  - destruct (snd (rmtree local_dir (env x))) as [path|].
    + cbn [fst snd store _session env trace log set_env].
      split; [reflexivity|]. split; [reflexivity|]. eexists. split; [reflexivity|].
      split; [split; [reflexivity|intros _; simpl; tauto]|].
      split; [reflexivity|]. split; [reflexivity|].
      simpl. intuition discriminate.
    + destruct (snd (clone_from _ _ _ _)) eqn:Hclone;
        cbn [fst snd store _session env trace log set_env];
        (split; [reflexivity|]); (split; [reflexivity|]);
        (eexists; split; [reflexivity|]);
        (split; [split; [reflexivity|intros _; simpl; tauto]|]);
        (split; [reflexivity|]); (split; [simpl; tauto|reflexivity]).
  - destruct (snd (clone_from _ _ _ _)) eqn:Hclone;
      cbn [fst snd store _session env trace log set_env];
      (split; [reflexivity|]); (split; [reflexivity|]);
      (eexists; split; [reflexivity|]);
      (split; [split; [simpl; intuition discriminate|discriminate]|]);
      (split; [reflexivity|]); (split; [simpl; tauto|reflexivity]).
Qed.

End Fetch.

(* ------------------------------------------------------------------ *)
(** ** What a scan registers *)

Lemma scan_entries_in e house_model base_local part path entries part_model :
  In part_model (fst (scan_entries e house_model base_local part path entries)) ->
  exists entry,
    In entry entries
    /\ In part_model (fst (scan_entry e house_model base_local part path entry)).
Proof.
  induction entries as [|entry entries IH]; simpl; [intros []|].
  rewrite in_app_iff. intros [H|H]; [eauto|].
  destruct (IH H) as (entry' & Hin & Hrow). eauto.
Qed.

Lemma scan_categories_in e house_model base_local cats part_model :
  In part_model (fst (fst (scan_categories e house_model base_local cats))) ->
  exists part part_dir entries entry,
    In (part, part_dir) cats
    /\ scandir e (category_path house_model part_dir) = Listing entries
    /\ In entry entries
    /\ In part_model (fst (scan_entry e house_model base_local part
                             (category_path house_model part_dir) entry)).
Proof.
  induction cats as [|[part part_dir] cats IH]; [intros []|].
  cbn [scan_categories]. fold (category_path house_model part_dir).
  destruct (scandir e (category_path house_model part_dir)) as [entries| |] eqn:Hdir.
  - destruct (scan_categories e house_model base_local cats) as [[rows msgs] r].
    cbn [fst snd] in *. rewrite in_app_iff. intros [H|H].
    + apply scan_entries_in in H as (entry & Hin & Hrow).
      exists part, part_dir, entries, entry. simpl. auto.
    + destruct (IH H) as (p & d & es & en & Hc & Hd & Hi & Hr).
      exists p, d, es, en. simpl. auto.
  - intros H. destruct (IH H) as (p & d & es & en & Hc & Hd & Hi & Hr).
    exists p, d, es, en. simpl. auto.
  - intros [].
Qed.

Lemma part_dict_categories part part_dir :
  In (part, part_dir) part_dict -> In part categories.
Proof.
  simpl. intros H.
  repeat (destruct H as [[= <- <-]|H]; [simpl; tauto|]). destruct H.
Qed.

Lemma is_candidate_true entry :
  is_candidate entry = true ->
  DirEntry.is_dir entry = true
  /\ PyStr.startswith (DirEntry.name entry) "." = false
  /\ DirEntry.name entry <> "__pycache__"%string.
Proof.
  unfold is_candidate. rewrite !andb_true_iff, !negb_true_iff.
  intros [[Hdot Hdir] Hcache]. repeat split; try assumption.
  now apply String.eqb_neq.
Qed.

(** X16. With no session active, a scan that returns only appends part
    rows, and each row it appends comes from an entry of the listing of
    one of the eleven category directories of the house: the entry is a
    directory, its name does not start with a dot and is not __pycache__;
    the row bears the house's name, that category, the part name
    [house.category.entry] and the module name computed for the entry, and
    the module of that name loaded and has a [part]. *)
Theorem scan_registers_only_candidates (house_model : HouseModel.t) (x x' : HouseManager) :
  _session x = None ->
  import_part_to_db house_model x = (Ok tt, x') ->
  house_repo (store x') = house_repo (store x)
  /\ exists rows,
       house_part (store x') = house_part (store x) ++ rows
       /\ Forall
            (fun part_model =>
               exists part part_dir entries entry part_module,
                 In (part, part_dir) part_dict
                 /\ In part categories
                 /\ scandir (env x) (category_path house_model part_dir) = Listing entries
                 /\ In entry entries
                 /\ DirEntry.is_dir entry = true
                 /\ PyStr.startswith (DirEntry.name entry) "." = false
                 /\ DirEntry.name entry <> "__pycache__"%string
                 /\ PartModel.house_name part_model = HouseModel.name house_model
                 /\ PartModel.part part_model = part
                 /\ PartModel.name part_model
                    = (HouseModel.name house_model ++ "." ++ part ++ "."
                       ++ DirEntry.name entry)%string
                 /\ PartModel.module_name part_model
                    = module_name_of (OsPath.basename (HouseModel.local house_model))
                        part (DirEntry.name entry)
                 /\ import_module (env x) (PartModel.module_name part_model)
                    = Imported part_module
                 /\ PyModule.part part_module <> None)
            rows.
Proof.
  intros Hidle. rewrite import_part_to_db_idle by assumption.
  destruct (scan_house (env x) house_model) as [[rows evs] [ex|]] eqn:Hscan; [discriminate|].
  intros [= <-]. cbn [store idle add_parts house_repo house_part].
  split; [reflexivity|]. exists rows. split; [reflexivity|].
  apply Forall_forall. intros part_model Hin.
  unfold scan_house in Hscan.
  destruct (negb (lexists (env x) (HouseModel.local house_model))).
  { injection Hscan as <- _. destruct Hin. }
  destruct (scan_categories (env x) house_model _ part_dict) as [[rows' msgs] r] eqn:Hcats.
  injection Hscan as <- _ _.
  assert (Hin' : In part_model
                   (fst (fst (scan_categories (env x) house_model
                                (OsPath.basename (HouseModel.local house_model)) part_dict))))
    by now rewrite Hcats.
  apply scan_categories_in in Hin' as (part & part_dir & entries & entry & Hc & Hd & Hi & Hr).
  apply scan_entry_row in Hr
    as (Hcand & Hhouse & Hpart & Hname & Hmodule & part_module & factory & Himp & Hfac & _).
  apply is_candidate_true in Hcand as (Hisdir & Hdot & Hcache).
  exists part, part_dir, entries, entry, part_module.
  rewrite part_name_of_eq in Hname. rewrite Hmodule.
  repeat split; try assumption.
  - eapply part_dict_categories; eassumption.
  - congruence.
Qed.

Lemma scan_registers_only_candidates_witness :
  _session Example.x0 = None
  /\ exists x',
       import_part_to_db Example.myhouse Example.x0 = (Ok tt, x')
       /\ house_repo (store x') = []
       /\ exists rows,
            house_part (store x') = rows
            /\ Forall (fun part_model => PartModel.house_name part_model = "myhouse") rows.
Proof.
  split; [reflexivity|].
  assert (Hrun : import_part_to_db Example.myhouse Example.x0
                 = (Ok tt, snd (import_part_to_db Example.myhouse Example.x0)))
    by (vm_compute; reflexivity).
  destruct (scan_registers_only_candidates Example.myhouse Example.x0 _ eq_refl Hrun)
    as (Hrepo & rows & Hpart & Hrows).
  eexists. split; [exact Hrun|]. split; [exact Hrepo|].
  exists rows. split; [exact Hpart|].
  eapply Forall_impl; [|exact Hrows].
  intros part_model (part & part_dir & entries & entry & part_module & H).
  apply H.
Defined.

(* ------------------------------------------------------------------ *)
(** ** The names of one scan are distinct *)

Lemma append_inv_head (a b c : string) : (a ++ b)%string = (a ++ c)%string -> b = c.
Proof. induction a as [|ch a IH]; simpl; [auto|]. intros [= H]. auto. Qed.

Lemma category_entry_inj (c1 c2 e1 e2 : string) :
  In c1 categories -> In c2 categories ->
  (c1 ++ "." ++ e1)%string = (c2 ++ "." ++ e2)%string -> c1 = c2 /\ e1 = e2.
Proof.
  intros H1 H2. simpl in H1, H2.
  repeat (destruct H1 as [<-|H1]);
    try (destruct H1);
    repeat (destruct H2 as [<-|H2]);
    try (destruct H2);
    simpl; intros H; first [discriminate H | (injection H as ->; split; reflexivity)].
Qed.

Lemma part_name_inj (H c1 c2 e1 e2 : string) :
  In c1 categories -> In c2 categories ->
  (H ++ "." ++ c1 ++ "." ++ e1)%string = (H ++ "." ++ c2 ++ "." ++ e2)%string ->
  c1 = c2 /\ e1 = e2.
Proof.
  intros H1 H2 Heq. apply append_inv_head in Heq. simpl in Heq. injection Heq as Heq.
  now apply category_entry_inj.
Qed.

Lemma NoDup_app_intro {A} (a b : list A) :
  NoDup a -> NoDup b -> (forall x, In x a -> ~ In x b) -> NoDup (a ++ b).
Proof.
  induction 1 as [|x a Hx Ha IH]; intros Hb Hdisj; simpl; [exact Hb|].
  constructor.
  - rewrite in_app_iff. intros [H|H]; [contradiction|].
    exact (Hdisj x (or_introl eq_refl) H).
  - apply IH; [exact Hb|]. intros y Hy. apply Hdisj. now right.
Qed.

Lemma NoDup_flat_map_key {A B K} (f : A -> list B) (g : B -> K) (k : A -> K) (l : list A) :
  (forall a b, In a l -> In b (f a) -> g b = k a) ->
  NoDup (map k l) ->
  (forall a, In a l -> NoDup (map g (f a))) ->
  NoDup (map g (flat_map f l)).
Proof.
  induction l as [|a l IH]; intros Hkey Hnodup Hone; simpl; [constructor|].
  rewrite map_app. simpl in Hnodup. apply NoDup_cons_iff in Hnodup as [Hfresh Hnodup].
  apply NoDup_app_intro.
  - apply Hone. now left.
  - apply IH; [intros; apply Hkey; [now right|assumption]|exact Hnodup|
               intros; apply Hone; now right].
  - intros y Hy Hy'. apply Hfresh.
    apply in_map_iff in Hy as (b & <- & Hb).
    apply in_map_iff in Hy' as (b' & Hg & Hb').
    apply in_flat_map in Hb' as (a' & Ha' & Hb').
    rewrite (Hkey a b (or_introl eq_refl) Hb) in Hg.
    rewrite (Hkey a' b' (or_intror Ha') Hb') in Hg.
    rewrite <- Hg. now apply in_map.
Qed.

Lemma scan_entry_names e house_model base_local part path entry :
  NoDup (map PartModel.name (fst (scan_entry e house_model base_local part path entry))).
Proof.
  pose proof (scan_entry_one e house_model base_local part path entry) as Hone.
  destruct (fst (scan_entry e house_model base_local part path entry)) as [|p [|q l]].
  - constructor.
  - repeat constructor. intros [].
  - exfalso. simpl in Hone. destruct (is_candidate entry); lia.
Qed.

(** The names registered from the listing of one category. *)
Lemma category_names_distinct e house_model base_local part path entries :
  In part categories ->
  NoDup (map DirEntry.name entries) ->
  NoDup (map PartModel.name
           (flat_map (fun entry => fst (scan_entry e house_model base_local part path entry))
                     entries)).
Proof.
  intros Hcat Hnames.
  apply (NoDup_flat_map_key _ _
           (fun entry => (HouseModel.name house_model ++ "." ++ part ++ "."
                          ++ DirEntry.name entry)%string)).
  - intros entry p _ Hp. apply scan_entry_row in Hp as (_ & _ & _ & Hname & _).
    now rewrite Hname, part_name_of_eq.
  - clear -Hcat Hnames. induction entries as [|entry entries IH]; simpl; [constructor|].
    simpl in Hnames. apply NoDup_cons_iff in Hnames as [Hfresh Hnames].
    constructor; [|auto].
    intros Hin. apply Hfresh. apply in_map_iff in Hin as (entry' & Heq & Hin).
    apply part_name_inj in Heq as [_ Heq]; try assumption.
    rewrite <- Heq. now apply in_map.
  - intros entry _. apply scan_entry_names.
Qed.

Lemma categories_names_distinct e house_model base_local (cats : list (string * string)) :
  NoDup (map fst cats) ->
  (forall part part_dir, In (part, part_dir) cats -> In part categories) ->
  (forall part part_dir, In (part, part_dir) cats ->
     NoDup (map DirEntry.name (category_entries e house_model part_dir))) ->
  NoDup (map PartModel.name
           (flat_map
              (fun '(part, part_dir) =>
                 flat_map (fun entry => fst (scan_entry e house_model base_local part
                                               (category_path house_model part_dir) entry))
                          (category_entries e house_model part_dir))
              cats)).
Proof.
  induction cats as [|[part part_dir] cats IH]; intros Hparts Hcats Hnames;
    [constructor|].
  cbn [flat_map]. rewrite map_app. simpl in Hparts.
  apply NoDup_cons_iff in Hparts as [Hfresh Hparts].
  apply NoDup_app_intro.
  - apply category_names_distinct; [eapply Hcats|eapply Hnames]; now left.
  - apply IH; [exact Hparts| |]; intros p d Hin; [eapply Hcats|eapply Hnames]; right; eauto.
  - intros n Hn Hn'.
    apply in_map_iff in Hn as (p1 & <- & Hp1).
    apply in_map_iff in Hn' as (p2 & Heq & Hp2).
    apply in_flat_map in Hp1 as (entry1 & _ & Hp1).
    apply in_flat_map in Hp2 as ([part2 dir2] & Hin2 & Hp2).
    apply in_flat_map in Hp2 as (entry2 & _ & Hp2).
    apply scan_entry_row in Hp1 as (_ & _ & _ & Hname1 & _).
    apply scan_entry_row in Hp2 as (_ & _ & _ & Hname2 & _).
    rewrite Hname1, Hname2, !part_name_of_eq in Heq.
    apply part_name_inj in Heq as [Heq _].
    + apply Hfresh. rewrite <- Heq. apply (in_map fst _ _ Hin2).
    + eapply Hcats. right. exact Hin2.
    + eapply Hcats. now left.
Qed.

Lemma part_dict_distinct : NoDup (map fst part_dict).
Proof.
  simpl. repeat (constructor; [simpl; intuition discriminate|]). constructor.
Qed.

(** X17. When every category directory of a house lists entries of
    distinct names, the part rows that a scan of the house registers have
    pairwise distinct names; so, with no session active and no category
    directory failing to list, the rows that [import_part_to_db] appends
    to the store have pairwise distinct names. *)
Theorem scanned_names_distinct (house_model : HouseModel.t) (x : HouseManager) :
  (forall part part_dir,
     In (part, part_dir) part_dict ->
     NoDup (map DirEntry.name (category_entries (env x) house_model part_dir))) ->
  NoDup (map PartModel.name (registered_parts (env x) house_model))
  /\ (_session x = None ->
      listable (env x) house_model ->
      exists rows x',
        import_part_to_db house_model x = (Ok tt, x')
        /\ house_part (store x') = house_part (store x) ++ rows
        /\ NoDup (map PartModel.name rows)).
Proof.
  intros Hnames.
  assert (Hdistinct : NoDup (map PartModel.name (registered_parts (env x) house_model))).
  { unfold registered_parts. apply categories_names_distinct.
    - exact part_dict_distinct.
    - exact part_dict_categories.
    - exact Hnames. }
  split; [exact Hdistinct|].
  intros Hidle Hl. rewrite import_part_to_db_idle by assumption.
  rewrite scan_house_listable by assumption.
  destruct (negb (lexists (env x) (HouseModel.local house_model))).
  - exists []. eexists. split; [reflexivity|].
    cbn [store idle add_parts house_part]. split; [reflexivity|constructor].
  - exists (registered_parts (env x) house_model). eexists. split; [reflexivity|].
    cbn [store idle add_parts house_part]. split; [reflexivity|exact Hdistinct].
Qed.

Lemma scanned_names_distinct_witness :
  (forall part part_dir,
     In (part, part_dir) part_dict ->
     NoDup (map DirEntry.name (category_entries Example.env_b Example.myhouse part_dir)))
  /\ map PartModel.name (registered_parts Example.env_b Example.myhouse)
     = ["myhouse.sg.foo"; "myhouse.sg.baz"; "myhouse.sys.foo"]
  /\ NoDup (map PartModel.name (registered_parts Example.env_b Example.myhouse)).
Proof.
  assert (Hnames : forall part part_dir,
             In (part, part_dir) part_dict ->
             NoDup (map DirEntry.name
                      (category_entries Example.env_b Example.myhouse part_dir))).
  { intros part part_dir Hin. simpl in Hin.
    repeat (destruct Hin as [[= <- <-]|Hin];
            [vm_compute; repeat (constructor; [simpl; intuition discriminate|]); constructor|]).
    destruct Hin. }
  split; [exact Hnames|]. split; [reflexivity|].
  apply (scanned_names_distinct Example.myhouse
           (set_env Example.x0 Example.env_b) Hnames).
Defined.

Lemma find_unique {A} (g : A -> string) (l : list A) (a : A) :
  NoDup (map g l) -> In a l -> find (fun p => g p =? g a)%string l = Some a.
Proof.
  induction l as [|b l IH]; simpl; [intros _ []|].
  rewrite NoDup_cons_iff. intros [Hfresh Hl] [->|Hin].
  - now rewrite String.eqb_refl.
  - destruct (g b =? g a)%string eqn:Hb; [|auto].
    exfalso. apply String.eqb_eq in Hb. apply Hfresh. rewrite Hb. now apply in_map.
Qed.

Lemma find_app_none {A} (f : A -> bool) (l1 l2 : list A) :
  find f l1 = None -> find f (l1 ++ l2) = find f l2.
Proof.
  induction l1 as [|a l1 IH]; simpl; [reflexivity|].
  destruct (f a); [discriminate|auto].
Qed.

(** X18. What [add_remote_house] registers, [get_part_info] returns.
    With no session active, after an [add_remote_house] that returned,
    when in the fetched tree no category directory fails to list and each
    lists entries of distinct names: for every part row of the scan whose
    name no earlier part row bore, [get_part_info] of that name returns
    the name with the author, version and doc of that very row. *)
Theorem add_then_part_info
    (rmtree : string -> Env -> Env * option exn)
    (clone_from : option string -> string -> option string -> Env -> Env * bool)
    (name url branch : string) (x x1 : HouseManager) (part_model : PartModel.t) :
  _session x = None ->
  add_remote_house rmtree clone_from name url branch x = (Ok tt, x1) ->
  listable (env x1) (remote_house (remote_cache_dir x) name url branch) ->
  (forall part part_dir,
     In (part, part_dir) part_dict ->
     NoDup (map DirEntry.name
              (category_entries (env x1) (remote_house (remote_cache_dir x) name url branch)
                                part_dir))) ->
  find_part (PartModel.name part_model) (store x) = None ->
  In part_model (house_part (store x1)) ->
  fst (get_part_info (PartModel.name part_model) x1)
  = Ok {| PartInfo.name := PartModel.name part_model;
          PartInfo.author := PartModel.author part_model;
          PartInfo.version := PartModel.version part_model;
          PartInfo.doc := PartModel.doc part_model |}.
Proof.
  intros Hidle Hrun.
  destruct (add_remote_house_ok _ _ _ _ _ _ _ Hidle Hrun)
    as (Hnone & e' & evs & rows & (evs2 & Hscan) & ->).
  cbn [env store idle add_house add_parts house_part].
  intros Hl Hnames Hfresh Hin.
  rewrite scan_house_listable in Hscan by exact Hl.
  assert (Hrows : NoDup (map PartModel.name rows)).
  { destruct (negb (lexists e' _)); injection Hscan as <- _; [constructor|].
    unfold registered_parts. apply categories_names_distinct.
    - exact part_dict_distinct.
    - exact part_dict_categories.
    - exact Hnames. }
  assert (Hin' : In part_model rows).
  { apply in_app_iff in Hin as [Hin|Hin]; [|exact Hin]. exfalso.
    unfold find_part, first in Hfresh. apply find_none_forall in Hfresh.
    rewrite Forall_forall in Hfresh. specialize (Hfresh _ Hin). simpl in Hfresh.
    now rewrite String.eqb_refl in Hfresh. }
  erewrite get_part_info_idle; [reflexivity|reflexivity|].
  unfold find_part, first in *. cbn [store idle add_house add_parts house_part].
  rewrite find_app_none by exact Hfresh.
  now apply (find_unique PartModel.name).
Qed.

Lemma add_then_part_info_witness :
  _session Example.x0 = None
  /\ fst (get_part_info "myhouse.sys.foo"
            (snd (add_remote_house Example.rmtree Example.clone_from
                    "myhouse" Example.url "master" Example.x0)))
     = Ok {| PartInfo.name := "myhouse.sys.foo"; PartInfo.author := "fasiondog";
             PartInfo.version := "None"; PartInfo.doc := "fixed percent" |}.
Proof.
  split; [reflexivity|].
  assert (Hrun : add_remote_house Example.rmtree Example.clone_from
                   "myhouse" Example.url "master" Example.x0
                 = (Ok tt, snd (add_remote_house Example.rmtree Example.clone_from
                                  "myhouse" Example.url "master" Example.x0)))
    by (vm_compute; reflexivity).
  assert (Hl : listable Example.env_b (remote_house "/cache" "myhouse" Example.url "master")).
  { intros part part_dir Hin. simpl in Hin.
    repeat (destruct Hin as [[= <- <-]|Hin]; [vm_compute; discriminate|]).
    destruct Hin. }
  assert (Hnames : forall part part_dir,
             In (part, part_dir) part_dict ->
             NoDup (map DirEntry.name
                      (category_entries Example.env_b
                         (remote_house "/cache" "myhouse" Example.url "master") part_dir))).
  { intros part part_dir Hin. simpl in Hin.
    repeat (destruct Hin as [[= <- <-]|Hin];
            [vm_compute; repeat (constructor; [simpl; intuition discriminate|]); constructor|]).
    destruct Hin. }
  apply (add_then_part_info Example.rmtree Example.clone_from "myhouse" Example.url "master"
           Example.x0 _
           {| PartModel.house_name := "myhouse"; PartModel.part := "sys";
              PartModel.name := "myhouse.sys.foo"; PartModel.author := "fasiondog";
              PartModel.version := "None"; PartModel.doc := "fixed percent";
              PartModel.module_name := "myhouse.sys.foo.part" |}
           eq_refl Hrun Hl Hnames eq_refl).
  vm_compute. tauto.
Defined.

(* ------------------------------------------------------------------ *)
(** ** Author, version and doc from the scan to the lookup *)







